(** * Phoneme-to-viseme alignment pipeline: a shallow embedding

    The development follows [tts_pipeline.py] and [llm_tts_pipeline.py].
    A Python [str] is the list of its Unicode code points; the character
    classes and the case mapping of [str.isspace], [str.isalpha],
    [str.isdigit], [str.isupper] and [str.upper] are the tables of Unicode
    14.0.0 that CPython 3.11 carries. Python [float] is IEEE-754 binary64,
    embedded as Rocq's primitive [float] with the operations of [PrimFloat];
    Python [int] is [Z]; a [dict] is a [gmap], a [set] a [gset]; an
    exception is an explicit error value. *)

From Stdlib Require Import Rbase Rfunctions Lra ZArith NArith List String Ascii Bool Lia Floats.
From stdpp Require Import gmap strings.

Set Warnings "-inexact-float".
Open Scope string_scope.
Open Scope list_scope.

(** ** Python strings *)

(** A [str]: its code points, in order. *)
Abbreviation str := (list N).

(** The [str] of an ASCII literal. *)
Definition u (s : string) : str := map N_of_ascii (list_ascii_of_string s).

(** ** The Unicode tables *)

(** The code points [str.isspace] holds of (Unicode 14.0.0), as ranges. *)
Definition SPACE : list (N * N) :=
  [(9, 13); (28, 32); (133, 133); (160, 160); (5760, 5760); (8192, 8202);
   (8232, 8233); (8239, 8239); (8287, 8287); (12288, 12288)]%N.

(** The code points [str.isalpha] holds of. *)
Definition ALPHA : list (N * N) :=
  [(65, 90); (97, 122); (170, 170); (181, 181); (186, 186); (192, 214);
   (216, 246); (248, 705); (710, 721); (736, 740); (748, 748); (750, 750);
   (880, 884); (886, 887); (890, 893); (895, 895); (902, 902); (904, 906);
   (908, 908); (910, 929); (931, 1013); (1015, 1153); (1162, 1327);
   (1329, 1366); (1369, 1369); (1376, 1416); (1488, 1514); (1519, 1522);
   (1568, 1610); (1646, 1647); (1649, 1747); (1749, 1749); (1765, 1766);
   (1774, 1775); (1786, 1788); (1791, 1791); (1808, 1808); (1810, 1839);
   (1869, 1957); (1969, 1969); (1994, 2026); (2036, 2037); (2042, 2042);
   (2048, 2069); (2074, 2074); (2084, 2084); (2088, 2088); (2112, 2136);
   (2144, 2154); (2160, 2183); (2185, 2190); (2208, 2249); (2308, 2361);
   (2365, 2365); (2384, 2384); (2392, 2401); (2417, 2432); (2437, 2444);
   (2447, 2448); (2451, 2472); (2474, 2480); (2482, 2482); (2486, 2489);
   (2493, 2493); (2510, 2510); (2524, 2525); (2527, 2529); (2544, 2545);
   (2556, 2556); (2565, 2570); (2575, 2576); (2579, 2600); (2602, 2608);
   (2610, 2611); (2613, 2614); (2616, 2617); (2649, 2652); (2654, 2654);
   (2674, 2676); (2693, 2701); (2703, 2705); (2707, 2728); (2730, 2736);
   (2738, 2739); (2741, 2745); (2749, 2749); (2768, 2768); (2784, 2785);
   (2809, 2809); (2821, 2828); (2831, 2832); (2835, 2856); (2858, 2864);
   (2866, 2867); (2869, 2873); (2877, 2877); (2908, 2909); (2911, 2913);
   (2929, 2929); (2947, 2947); (2949, 2954); (2958, 2960); (2962, 2965);
   (2969, 2970); (2972, 2972); (2974, 2975); (2979, 2980); (2984, 2986);
   (2990, 3001); (3024, 3024); (3077, 3084); (3086, 3088); (3090, 3112);
   (3114, 3129); (3133, 3133); (3160, 3162); (3165, 3165); (3168, 3169);
   (3200, 3200); (3205, 3212); (3214, 3216); (3218, 3240); (3242, 3251);
   (3253, 3257); (3261, 3261); (3293, 3294); (3296, 3297); (3313, 3314);
   (3332, 3340); (3342, 3344); (3346, 3386); (3389, 3389); (3406, 3406);
   (3412, 3414); (3423, 3425); (3450, 3455); (3461, 3478); (3482, 3505);
   (3507, 3515); (3517, 3517); (3520, 3526); (3585, 3632); (3634, 3635);
   (3648, 3654); (3713, 3714); (3716, 3716); (3718, 3722); (3724, 3747);
   (3749, 3749); (3751, 3760); (3762, 3763); (3773, 3773); (3776, 3780);
   (3782, 3782); (3804, 3807); (3840, 3840); (3904, 3911); (3913, 3948);
   (3976, 3980); (4096, 4138); (4159, 4159); (4176, 4181); (4186, 4189);
   (4193, 4193); (4197, 4198); (4206, 4208); (4213, 4225); (4238, 4238);
   (4256, 4293); (4295, 4295); (4301, 4301); (4304, 4346); (4348, 4680);
   (4682, 4685); (4688, 4694); (4696, 4696); (4698, 4701); (4704, 4744);
   (4746, 4749); (4752, 4784); (4786, 4789); (4792, 4798); (4800, 4800);
   (4802, 4805); (4808, 4822); (4824, 4880); (4882, 4885); (4888, 4954);
   (4992, 5007); (5024, 5109); (5112, 5117); (5121, 5740); (5743, 5759);
   (5761, 5786); (5792, 5866); (5873, 5880); (5888, 5905); (5919, 5937);
   (5952, 5969); (5984, 5996); (5998, 6000); (6016, 6067); (6103, 6103);
   (6108, 6108); (6176, 6264); (6272, 6276); (6279, 6312); (6314, 6314);
   (6320, 6389); (6400, 6430); (6480, 6509); (6512, 6516); (6528, 6571);
   (6576, 6601); (6656, 6678); (6688, 6740); (6823, 6823); (6917, 6963);
   (6981, 6988); (7043, 7072); (7086, 7087); (7098, 7141); (7168, 7203);
   (7245, 7247); (7258, 7293); (7296, 7304); (7312, 7354); (7357, 7359);
   (7401, 7404); (7406, 7411); (7413, 7414); (7418, 7418); (7424, 7615);
   (7680, 7957); (7960, 7965); (7968, 8005); (8008, 8013); (8016, 8023);
   (8025, 8025); (8027, 8027); (8029, 8029); (8031, 8061); (8064, 8116);
   (8118, 8124); (8126, 8126); (8130, 8132); (8134, 8140); (8144, 8147);
   (8150, 8155); (8160, 8172); (8178, 8180); (8182, 8188); (8305, 8305);
   (8319, 8319); (8336, 8348); (8450, 8450); (8455, 8455); (8458, 8467);
   (8469, 8469); (8473, 8477); (8484, 8484); (8486, 8486); (8488, 8488);
   (8490, 8493); (8495, 8505); (8508, 8511); (8517, 8521); (8526, 8526);
   (8579, 8580); (11264, 11492); (11499, 11502); (11506, 11507);
   (11520, 11557); (11559, 11559); (11565, 11565); (11568, 11623);
   (11631, 11631); (11648, 11670); (11680, 11686); (11688, 11694);
   (11696, 11702); (11704, 11710); (11712, 11718); (11720, 11726);
   (11728, 11734); (11736, 11742); (11823, 11823); (12293, 12294);
   (12337, 12341); (12347, 12348); (12353, 12438); (12445, 12447);
   (12449, 12538); (12540, 12543); (12549, 12591); (12593, 12686);
   (12704, 12735); (12784, 12799); (13312, 19903); (19968, 42124);
   (42192, 42237); (42240, 42508); (42512, 42527); (42538, 42539);
   (42560, 42606); (42623, 42653); (42656, 42725); (42775, 42783);
   (42786, 42888); (42891, 42954); (42960, 42961); (42963, 42963);
   (42965, 42969); (42994, 43009); (43011, 43013); (43015, 43018);
   (43020, 43042); (43072, 43123); (43138, 43187); (43250, 43255);
   (43259, 43259); (43261, 43262); (43274, 43301); (43312, 43334);
   (43360, 43388); (43396, 43442); (43471, 43471); (43488, 43492);
   (43494, 43503); (43514, 43518); (43520, 43560); (43584, 43586);
   (43588, 43595); (43616, 43638); (43642, 43642); (43646, 43695);
   (43697, 43697); (43701, 43702); (43705, 43709); (43712, 43712);
   (43714, 43714); (43739, 43741); (43744, 43754); (43762, 43764);
   (43777, 43782); (43785, 43790); (43793, 43798); (43808, 43814);
   (43816, 43822); (43824, 43866); (43868, 43881); (43888, 44002);
   (44032, 55203); (55216, 55238); (55243, 55291); (63744, 64109);
   (64112, 64217); (64256, 64262); (64275, 64279); (64285, 64285);
   (64287, 64296); (64298, 64310); (64312, 64316); (64318, 64318);
   (64320, 64321); (64323, 64324); (64326, 64433); (64467, 64829);
   (64848, 64911); (64914, 64967); (65008, 65019); (65136, 65140);
   (65142, 65276); (65313, 65338); (65345, 65370); (65382, 65470);
   (65474, 65479); (65482, 65487); (65490, 65495); (65498, 65500);
   (65536, 65547); (65549, 65574); (65576, 65594); (65596, 65597);
   (65599, 65613); (65616, 65629); (65664, 65786); (66176, 66204);
   (66208, 66256); (66304, 66335); (66349, 66368); (66370, 66377);
   (66384, 66421); (66432, 66461); (66464, 66499); (66504, 66511);
   (66560, 66717); (66736, 66771); (66776, 66811); (66816, 66855);
   (66864, 66915); (66928, 66938); (66940, 66954); (66956, 66962);
   (66964, 66965); (66967, 66977); (66979, 66993); (66995, 67001);
   (67003, 67004); (67072, 67382); (67392, 67413); (67424, 67431);
   (67456, 67461); (67463, 67504); (67506, 67514); (67584, 67589);
   (67592, 67592); (67594, 67637); (67639, 67640); (67644, 67644);
   (67647, 67669); (67680, 67702); (67712, 67742); (67808, 67826);
   (67828, 67829); (67840, 67861); (67872, 67897); (67968, 68023);
   (68030, 68031); (68096, 68096); (68112, 68115); (68117, 68119);
   (68121, 68149); (68192, 68220); (68224, 68252); (68288, 68295);
   (68297, 68324); (68352, 68405); (68416, 68437); (68448, 68466);
   (68480, 68497); (68608, 68680); (68736, 68786); (68800, 68850);
   (68864, 68899); (69248, 69289); (69296, 69297); (69376, 69404);
   (69415, 69415); (69424, 69445); (69488, 69505); (69552, 69572);
   (69600, 69622); (69635, 69687); (69745, 69746); (69749, 69749);
   (69763, 69807); (69840, 69864); (69891, 69926); (69956, 69956);
   (69959, 69959); (69968, 70002); (70006, 70006); (70019, 70066);
   (70081, 70084); (70106, 70106); (70108, 70108); (70144, 70161);
   (70163, 70187); (70272, 70278); (70280, 70280); (70282, 70285);
   (70287, 70301); (70303, 70312); (70320, 70366); (70405, 70412);
   (70415, 70416); (70419, 70440); (70442, 70448); (70450, 70451);
   (70453, 70457); (70461, 70461); (70480, 70480); (70493, 70497);
   (70656, 70708); (70727, 70730); (70751, 70753); (70784, 70831);
   (70852, 70853); (70855, 70855); (71040, 71086); (71128, 71131);
   (71168, 71215); (71236, 71236); (71296, 71338); (71352, 71352);
   (71424, 71450); (71488, 71494); (71680, 71723); (71840, 71903);
   (71935, 71942); (71945, 71945); (71948, 71955); (71957, 71958);
   (71960, 71983); (71999, 71999); (72001, 72001); (72096, 72103);
   (72106, 72144); (72161, 72161); (72163, 72163); (72192, 72192);
   (72203, 72242); (72250, 72250); (72272, 72272); (72284, 72329);
   (72349, 72349); (72368, 72440); (72704, 72712); (72714, 72750);
   (72768, 72768); (72818, 72847); (72960, 72966); (72968, 72969);
   (72971, 73008); (73030, 73030); (73056, 73061); (73063, 73064);
   (73066, 73097); (73112, 73112); (73440, 73458); (73648, 73648);
   (73728, 74649); (74880, 75075); (77712, 77808); (77824, 78894);
   (82944, 83526); (92160, 92728); (92736, 92766); (92784, 92862);
   (92880, 92909); (92928, 92975); (92992, 92995); (93027, 93047);
   (93053, 93071); (93760, 93823); (93952, 94026); (94032, 94032);
   (94099, 94111); (94176, 94177); (94179, 94179); (94208, 100343);
   (100352, 101589); (101632, 101640); (110576, 110579); (110581, 110587);
   (110589, 110590); (110592, 110882); (110928, 110930); (110948, 110951);
   (110960, 111355); (113664, 113770); (113776, 113788); (113792, 113800);
   (113808, 113817); (119808, 119892); (119894, 119964); (119966, 119967);
   (119970, 119970); (119973, 119974); (119977, 119980); (119982, 119993);
   (119995, 119995); (119997, 120003); (120005, 120069); (120071, 120074);
   (120077, 120084); (120086, 120092); (120094, 120121); (120123, 120126);
   (120128, 120132); (120134, 120134); (120138, 120144); (120146, 120485);
   (120488, 120512); (120514, 120538); (120540, 120570); (120572, 120596);
   (120598, 120628); (120630, 120654); (120656, 120686); (120688, 120712);
   (120714, 120744); (120746, 120770); (120772, 120779); (122624, 122654);
   (123136, 123180); (123191, 123197); (123214, 123214); (123536, 123565);
   (123584, 123627); (124896, 124902); (124904, 124907); (124909, 124910);
   (124912, 124926); (124928, 125124); (125184, 125251); (125259, 125259);
   (126464, 126467); (126469, 126495); (126497, 126498); (126500, 126500);
   (126503, 126503); (126505, 126514); (126516, 126519); (126521, 126521);
   (126523, 126523); (126530, 126530); (126535, 126535); (126537, 126537);
   (126539, 126539); (126541, 126543); (126545, 126546); (126548, 126548);
   (126551, 126551); (126553, 126553); (126555, 126555); (126557, 126557);
   (126559, 126559); (126561, 126562); (126564, 126564); (126567, 126570);
   (126572, 126578); (126580, 126583); (126585, 126588); (126590, 126590);
   (126592, 126601); (126603, 126619); (126625, 126627); (126629, 126633);
   (126635, 126651); (131072, 173791); (173824, 177976); (177984, 178205);
   (178208, 183969); (183984, 191456); (194560, 195101); (196608, 201546)]%N.

(** The code points [str.isdigit] holds of. *)
Definition DIGIT : list (N * N) :=
  [(48, 57); (178, 179); (185, 185); (1632, 1641); (1776, 1785);
   (1984, 1993); (2406, 2415); (2534, 2543); (2662, 2671); (2790, 2799);
   (2918, 2927); (3046, 3055); (3174, 3183); (3302, 3311); (3430, 3439);
   (3558, 3567); (3664, 3673); (3792, 3801); (3872, 3881); (4160, 4169);
   (4240, 4249); (4969, 4977); (6112, 6121); (6160, 6169); (6470, 6479);
   (6608, 6618); (6784, 6793); (6800, 6809); (6992, 7001); (7088, 7097);
   (7232, 7241); (7248, 7257); (8304, 8304); (8308, 8313); (8320, 8329);
   (9312, 9320); (9332, 9340); (9352, 9360); (9450, 9450); (9461, 9469);
   (9471, 9471); (10102, 10110); (10112, 10120); (10122, 10130);
   (42528, 42537); (43216, 43225); (43264, 43273); (43472, 43481);
   (43504, 43513); (43600, 43609); (44016, 44025); (65296, 65305);
   (66720, 66729); (68160, 68163); (68912, 68921); (69216, 69224);
   (69714, 69722); (69734, 69743); (69872, 69881); (69942, 69951);
   (70096, 70105); (70384, 70393); (70736, 70745); (70864, 70873);
   (71248, 71257); (71360, 71369); (71472, 71481); (71904, 71913);
   (72016, 72025); (72784, 72793); (73040, 73049); (73120, 73129);
   (92768, 92777); (92864, 92873); (93008, 93017); (120782, 120831);
   (123200, 123209); (123632, 123641); (125264, 125273); (127232, 127242);
   (130032, 130041)]%N.




(** The code points [str.upper] changes, each with what it becomes. *)
Definition TOUPPER : list (N * list N) :=
  [(97, [65]); (98, [66]); (99, [67]); (100, [68]); (101, [69]); (102, [70]);
   (103, [71]); (104, [72]); (105, [73]); (106, [74]); (107, [75]);
   (108, [76]); (109, [77]); (110, [78]); (111, [79]); (112, [80]);
   (113, [81]); (114, [82]); (115, [83]); (116, [84]); (117, [85]);
   (118, [86]); (119, [87]); (120, [88]); (121, [89]); (122, [90]);
   (181, [924]); (223, [83; 83]); (224, [192]); (225, [193]); (226, [194]);
   (227, [195]); (228, [196]); (229, [197]); (230, [198]); (231, [199]);
   (232, [200]); (233, [201]); (234, [202]); (235, [203]); (236, [204]);
   (237, [205]); (238, [206]); (239, [207]); (240, [208]); (241, [209]);
   (242, [210]); (243, [211]); (244, [212]); (245, [213]); (246, [214]);
   (248, [216]); (249, [217]); (250, [218]); (251, [219]); (252, [220]);
   (253, [221]); (254, [222]); (255, [376]); (257, [256]); (259, [258]);
   (261, [260]); (263, [262]); (265, [264]); (267, [266]); (269, [268]);
   (271, [270]); (273, [272]); (275, [274]); (277, [276]); (279, [278]);
   (281, [280]); (283, [282]); (285, [284]); (287, [286]); (289, [288]);
   (291, [290]); (293, [292]); (295, [294]); (297, [296]); (299, [298]);
   (301, [300]); (303, [302]); (305, [73]); (307, [306]); (309, [308]);
   (311, [310]); (314, [313]); (316, [315]); (318, [317]); (320, [319]);
   (322, [321]); (324, [323]); (326, [325]); (328, [327]); (329, [700; 78]);
   (331, [330]); (333, [332]); (335, [334]); (337, [336]); (339, [338]);
   (341, [340]); (343, [342]); (345, [344]); (347, [346]); (349, [348]);
   (351, [350]); (353, [352]); (355, [354]); (357, [356]); (359, [358]);
   (361, [360]); (363, [362]); (365, [364]); (367, [366]); (369, [368]);
   (371, [370]); (373, [372]); (375, [374]); (378, [377]); (380, [379]);
   (382, [381]); (383, [83]); (384, [579]); (387, [386]); (389, [388]);
   (392, [391]); (396, [395]); (402, [401]); (405, [502]); (409, [408]);
   (410, [573]); (414, [544]); (417, [416]); (419, [418]); (421, [420]);
   (424, [423]); (429, [428]); (432, [431]); (436, [435]); (438, [437]);
   (441, [440]); (445, [444]); (447, [503]); (453, [452]); (454, [452]);
   (456, [455]); (457, [455]); (459, [458]); (460, [458]); (462, [461]);
   (464, [463]); (466, [465]); (468, [467]); (470, [469]); (472, [471]);
   (474, [473]); (476, [475]); (477, [398]); (479, [478]); (481, [480]);
   (483, [482]); (485, [484]); (487, [486]); (489, [488]); (491, [490]);
   (493, [492]); (495, [494]); (496, [74; 780]); (498, [497]); (499, [497]);
   (501, [500]); (505, [504]); (507, [506]); (509, [508]); (511, [510]);
   (513, [512]); (515, [514]); (517, [516]); (519, [518]); (521, [520]);
   (523, [522]); (525, [524]); (527, [526]); (529, [528]); (531, [530]);
   (533, [532]); (535, [534]); (537, [536]); (539, [538]); (541, [540]);
   (543, [542]); (547, [546]); (549, [548]); (551, [550]); (553, [552]);
   (555, [554]); (557, [556]); (559, [558]); (561, [560]); (563, [562]);
   (572, [571]); (575, [11390]); (576, [11391]); (578, [577]); (583, [582]);
   (585, [584]); (587, [586]); (589, [588]); (591, [590]); (592, [11375]);
   (593, [11373]); (594, [11376]); (595, [385]); (596, [390]); (598, [393]);
   (599, [394]); (601, [399]); (603, [400]); (604, [42923]); (608, [403]);
   (609, [42924]); (611, [404]); (613, [42893]); (614, [42922]);
   (616, [407]); (617, [406]); (618, [42926]); (619, [11362]);
   (620, [42925]); (623, [412]); (625, [11374]); (626, [413]); (629, [415]);
   (637, [11364]); (640, [422]); (642, [42949]); (643, [425]);
   (647, [42929]); (648, [430]); (649, [580]); (650, [433]); (651, [434]);
   (652, [581]); (658, [439]); (669, [42930]); (670, [42928]); (837, [921]);
   (881, [880]); (883, [882]); (887, [886]); (891, [1021]); (892, [1022]);
   (893, [1023]); (912, [921; 776; 769]); (940, [902]); (941, [904]);
   (942, [905]); (943, [906]); (944, [933; 776; 769]); (945, [913]);
   (946, [914]); (947, [915]); (948, [916]); (949, [917]); (950, [918]);
   (951, [919]); (952, [920]); (953, [921]); (954, [922]); (955, [923]);
   (956, [924]); (957, [925]); (958, [926]); (959, [927]); (960, [928]);
   (961, [929]); (962, [931]); (963, [931]); (964, [932]); (965, [933]);
   (966, [934]); (967, [935]); (968, [936]); (969, [937]); (970, [938]);
   (971, [939]); (972, [908]); (973, [910]); (974, [911]); (976, [914]);
   (977, [920]); (981, [934]); (982, [928]); (983, [975]); (985, [984]);
   (987, [986]); (989, [988]); (991, [990]); (993, [992]); (995, [994]);
   (997, [996]); (999, [998]); (1001, [1000]); (1003, [1002]);
   (1005, [1004]); (1007, [1006]); (1008, [922]); (1009, [929]);
   (1010, [1017]); (1011, [895]); (1013, [917]); (1016, [1015]);
   (1019, [1018]); (1072, [1040]); (1073, [1041]); (1074, [1042]);
   (1075, [1043]); (1076, [1044]); (1077, [1045]); (1078, [1046]);
   (1079, [1047]); (1080, [1048]); (1081, [1049]); (1082, [1050]);
   (1083, [1051]); (1084, [1052]); (1085, [1053]); (1086, [1054]);
   (1087, [1055]); (1088, [1056]); (1089, [1057]); (1090, [1058]);
   (1091, [1059]); (1092, [1060]); (1093, [1061]); (1094, [1062]);
   (1095, [1063]); (1096, [1064]); (1097, [1065]); (1098, [1066]);
   (1099, [1067]); (1100, [1068]); (1101, [1069]); (1102, [1070]);
   (1103, [1071]); (1104, [1024]); (1105, [1025]); (1106, [1026]);
   (1107, [1027]); (1108, [1028]); (1109, [1029]); (1110, [1030]);
   (1111, [1031]); (1112, [1032]); (1113, [1033]); (1114, [1034]);
   (1115, [1035]); (1116, [1036]); (1117, [1037]); (1118, [1038]);
   (1119, [1039]); (1121, [1120]); (1123, [1122]); (1125, [1124]);
   (1127, [1126]); (1129, [1128]); (1131, [1130]); (1133, [1132]);
   (1135, [1134]); (1137, [1136]); (1139, [1138]); (1141, [1140]);
   (1143, [1142]); (1145, [1144]); (1147, [1146]); (1149, [1148]);
   (1151, [1150]); (1153, [1152]); (1163, [1162]); (1165, [1164]);
   (1167, [1166]); (1169, [1168]); (1171, [1170]); (1173, [1172]);
   (1175, [1174]); (1177, [1176]); (1179, [1178]); (1181, [1180]);
   (1183, [1182]); (1185, [1184]); (1187, [1186]); (1189, [1188]);
   (1191, [1190]); (1193, [1192]); (1195, [1194]); (1197, [1196]);
   (1199, [1198]); (1201, [1200]); (1203, [1202]); (1205, [1204]);
   (1207, [1206]); (1209, [1208]); (1211, [1210]); (1213, [1212]);
   (1215, [1214]); (1218, [1217]); (1220, [1219]); (1222, [1221]);
   (1224, [1223]); (1226, [1225]); (1228, [1227]); (1230, [1229]);
   (1231, [1216]); (1233, [1232]); (1235, [1234]); (1237, [1236]);
   (1239, [1238]); (1241, [1240]); (1243, [1242]); (1245, [1244]);
   (1247, [1246]); (1249, [1248]); (1251, [1250]); (1253, [1252]);
   (1255, [1254]); (1257, [1256]); (1259, [1258]); (1261, [1260]);
   (1263, [1262]); (1265, [1264]); (1267, [1266]); (1269, [1268]);
   (1271, [1270]); (1273, [1272]); (1275, [1274]); (1277, [1276]);
   (1279, [1278]); (1281, [1280]); (1283, [1282]); (1285, [1284]);
   (1287, [1286]); (1289, [1288]); (1291, [1290]); (1293, [1292]);
   (1295, [1294]); (1297, [1296]); (1299, [1298]); (1301, [1300]);
   (1303, [1302]); (1305, [1304]); (1307, [1306]); (1309, [1308]);
   (1311, [1310]); (1313, [1312]); (1315, [1314]); (1317, [1316]);
   (1319, [1318]); (1321, [1320]); (1323, [1322]); (1325, [1324]);
   (1327, [1326]); (1377, [1329]); (1378, [1330]); (1379, [1331]);
   (1380, [1332]); (1381, [1333]); (1382, [1334]); (1383, [1335]);
   (1384, [1336]); (1385, [1337]); (1386, [1338]); (1387, [1339]);
   (1388, [1340]); (1389, [1341]); (1390, [1342]); (1391, [1343]);
   (1392, [1344]); (1393, [1345]); (1394, [1346]); (1395, [1347]);
   (1396, [1348]); (1397, [1349]); (1398, [1350]); (1399, [1351]);
   (1400, [1352]); (1401, [1353]); (1402, [1354]); (1403, [1355]);
   (1404, [1356]); (1405, [1357]); (1406, [1358]); (1407, [1359]);
   (1408, [1360]); (1409, [1361]); (1410, [1362]); (1411, [1363]);
   (1412, [1364]); (1413, [1365]); (1414, [1366]); (1415, [1333; 1362]);
   (4304, [7312]); (4305, [7313]); (4306, [7314]); (4307, [7315]);
   (4308, [7316]); (4309, [7317]); (4310, [7318]); (4311, [7319]);
   (4312, [7320]); (4313, [7321]); (4314, [7322]); (4315, [7323]);
   (4316, [7324]); (4317, [7325]); (4318, [7326]); (4319, [7327]);
   (4320, [7328]); (4321, [7329]); (4322, [7330]); (4323, [7331]);
   (4324, [7332]); (4325, [7333]); (4326, [7334]); (4327, [7335]);
   (4328, [7336]); (4329, [7337]); (4330, [7338]); (4331, [7339]);
   (4332, [7340]); (4333, [7341]); (4334, [7342]); (4335, [7343]);
   (4336, [7344]); (4337, [7345]); (4338, [7346]); (4339, [7347]);
   (4340, [7348]); (4341, [7349]); (4342, [7350]); (4343, [7351]);
   (4344, [7352]); (4345, [7353]); (4346, [7354]); (4349, [7357]);
   (4350, [7358]); (4351, [7359]); (5112, [5104]); (5113, [5105]);
   (5114, [5106]); (5115, [5107]); (5116, [5108]); (5117, [5109]);
   (7296, [1042]); (7297, [1044]); (7298, [1054]); (7299, [1057]);
   (7300, [1058]); (7301, [1058]); (7302, [1066]); (7303, [1122]);
   (7304, [42570]); (7545, [42877]); (7549, [11363]); (7566, [42950]);
   (7681, [7680]); (7683, [7682]); (7685, [7684]); (7687, [7686]);
   (7689, [7688]); (7691, [7690]); (7693, [7692]); (7695, [7694]);
   (7697, [7696]); (7699, [7698]); (7701, [7700]); (7703, [7702]);
   (7705, [7704]); (7707, [7706]); (7709, [7708]); (7711, [7710]);
   (7713, [7712]); (7715, [7714]); (7717, [7716]); (7719, [7718]);
   (7721, [7720]); (7723, [7722]); (7725, [7724]); (7727, [7726]);
   (7729, [7728]); (7731, [7730]); (7733, [7732]); (7735, [7734]);
   (7737, [7736]); (7739, [7738]); (7741, [7740]); (7743, [7742]);
   (7745, [7744]); (7747, [7746]); (7749, [7748]); (7751, [7750]);
   (7753, [7752]); (7755, [7754]); (7757, [7756]); (7759, [7758]);
   (7761, [7760]); (7763, [7762]); (7765, [7764]); (7767, [7766]);
   (7769, [7768]); (7771, [7770]); (7773, [7772]); (7775, [7774]);
   (7777, [7776]); (7779, [7778]); (7781, [7780]); (7783, [7782]);
   (7785, [7784]); (7787, [7786]); (7789, [7788]); (7791, [7790]);
   (7793, [7792]); (7795, [7794]); (7797, [7796]); (7799, [7798]);
   (7801, [7800]); (7803, [7802]); (7805, [7804]); (7807, [7806]);
   (7809, [7808]); (7811, [7810]); (7813, [7812]); (7815, [7814]);
   (7817, [7816]); (7819, [7818]); (7821, [7820]); (7823, [7822]);
   (7825, [7824]); (7827, [7826]); (7829, [7828]); (7830, [72; 817]);
   (7831, [84; 776]); (7832, [87; 778]); (7833, [89; 778]);
   (7834, [65; 702]); (7835, [7776]); (7841, [7840]); (7843, [7842]);
   (7845, [7844]); (7847, [7846]); (7849, [7848]); (7851, [7850]);
   (7853, [7852]); (7855, [7854]); (7857, [7856]); (7859, [7858]);
   (7861, [7860]); (7863, [7862]); (7865, [7864]); (7867, [7866]);
   (7869, [7868]); (7871, [7870]); (7873, [7872]); (7875, [7874]);
   (7877, [7876]); (7879, [7878]); (7881, [7880]); (7883, [7882]);
   (7885, [7884]); (7887, [7886]); (7889, [7888]); (7891, [7890]);
   (7893, [7892]); (7895, [7894]); (7897, [7896]); (7899, [7898]);
   (7901, [7900]); (7903, [7902]); (7905, [7904]); (7907, [7906]);
   (7909, [7908]); (7911, [7910]); (7913, [7912]); (7915, [7914]);
   (7917, [7916]); (7919, [7918]); (7921, [7920]); (7923, [7922]);
   (7925, [7924]); (7927, [7926]); (7929, [7928]); (7931, [7930]);
   (7933, [7932]); (7935, [7934]); (7936, [7944]); (7937, [7945]);
   (7938, [7946]); (7939, [7947]); (7940, [7948]); (7941, [7949]);
   (7942, [7950]); (7943, [7951]); (7952, [7960]); (7953, [7961]);
   (7954, [7962]); (7955, [7963]); (7956, [7964]); (7957, [7965]);
   (7968, [7976]); (7969, [7977]); (7970, [7978]); (7971, [7979]);
   (7972, [7980]); (7973, [7981]); (7974, [7982]); (7975, [7983]);
   (7984, [7992]); (7985, [7993]); (7986, [7994]); (7987, [7995]);
   (7988, [7996]); (7989, [7997]); (7990, [7998]); (7991, [7999]);
   (8000, [8008]); (8001, [8009]); (8002, [8010]); (8003, [8011]);
   (8004, [8012]); (8005, [8013]); (8016, [933; 787]); (8017, [8025]);
   (8018, [933; 787; 768]); (8019, [8027]); (8020, [933; 787; 769]);
   (8021, [8029]); (8022, [933; 787; 834]); (8023, [8031]); (8032, [8040]);
   (8033, [8041]); (8034, [8042]); (8035, [8043]); (8036, [8044]);
   (8037, [8045]); (8038, [8046]); (8039, [8047]); (8048, [8122]);
   (8049, [8123]); (8050, [8136]); (8051, [8137]); (8052, [8138]);
   (8053, [8139]); (8054, [8154]); (8055, [8155]); (8056, [8184]);
   (8057, [8185]); (8058, [8170]); (8059, [8171]); (8060, [8186]);
   (8061, [8187]); (8064, [7944; 921]); (8065, [7945; 921]);
   (8066, [7946; 921]); (8067, [7947; 921]); (8068, [7948; 921]);
   (8069, [7949; 921]); (8070, [7950; 921]); (8071, [7951; 921]);
   (8072, [7944; 921]); (8073, [7945; 921]); (8074, [7946; 921]);
   (8075, [7947; 921]); (8076, [7948; 921]); (8077, [7949; 921]);
   (8078, [7950; 921]); (8079, [7951; 921]); (8080, [7976; 921]);
   (8081, [7977; 921]); (8082, [7978; 921]); (8083, [7979; 921]);
   (8084, [7980; 921]); (8085, [7981; 921]); (8086, [7982; 921]);
   (8087, [7983; 921]); (8088, [7976; 921]); (8089, [7977; 921]);
   (8090, [7978; 921]); (8091, [7979; 921]); (8092, [7980; 921]);
   (8093, [7981; 921]); (8094, [7982; 921]); (8095, [7983; 921]);
   (8096, [8040; 921]); (8097, [8041; 921]); (8098, [8042; 921]);
   (8099, [8043; 921]); (8100, [8044; 921]); (8101, [8045; 921]);
   (8102, [8046; 921]); (8103, [8047; 921]); (8104, [8040; 921]);
   (8105, [8041; 921]); (8106, [8042; 921]); (8107, [8043; 921]);
   (8108, [8044; 921]); (8109, [8045; 921]); (8110, [8046; 921]);
   (8111, [8047; 921]); (8112, [8120]); (8113, [8121]); (8114, [8122; 921]);
   (8115, [913; 921]); (8116, [902; 921]); (8118, [913; 834]);
   (8119, [913; 834; 921]); (8124, [913; 921]); (8126, [921]);
   (8130, [8138; 921]); (8131, [919; 921]); (8132, [905; 921]);
   (8134, [919; 834]); (8135, [919; 834; 921]); (8140, [919; 921]);
   (8144, [8152]); (8145, [8153]); (8146, [921; 776; 768]);
   (8147, [921; 776; 769]); (8150, [921; 834]); (8151, [921; 776; 834]);
   (8160, [8168]); (8161, [8169]); (8162, [933; 776; 768]);
   (8163, [933; 776; 769]); (8164, [929; 787]); (8165, [8172]);
   (8166, [933; 834]); (8167, [933; 776; 834]); (8178, [8186; 921]);
   (8179, [937; 921]); (8180, [911; 921]); (8182, [937; 834]);
   (8183, [937; 834; 921]); (8188, [937; 921]); (8526, [8498]);
   (8560, [8544]); (8561, [8545]); (8562, [8546]); (8563, [8547]);
   (8564, [8548]); (8565, [8549]); (8566, [8550]); (8567, [8551]);
   (8568, [8552]); (8569, [8553]); (8570, [8554]); (8571, [8555]);
   (8572, [8556]); (8573, [8557]); (8574, [8558]); (8575, [8559]);
   (8580, [8579]); (9424, [9398]); (9425, [9399]); (9426, [9400]);
   (9427, [9401]); (9428, [9402]); (9429, [9403]); (9430, [9404]);
   (9431, [9405]); (9432, [9406]); (9433, [9407]); (9434, [9408]);
   (9435, [9409]); (9436, [9410]); (9437, [9411]); (9438, [9412]);
   (9439, [9413]); (9440, [9414]); (9441, [9415]); (9442, [9416]);
   (9443, [9417]); (9444, [9418]); (9445, [9419]); (9446, [9420]);
   (9447, [9421]); (9448, [9422]); (9449, [9423]); (11312, [11264]);
   (11313, [11265]); (11314, [11266]); (11315, [11267]); (11316, [11268]);
   (11317, [11269]); (11318, [11270]); (11319, [11271]); (11320, [11272]);
   (11321, [11273]); (11322, [11274]); (11323, [11275]); (11324, [11276]);
   (11325, [11277]); (11326, [11278]); (11327, [11279]); (11328, [11280]);
   (11329, [11281]); (11330, [11282]); (11331, [11283]); (11332, [11284]);
   (11333, [11285]); (11334, [11286]); (11335, [11287]); (11336, [11288]);
   (11337, [11289]); (11338, [11290]); (11339, [11291]); (11340, [11292]);
   (11341, [11293]); (11342, [11294]); (11343, [11295]); (11344, [11296]);
   (11345, [11297]); (11346, [11298]); (11347, [11299]); (11348, [11300]);
   (11349, [11301]); (11350, [11302]); (11351, [11303]); (11352, [11304]);
   (11353, [11305]); (11354, [11306]); (11355, [11307]); (11356, [11308]);
   (11357, [11309]); (11358, [11310]); (11359, [11311]); (11361, [11360]);
   (11365, [570]); (11366, [574]); (11368, [11367]); (11370, [11369]);
   (11372, [11371]); (11379, [11378]); (11382, [11381]); (11393, [11392]);
   (11395, [11394]); (11397, [11396]); (11399, [11398]); (11401, [11400]);
   (11403, [11402]); (11405, [11404]); (11407, [11406]); (11409, [11408]);
   (11411, [11410]); (11413, [11412]); (11415, [11414]); (11417, [11416]);
   (11419, [11418]); (11421, [11420]); (11423, [11422]); (11425, [11424]);
   (11427, [11426]); (11429, [11428]); (11431, [11430]); (11433, [11432]);
   (11435, [11434]); (11437, [11436]); (11439, [11438]); (11441, [11440]);
   (11443, [11442]); (11445, [11444]); (11447, [11446]); (11449, [11448]);
   (11451, [11450]); (11453, [11452]); (11455, [11454]); (11457, [11456]);
   (11459, [11458]); (11461, [11460]); (11463, [11462]); (11465, [11464]);
   (11467, [11466]); (11469, [11468]); (11471, [11470]); (11473, [11472]);
   (11475, [11474]); (11477, [11476]); (11479, [11478]); (11481, [11480]);
   (11483, [11482]); (11485, [11484]); (11487, [11486]); (11489, [11488]);
   (11491, [11490]); (11500, [11499]); (11502, [11501]); (11507, [11506]);
   (11520, [4256]); (11521, [4257]); (11522, [4258]); (11523, [4259]);
   (11524, [4260]); (11525, [4261]); (11526, [4262]); (11527, [4263]);
   (11528, [4264]); (11529, [4265]); (11530, [4266]); (11531, [4267]);
   (11532, [4268]); (11533, [4269]); (11534, [4270]); (11535, [4271]);
   (11536, [4272]); (11537, [4273]); (11538, [4274]); (11539, [4275]);
   (11540, [4276]); (11541, [4277]); (11542, [4278]); (11543, [4279]);
   (11544, [4280]); (11545, [4281]); (11546, [4282]); (11547, [4283]);
   (11548, [4284]); (11549, [4285]); (11550, [4286]); (11551, [4287]);
   (11552, [4288]); (11553, [4289]); (11554, [4290]); (11555, [4291]);
   (11556, [4292]); (11557, [4293]); (11559, [4295]); (11565, [4301]);
   (42561, [42560]); (42563, [42562]); (42565, [42564]); (42567, [42566]);
   (42569, [42568]); (42571, [42570]); (42573, [42572]); (42575, [42574]);
   (42577, [42576]); (42579, [42578]); (42581, [42580]); (42583, [42582]);
   (42585, [42584]); (42587, [42586]); (42589, [42588]); (42591, [42590]);
   (42593, [42592]); (42595, [42594]); (42597, [42596]); (42599, [42598]);
   (42601, [42600]); (42603, [42602]); (42605, [42604]); (42625, [42624]);
   (42627, [42626]); (42629, [42628]); (42631, [42630]); (42633, [42632]);
   (42635, [42634]); (42637, [42636]); (42639, [42638]); (42641, [42640]);
   (42643, [42642]); (42645, [42644]); (42647, [42646]); (42649, [42648]);
   (42651, [42650]); (42787, [42786]); (42789, [42788]); (42791, [42790]);
   (42793, [42792]); (42795, [42794]); (42797, [42796]); (42799, [42798]);
   (42803, [42802]); (42805, [42804]); (42807, [42806]); (42809, [42808]);
   (42811, [42810]); (42813, [42812]); (42815, [42814]); (42817, [42816]);
   (42819, [42818]); (42821, [42820]); (42823, [42822]); (42825, [42824]);
   (42827, [42826]); (42829, [42828]); (42831, [42830]); (42833, [42832]);
   (42835, [42834]); (42837, [42836]); (42839, [42838]); (42841, [42840]);
   (42843, [42842]); (42845, [42844]); (42847, [42846]); (42849, [42848]);
   (42851, [42850]); (42853, [42852]); (42855, [42854]); (42857, [42856]);
   (42859, [42858]); (42861, [42860]); (42863, [42862]); (42874, [42873]);
   (42876, [42875]); (42879, [42878]); (42881, [42880]); (42883, [42882]);
   (42885, [42884]); (42887, [42886]); (42892, [42891]); (42897, [42896]);
   (42899, [42898]); (42900, [42948]); (42903, [42902]); (42905, [42904]);
   (42907, [42906]); (42909, [42908]); (42911, [42910]); (42913, [42912]);
   (42915, [42914]); (42917, [42916]); (42919, [42918]); (42921, [42920]);
   (42933, [42932]); (42935, [42934]); (42937, [42936]); (42939, [42938]);
   (42941, [42940]); (42943, [42942]); (42945, [42944]); (42947, [42946]);
   (42952, [42951]); (42954, [42953]); (42961, [42960]); (42967, [42966]);
   (42969, [42968]); (42998, [42997]); (43859, [42931]); (43888, [5024]);
   (43889, [5025]); (43890, [5026]); (43891, [5027]); (43892, [5028]);
   (43893, [5029]); (43894, [5030]); (43895, [5031]); (43896, [5032]);
   (43897, [5033]); (43898, [5034]); (43899, [5035]); (43900, [5036]);
   (43901, [5037]); (43902, [5038]); (43903, [5039]); (43904, [5040]);
   (43905, [5041]); (43906, [5042]); (43907, [5043]); (43908, [5044]);
   (43909, [5045]); (43910, [5046]); (43911, [5047]); (43912, [5048]);
   (43913, [5049]); (43914, [5050]); (43915, [5051]); (43916, [5052]);
   (43917, [5053]); (43918, [5054]); (43919, [5055]); (43920, [5056]);
   (43921, [5057]); (43922, [5058]); (43923, [5059]); (43924, [5060]);
   (43925, [5061]); (43926, [5062]); (43927, [5063]); (43928, [5064]);
   (43929, [5065]); (43930, [5066]); (43931, [5067]); (43932, [5068]);
   (43933, [5069]); (43934, [5070]); (43935, [5071]); (43936, [5072]);
   (43937, [5073]); (43938, [5074]); (43939, [5075]); (43940, [5076]);
   (43941, [5077]); (43942, [5078]); (43943, [5079]); (43944, [5080]);
   (43945, [5081]); (43946, [5082]); (43947, [5083]); (43948, [5084]);
   (43949, [5085]); (43950, [5086]); (43951, [5087]); (43952, [5088]);
   (43953, [5089]); (43954, [5090]); (43955, [5091]); (43956, [5092]);
   (43957, [5093]); (43958, [5094]); (43959, [5095]); (43960, [5096]);
   (43961, [5097]); (43962, [5098]); (43963, [5099]); (43964, [5100]);
   (43965, [5101]); (43966, [5102]); (43967, [5103]); (64256, [70; 70]);
   (64257, [70; 73]); (64258, [70; 76]); (64259, [70; 70; 73]);
   (64260, [70; 70; 76]); (64261, [83; 84]); (64262, [83; 84]);
   (64275, [1348; 1350]); (64276, [1348; 1333]); (64277, [1348; 1339]);
   (64278, [1358; 1350]); (64279, [1348; 1341]); (65345, [65313]);
   (65346, [65314]); (65347, [65315]); (65348, [65316]); (65349, [65317]);
   (65350, [65318]); (65351, [65319]); (65352, [65320]); (65353, [65321]);
   (65354, [65322]); (65355, [65323]); (65356, [65324]); (65357, [65325]);
   (65358, [65326]); (65359, [65327]); (65360, [65328]); (65361, [65329]);
   (65362, [65330]); (65363, [65331]); (65364, [65332]); (65365, [65333]);
   (65366, [65334]); (65367, [65335]); (65368, [65336]); (65369, [65337]);
   (65370, [65338]); (66600, [66560]); (66601, [66561]); (66602, [66562]);
   (66603, [66563]); (66604, [66564]); (66605, [66565]); (66606, [66566]);
   (66607, [66567]); (66608, [66568]); (66609, [66569]); (66610, [66570]);
   (66611, [66571]); (66612, [66572]); (66613, [66573]); (66614, [66574]);
   (66615, [66575]); (66616, [66576]); (66617, [66577]); (66618, [66578]);
   (66619, [66579]); (66620, [66580]); (66621, [66581]); (66622, [66582]);
   (66623, [66583]); (66624, [66584]); (66625, [66585]); (66626, [66586]);
   (66627, [66587]); (66628, [66588]); (66629, [66589]); (66630, [66590]);
   (66631, [66591]); (66632, [66592]); (66633, [66593]); (66634, [66594]);
   (66635, [66595]); (66636, [66596]); (66637, [66597]); (66638, [66598]);
   (66639, [66599]); (66776, [66736]); (66777, [66737]); (66778, [66738]);
   (66779, [66739]); (66780, [66740]); (66781, [66741]); (66782, [66742]);
   (66783, [66743]); (66784, [66744]); (66785, [66745]); (66786, [66746]);
   (66787, [66747]); (66788, [66748]); (66789, [66749]); (66790, [66750]);
   (66791, [66751]); (66792, [66752]); (66793, [66753]); (66794, [66754]);
   (66795, [66755]); (66796, [66756]); (66797, [66757]); (66798, [66758]);
   (66799, [66759]); (66800, [66760]); (66801, [66761]); (66802, [66762]);
   (66803, [66763]); (66804, [66764]); (66805, [66765]); (66806, [66766]);
   (66807, [66767]); (66808, [66768]); (66809, [66769]); (66810, [66770]);
   (66811, [66771]); (66967, [66928]); (66968, [66929]); (66969, [66930]);
   (66970, [66931]); (66971, [66932]); (66972, [66933]); (66973, [66934]);
   (66974, [66935]); (66975, [66936]); (66976, [66937]); (66977, [66938]);
   (66979, [66940]); (66980, [66941]); (66981, [66942]); (66982, [66943]);
   (66983, [66944]); (66984, [66945]); (66985, [66946]); (66986, [66947]);
   (66987, [66948]); (66988, [66949]); (66989, [66950]); (66990, [66951]);
   (66991, [66952]); (66992, [66953]); (66993, [66954]); (66995, [66956]);
   (66996, [66957]); (66997, [66958]); (66998, [66959]); (66999, [66960]);
   (67000, [66961]); (67001, [66962]); (67003, [66964]); (67004, [66965]);
   (68800, [68736]); (68801, [68737]); (68802, [68738]); (68803, [68739]);
   (68804, [68740]); (68805, [68741]); (68806, [68742]); (68807, [68743]);
   (68808, [68744]); (68809, [68745]); (68810, [68746]); (68811, [68747]);
   (68812, [68748]); (68813, [68749]); (68814, [68750]); (68815, [68751]);
   (68816, [68752]); (68817, [68753]); (68818, [68754]); (68819, [68755]);
   (68820, [68756]); (68821, [68757]); (68822, [68758]); (68823, [68759]);
   (68824, [68760]); (68825, [68761]); (68826, [68762]); (68827, [68763]);
   (68828, [68764]); (68829, [68765]); (68830, [68766]); (68831, [68767]);
   (68832, [68768]); (68833, [68769]); (68834, [68770]); (68835, [68771]);
   (68836, [68772]); (68837, [68773]); (68838, [68774]); (68839, [68775]);
   (68840, [68776]); (68841, [68777]); (68842, [68778]); (68843, [68779]);
   (68844, [68780]); (68845, [68781]); (68846, [68782]); (68847, [68783]);
   (68848, [68784]); (68849, [68785]); (68850, [68786]); (71872, [71840]);
   (71873, [71841]); (71874, [71842]); (71875, [71843]); (71876, [71844]);
   (71877, [71845]); (71878, [71846]); (71879, [71847]); (71880, [71848]);
   (71881, [71849]); (71882, [71850]); (71883, [71851]); (71884, [71852]);
   (71885, [71853]); (71886, [71854]); (71887, [71855]); (71888, [71856]);
   (71889, [71857]); (71890, [71858]); (71891, [71859]); (71892, [71860]);
   (71893, [71861]); (71894, [71862]); (71895, [71863]); (71896, [71864]);
   (71897, [71865]); (71898, [71866]); (71899, [71867]); (71900, [71868]);
   (71901, [71869]); (71902, [71870]); (71903, [71871]); (93792, [93760]);
   (93793, [93761]); (93794, [93762]); (93795, [93763]); (93796, [93764]);
   (93797, [93765]); (93798, [93766]); (93799, [93767]); (93800, [93768]);
   (93801, [93769]); (93802, [93770]); (93803, [93771]); (93804, [93772]);
   (93805, [93773]); (93806, [93774]); (93807, [93775]); (93808, [93776]);
   (93809, [93777]); (93810, [93778]); (93811, [93779]); (93812, [93780]);
   (93813, [93781]); (93814, [93782]); (93815, [93783]); (93816, [93784]);
   (93817, [93785]); (93818, [93786]); (93819, [93787]); (93820, [93788]);
   (93821, [93789]); (93822, [93790]); (93823, [93791]); (125218, [125184]);
   (125219, [125185]); (125220, [125186]); (125221, [125187]);
   (125222, [125188]); (125223, [125189]); (125224, [125190]);
   (125225, [125191]); (125226, [125192]); (125227, [125193]);
   (125228, [125194]); (125229, [125195]); (125230, [125196]);
   (125231, [125197]); (125232, [125198]); (125233, [125199]);
   (125234, [125200]); (125235, [125201]); (125236, [125202]);
   (125237, [125203]); (125238, [125204]); (125239, [125205]);
   (125240, [125206]); (125241, [125207]); (125242, [125208]);
   (125243, [125209]); (125244, [125210]); (125245, [125211]);
   (125246, [125212]); (125247, [125213]); (125248, [125214]);
   (125249, [125215]); (125250, [125216]); (125251, [125217])]%N.

(** ** Python string primitives *)

Definition in_ranges (ranges : list (N * N)) (c : N) : bool :=
  existsb (fun r => (fst r <=? c)%N && (c <=? snd r)%N) ranges.

(** [ch.isspace()]: the white space of [str.split()] and [str.strip()]. *)
Definition isspace (c : N) : bool := in_ranges SPACE c.

(** [ch.isalpha()] *)
Definition isalpha (c : N) : bool := in_ranges ALPHA c.

(** [ch.isdigit()] *)
Definition isdigit (c : N) : bool := in_ranges DIGIT c.

Fixpoint assoc (c : N) (table : list (N * list N)) : option (list N) :=
  match table with
  | [] => None
  | (k, out) :: rest => if (k =? c)%N then Some out else assoc c rest
  end.

(** [ch.upper()]: one code point can become several. *)
Definition upper_char (c : N) : str :=
  match assoc c TOUPPER with
  | Some out => out
  | None => [c]
  end.

(** [s.upper()] *)
Fixpoint upper (s : str) : str :=
  match s with
  | [] => []
  | c :: s' => upper_char c ++ upper s'
  end.


(** [a == b] on strings. *)
Definition eqs (a b : str) : bool := bool_decide (a = b).

(** The run being read when [split_go] stops or meets white space. *)
Definition flush (cur : list N) : list str :=
  match cur with
  | [] => []
  | _ => [rev cur]
  end.

(** [text.split()]: maximal runs of non-space characters, in order. [cur]
    holds the run being read, reversed. *)
Fixpoint split_go (cur : list N) (s : str) : list str :=
  match s with
  | [] => flush cur
  | c :: s' =>
      if isspace c then flush cur ++ split_go [] s' else split_go (c :: cur) s'
  end.

Definition py_split (s : str) : list str := split_go [] s.

Fixpoint lstrip (s : str) : str :=
  match s with
  | c :: s' => if isspace c then lstrip s' else s
  | [] => []
  end.

(** [s.strip()] *)
Definition strip (s : str) : str := rev (lstrip (rev (lstrip s))).

(** [s.replace(a, b)] for one-character [a] and [b]. *)
Definition replace_char (a b : N) (s : str) : str :=
  map (fun c => if (c =? a)%N then b else c) s.

(** ** Viseme Mapper ([arpabet_to_shape]) *)

Definition SHAPES : gset str :=
  list_to_set (map u ["AA"; "CH"; "EE"; "IH"; "OH"; "OU"; "TH";
                      "dd"; "ff"; "kk"; "nn"; "pp"; "rr"; "ss"]).

(** [x in S] for a set literal [S]. *)
Definition mem (x : str) (S : gset str) : bool := bool_decide (x ∈ S).

(** The local helper [pick], variadic in the source: the first candidate
    that is a shape, the empty string when there is none. *)
Fixpoint pick (candidates : list str) : str :=
  match candidates with
  | [] => []
  | c :: rest => if mem c SHAPES then c else pick rest
  end.

Definition arpabet_to_shape (arpa : str) : str :=
  let a := upper arpa in
  if mem a (list_to_set (map u ["AA"; "AE"; "AH"])) then pick (map u ["AA"])
  else if mem a (list_to_set (map u ["IY"; "IH"; "EY"; "IX"])) then pick (map u ["EE"; "IH"])
  else if eqs a (u "EH") then pick (map u ["IH"; "EE"])
  else if mem a (list_to_set (map u ["OW"; "AO"])) then pick (map u ["OH"; "OU"])
  else if mem a (list_to_set (map u ["AW"; "AY"; "OY"; "UH"; "UW"])) then pick (map u ["OU"; "OH"])
  else if mem a (list_to_set (map u ["P"; "B"; "M"])) then pick (map u ["pp"])
  else if mem a (list_to_set (map u ["F"; "V"])) then pick (map u ["ff"])
  else if mem a (list_to_set (map u ["K"; "G"])) then pick (map u ["kk"])
  else if mem a (list_to_set (map u ["N"; "NG"])) then pick (map u ["nn"])
  else if mem a (list_to_set (map u ["D"; "T"])) then pick (map u ["dd"])
  else if mem a (list_to_set (map u ["R"; "ER"])) then pick (map u ["rr"])
  else if mem a (list_to_set (map u ["S"; "Z"; "SH"; "ZH"])) then pick (map u ["ss"])
  else if mem a (list_to_set (map u ["CH"; "JH"])) then pick (map u ["CH"])
  else if mem a (list_to_set (map u ["TH"; "DH"])) then pick (map u ["TH"])
  else if mem a SHAPES then a
  else [].

(** [phones_to_shapes]: the shapes of the phones, those without one left
    out (the empty string is falsy). *)
Fixpoint phones_to_shapes (phones : list str) : list str :=
  match phones with
  | [] => []
  | p :: rest =>
      let s := arpabet_to_shape p in
      if eqs s [] then phones_to_shapes rest
      else s :: phones_to_shapes rest
  end.

(** ** Exceptions *)

Inductive error :=
  | IndexError
  | ZeroDivisionError
  | ValueError
  | OverflowError
  | FileNotFoundError
  | UnicodeDecodeError
  | SoundFileError
  | CalledProcessError (status : Z)
  | SystemExit (code : Z).

(** A computation that returns or raises. *)
Inductive result (A : Type) :=
  | Ok (a : A)
  | Raise (e : error).
Arguments Ok {A} a.
Arguments Raise {A} e.

Definition rbind {A B} (k : A -> result B) (m : result A) : result B :=
  match m with
  | Ok a => k a
  | Raise e => Raise e
  end.

(** [x ← m; k] runs [m] and, unless it raised, [k] on its value. *)
#[global] Instance result_bind : MBind result := @rbind.
#[global] Instance result_ret : MRet result := @Ok.

(** ** Binary64 arithmetic as Python uses it *)

(** [float(z)]: the integer rounded to nearest even; exact below [2^53]. *)
Definition Z2F (z : Z) : float := SF2Prim (binary_normalize prec emax z 0 false).

(** [a / b] on two integers: true division. The quotient of the two
    conversions is Python's correctly rounded quotient when both operands
    are below [2^53] in magnitude. *)
Definition truediv (a b : Z) : result float :=
  if (b =? 0)%Z then Raise ZeroDivisionError else Ok (Z2F a / Z2F b)%float.

(** [int(x)]: truncation toward zero; infinities and NaN raise. *)
Definition py_int (x : float) : result Z :=
  match Prim2SF x with
  | S754_zero _ => Ok 0%Z
  | S754_infinity _ => Raise OverflowError
  | S754_nan => Raise ValueError
  | S754_finite s m e =>
      let mag := match e with
                 | Zneg k => Z.shiftr (Zpos m) (Zpos k)
                 | _ => Z.shiftl (Zpos m) e
                 end in
      Ok (if s then Z.opp mag else mag)
  end.

(** [min(a, b)]: the first argument unless the second is smaller. *)
Definition py_min (a b : float) : float := if (b <? a)%float then b else a.

Definition is_finite (x : float) : bool :=
  match Prim2SF x with
  | S754_zero _ | S754_finite _ _ _ => true
  | _ => false
  end.

(** ** Phonemizer ([text_to_arpabet]) *)

(** The lexicon: a word's pronunciation variants, each a list of phones. *)
Abbreviation lexicon := (gmap str (list (list str))).

(** [if p and p[-1].isdigit(): p = p[:-1]] *)
Definition strip_stress (p : str) : str :=
  match last p with
  | Some c => if isdigit c then removelast p else p
  | None => p
  end.

(** [ch.isalpha() or ch == "'"] *)
Definition keep_char (c : N) : bool := isalpha c || (c =? 39)%N.

Definition normalize (raw_word : str) : str :=
  upper (List.filter keep_char raw_word).

(** The phones one normalized, non-empty word appends: the first variant of
    its entry (stress digits removed), or one symbol per character when the
    lexicon has no entry. [cmu[word][0]] raises on an empty entry. *)
Definition word_phones (cmu : lexicon) (word : str) : result (list str) :=
  match cmu !! word with
  | Some variants =>
      match variants with
      | pron :: _ => Ok (map strip_stress pron)
      | [] => Raise IndexError
      end
  | None => Ok (map (fun ch => upper [ch]) word)
  end.

Fixpoint arpabet_loop (cmu : lexicon) (raw_words : list str)
    (phones : list str) : result (list str) :=
  match raw_words with
  | [] => Ok phones
  | raw_word :: rest =>
      let word := normalize raw_word in
      if eqs word [] then arpabet_loop cmu rest phones
      else (ps ← word_phones cmu word;
            arpabet_loop cmu rest (phones ++ ps))
  end.

Definition text_to_arpabet (cmu : lexicon) (text : str) : result (list str) :=
  arpabet_loop cmu (py_split text) [].

(** ** Timeline Allocator (the slot-building loop of [main]) *)

Record slot := { shape : str; start : float; stop : float }.

(** The loop over [enumerate(shapes)]: [i] is the index of the head of
    [rest], [slots] what has been appended so far. *)
Fixpoint slots_loop (N : Z) (duration : float) (i : Z) (rest : list str)
    (slots : list slot) : result (list slot) :=
  match rest with
  | [] => Ok slots
  | sh :: rest' =>
      a ← truediv i N;
      b ← truediv (i + 1) N;
      slots_loop N duration (i + 1) rest'
        (slots ++ [{| shape := sh;
                      start := (a * duration)%float;
                      stop := (b * duration)%float |}])
  end.

Definition build_slots (shapes : list str) (duration : float) : result (list slot) :=
  slots_loop (Z.of_nat (length shapes)) duration 0 shapes [].

(** ** Prosody ([synthesize_tts]) *)

Record engine := { rate : Z; volume : float }.

Definition setRate (r : Z) (e : engine) : engine :=
  {| rate := r; volume := volume e |}.
Definition setVolume (v : float) (e : engine) : engine :=
  {| rate := rate e; volume := v |}.

(** The [if]/[elif] chain of [synthesize_tts] on a freshly initialised
    engine: the properties the engine holds when the text is rendered. *)
Definition emotion_settings (emotion : str) (e : engine) : result engine :=
  let base_rate := rate e in
  let base_volume := volume e in
  if eqs emotion (u "happy") then
    (r ← py_int (Z2F base_rate * 1.15);
     Ok (setVolume (py_min (base_volume * 1.1) 1.0) (setRate r e)))
  else if eqs emotion (u "excited") then
    (r ← py_int (Z2F base_rate * 1.25);
     Ok (setVolume (py_min (base_volume * 1.1) 1.0) (setRate r e)))
  else if eqs emotion (u "sad") || eqs emotion (u "gloomy") then
    (r ← py_int (Z2F base_rate * 0.85);
     Ok (setVolume (base_volume * 0.9) (setRate r e)))
  else if eqs emotion (u "angry") then
    (r ← py_int (Z2F base_rate * 1.1);
     Ok (setRate r e))
  else Ok e.

(** ** Files and the pipeline's effects *)

Inductive subtype := Native | PCM_16.

(** What [sf.read] sees of a waveform file: [len(audio)] and [sr]. *)
Record wav := { frames : Z; samplerate : Z; encoding : subtype }.

(** The alignment record that [json.dumps] renders. *)
Record align := { audio : str; phonemes : list slot; emotion : str }.

Inductive file :=
  | Text (s : str)
  | Wav (w : wav)
  | Json (a : align).

(** The file system, keyed by path string; every path is taken relative to
    one working directory, so [Path.resolve] does not change the key. *)
Abbreviation files := (gmap str file).

(** An action on the file system that returns or raises; the writes made
    before an exception stay. *)
Definition io (A : Type) : Type := files -> result A * files.

#[global] Instance io_ret : MRet io := fun A a fs => (Ok a, fs).
#[global] Instance io_bind : MBind io := fun A B k m fs =>
  match m fs with
  | (Ok a, fs') => k a fs'
  | (Raise e, fs') => (Raise e, fs')
  end.

Definition raise {A} (e : error) : io A := fun fs => (Raise e, fs).

Definition lift {A} (r : result A) : io A := fun fs => (r, fs).

(** [path.read_text(encoding="utf-8")] *)
Definition read_text (path : str) : io str := fun fs =>
  match fs !! path with
  | Some (Text s) => (Ok s, fs)
  | Some _ => (Raise UnicodeDecodeError, fs)
  | None => (Raise FileNotFoundError, fs)
  end.

Definition write_file (path : str) (f : file) : io unit := fun fs =>
  (Ok tt, <[path := f]> fs).

(** [sf.read(path)] *)
Definition sf_read (path : str) : io wav := fun fs =>
  match fs !! path with
  | Some (Wav w) => (Ok w, fs)
  | _ => (Raise SoundFileError, fs)
  end.

(** The status the interpreter exits with: [sys.exit(n)] gives [n], any
    other uncaught exception 1, a normal return 0. *)
Definition exit_status (r : result unit) : Z :=
  match r with
  | Ok _ => 0
  | Raise (SystemExit n) => n
  | Raise _ => 1
  end.

Definition ALLOWED_EMOTIONS : list str :=
  map u ["neutral"; "happy"; "sad"; "angry"; "excited"; "energetic"; "gloomy"].

Section Pipeline.

(** The collaborators of the two scripts. *)
Variable cmu : lexicon.                  (* [get_cmu()] *)
Variable driver : engine.                (* [pyttsx3.init()]: base rate, volume *)
Variable render : str -> engine -> wav.  (* the waveform the engine saves *)
Variable path_str : str -> str.          (* [str(Path(arg))] on the host *)
Variable llm : str -> str * str.         (* prompt to [data["text"]], [data["emotion"]] *)

Definition synthesize_tts (text wav_path emotion : str) : io unit :=
  e ← lift (emotion_settings emotion driver);
  write_file wav_path (Wav (render text e)).

(** [main] of [tts_pipeline.py]; [argv] is [sys.argv]. *)
Definition main (argv : list str) : io unit :=
  match argv with
  | [_; arg1; arg2; arg3; arg4] =>
      let script_path := path_str arg1 in
      let out_wav := path_str arg2 in
      let out_json := path_str arg3 in
      let emotion := arg4 in
      raw ← read_text script_path;
      let text := strip raw in
      if eqs text [] then raise (SystemExit 1)
      else
        _ ← synthesize_tts text out_wav emotion;
        w ← sf_read out_wav;
        _ ← write_file out_wav
              (Wav {| frames := frames w; samplerate := samplerate w;
                      encoding := PCM_16 |});
        duration ← lift (truediv (frames w) (samplerate w));
        phones ← lift (text_to_arpabet cmu text);
        let shapes := phones_to_shapes phones in
        slots ← lift (build_slots shapes duration);
        write_file out_json
          (Json {| audio := replace_char 92 47 out_wav;
                   phonemes := slots;
                   emotion := emotion |})
  | _ => raise (SystemExit 1)
  end.

(** Running the script as a process: exit status and resulting files. *)
Definition run (script : list str -> io unit) (argv : list str)
    (fs : files) : Z * files :=
  let (r, fs') := script argv fs in (exit_status r, fs').

(** [get_reply_and_emotion] from the parsed reply on. *)
Definition get_reply_and_emotion (prompt : str) : str * str :=
  let (data_text, data_emotion) := llm prompt in
  let text := strip data_text in
  let emotion :=
    if bool_decide (data_emotion ∈ ALLOWED_EMOTIONS) then data_emotion
    else u "neutral" in
  (text, emotion).

(** The argument vector [llm_tts_pipeline.py] hands to [tts_pipeline.py]
    ([cmd] without the interpreter). *)
Definition tts_argv (tts_script script_path out_wav out_json emotion : str)
    : list str :=
  [tts_script; script_path; out_wav; out_json; emotion].

(** [subprocess.run(cmd, check=True)] *)
Definition subprocess_run (argv : list str) : io unit := fun fs =>
  let (status, fs') := run main argv fs in
  if (status =? 0)%Z then (Ok tt, fs') else (Raise (CalledProcessError status), fs').

(** [main] of [llm_tts_pipeline.py]; [tts_script] is the path of
    [tts_pipeline.py] next to it. *)
Definition llm_main (tts_script : str) (argv : list str) : io unit :=
  match argv with
  | [_; arg1; arg2; arg3] =>
      let script_path := path_str arg1 in
      let out_wav := path_str arg2 in
      let out_json := path_str arg3 in
      fun fs =>
        match fs !! script_path with
        | None => (Raise (SystemExit 1), fs)
        | Some _ =>
            (raw ← read_text script_path;
             let prompt := strip raw in
             if eqs prompt [] then raise (SystemExit 1)
             else
               let (reply_text, emotion) := get_reply_and_emotion prompt in
               _ ← write_file script_path (Text reply_text);
               subprocess_run
                 (tts_argv tts_script script_path out_wav out_json emotion)) fs
        end
  | _ => raise (SystemExit 1)
  end.

End Pipeline.

(** ** Properties the claims speak of, and the scenarios they are tried on *)




(** Start times strictly increasing, slot after slot. *)
Definition starts_increasing (slots : list slot) : Prop :=
  forall i a b, slots !! i = Some a -> slots !! S i = Some b ->
                (start a <? start b)%float = true.

(** Slot [i] of [N] over [duration], as the loop body computes it. *)
Definition slot_at (N : Z) (duration : float) (i : Z) (sh : str) : slot :=
  {| shape := sh;
     start := (Z2F i / Z2F N * duration)%float;
     stop := (Z2F (i + 1) / Z2F N * duration)%float |}.

(** The files once the waveform [w] has been saved at [out_wav] and
    rewritten as 16-bit PCM. *)
Definition with_audio (out_wav : str) (w : wav) (fs : files) : files :=
  <[out_wav := Wav {| frames := frames w; samplerate := samplerate w;
                      encoding := PCM_16 |}]> (<[out_wav := Wav w]> fs).

Definition hello_lexicon : lexicon :=
  <[u "HELLO" := [map u ["HH"; "AH"; "L"; "OW"]]]>
    (<[u "WORLD" := [map u ["W"; "ER"; "L"; "D"]]]> ∅).

(** A lexicon whose only entry lists no variant. *)
Definition hollow_lexicon : lexicon := <[u "A" := []]> ∅.

Definition demo_driver : engine := {| rate := 200; volume := 1 |}.

(** An engine that renders one second of audio whatever it is given. *)
Definition one_second (text : str) (e : engine) : wav :=
  {| frames := 22050; samplerate := 22050; encoding := Native |}.

Definition demo_files : files := <[u "script.txt" := Text (u "Hello world")]> ∅.

Definition blank_files : files := <[u "script.txt" := Text (u "  ")]> ∅.

(** A script that holds a no-break space and an ideographic space only. *)
Definition nbsp_files : files := <[u "script.txt" := Text [160; 12288]%N]> ∅.

Definition demo_argv : list str :=
  map u ["tts_pipeline.py"; "script.txt"; "out\speech.wav"; "speech.json"; "wistful"].

Definition neutral_argv : list str :=
  map u ["tts_pipeline.py"; "script.txt"; "out\speech.wav"; "speech.json"; "neutral"].

Definition demo_llm (prompt : str) : str * str := (u " Hello world ", u "wistful").

(** ** The rest of the two scripts *)

(** The upper-cased symbols [arpabet_to_shape] has a shape for: the phones
    of its class rules, then the shape names an upper-cased input can
    equal. *)
Definition MAPPED : list str :=
  map u
    ["AA"; "AE"; "AH"; "IY"; "IH"; "EY"; "IX"; "EH"; "OW"; "AO";
     "AW"; "AY"; "OY"; "UH"; "UW"; "P"; "B"; "M"; "F"; "V"; "K"; "G";
     "N"; "NG"; "D"; "T"; "R"; "ER"; "S"; "Z"; "SH"; "ZH"; "CH"; "JH";
     "TH"; "DH"; "EE"; "OH"; "OU"].

(** Every entry of the lexicon lists at least one variant. *)
Definition lexicon_total (cmu : lexicon) : Prop :=
  map_Forall (fun _ variants => variants <> []) cmu.

(** [get_cmu] with its module-level cache [_cmu]: [corpus] is what
    [cmudict.dict()] would build at this call, [loads] counts how often it
    was built. *)
Record cmu_cache := { cached : option lexicon; loads : nat }.

Definition get_cmu (corpus : lexicon) (st : cmu_cache) : lexicon * cmu_cache :=
  match cached st with
  | None => (corpus, {| cached := Some corpus; loads := S (loads st) |})
  | Some d => (d, st)
  end.

(** Successive calls of [get_cmu], one per corpus the loader would build:
    the lexicons returned and the final cache. *)
Fixpoint get_cmu_calls (corpora : list lexicon) (st : cmu_cache)
    : list lexicon * cmu_cache :=
  match corpora with
  | [] => ([], st)
  | corpus :: rest =>
      let (d, st1) := get_cmu corpus st in
      let (ds, st2) := get_cmu_calls rest st1 in
      (d :: ds, st2)
  end.

(** How [make_client] ends: with a client built from a key, with its
    [RuntimeError], or with the decoding error of [read_text]. *)
Inductive client :=
  | OpenAI (api_key : str)
  | RuntimeError
  | KeyFileUnreadable.

(** [not api_key] for the value of [os.getenv]: unset or empty. *)
Definition falsy (api_key : option str) : bool :=
  match api_key with
  | None => true
  | Some k => eqs k []
  end.

(** [make_client]: [env] is [os.getenv("OPENAI_API_KEY")], [key_path] the
    path of [openai_key.txt] next to the script. *)
Definition make_client (env : option str) (key_path : str) (fs : files)
    : client :=
  let from_file :=
    if falsy env then
      match fs !! key_path with
      | Some (Text s) => Ok (Some (strip s))
      | Some _ => Raise UnicodeDecodeError
      | None => Ok env
      end
    else Ok env in
  match from_file with
  | Raise _ => KeyFileUnreadable
  | Ok api_key =>
      match api_key with
      | Some k => if eqs k [] then RuntimeError else OpenAI k
      | None => RuntimeError
      end
  end.

Definition llm_argv : list str :=
  map u ["llm_tts_pipeline.py"; "script.txt"; "out\speech.wav"; "speech.json"].

Definition blank_llm (prompt : str) : str * str := ([160; 32; 160]%N, u "happy").

Definition happy_llm (prompt : str) : str * str := (u "Hello world", u "happy").

(** A key file whose text is the key between a space and a line feed. *)
Definition key_files : files :=
  <[u "openai_key.txt" := Text (32 :: u "sk-test" ++ [10])%N]> ∅.

(** The one code point of [c.upper()], where it is one. *)
Definition up1 (c : N) : N :=
  match upper_char c with
  | [c'] => c'
  | _ => c
  end.

(** A code point whose upper-case form is one code point that is white
    space, a letter or the apostrophe exactly when the code point is. Every
    ASCII character is one; U+00DF (upper-case form SS) and U+0345 (not a
    letter, but its upper-case form is) are not. *)
Definition case_stable (c : N) : bool :=
  match upper_char c with
  | [c'] => Bool.eqb (isspace c') (isspace c) && Bool.eqb (keep_char c') (keep_char c)
  | _ => false
  end.

(** ** Rounding to nearest, read over the reals *)

(** [2^e] for an integer exponent. *)
Definition bpow (e : Z) : R := powerRZ 2 e.

(** What a truncated mantissa [m] and its location [l] say of the real
    [t] they stand for: [t] lies in [[m, m+1)], at [m], below, at or above
    the midpoint. *)
Definition inbetween_int (m : Z) (l : location) (t : R) : Prop :=
  match l with
  | loc_Exact => t = IZR m
  | loc_Inexact Lt => (IZR m < t < IZR m + / 2)%R
  | loc_Inexact Eq => t = (IZR m + / 2)%R
  | loc_Inexact Gt => (IZR m + / 2 < t < IZR m + 1)%R
  end.

(** The float [binary_round_aux] builds from the rounded mantissa [q] at
    exponent [e]: a mantissa that reached [2^53] moves up one exponent, an
    exponent above [emax - prec] overflows. *)
Definition round_result (q e : Z) : spec_float :=
  match q with
  | Z0 => S754_zero false
  | Zpos p =>
      if (q <? 2 ^ 53)%Z then
        if (e <=? 971)%Z then S754_finite false p e else S754_infinity false
      else
        if (e + 1 <=? 971)%Z then S754_finite false 4503599627370496 (e + 1)
        else S754_infinity false
  | Zneg _ => S754_nan
  end.

(** Zero, a positive finite float or plus infinity. *)
Definition sf_nonneg (x : spec_float) : bool :=
  match x with
  | S754_zero false | S754_infinity false | S754_finite false _ _ => true
  | _ => false
  end.

(** * Binary64 facts the allocator relies on

    Each is read off [SpecFloat]'s executable specification through the
    [FloatAxioms] of the primitive operations. *)

Lemma shr_fexp_canonical m e :
  canonical_mantissa prec emax m e = true ->
  shr_fexp prec emax (Zpos m) e loc_Exact
  = ({| shr_m := Zpos m; shr_r := false; shr_s := false |}, e).
Proof.
  unfold canonical_mantissa, shr_fexp. intros H%Z.eqb_eq.
  cbn [Zdigits2]. rewrite H, Z.sub_diag. reflexivity.
Qed.

(** Rounding a mantissa that already fits returns it unchanged. *)
Lemma binary_round_aux_bounded s m e :
  bounded prec emax m e = true ->
  binary_round_aux prec emax s (Zpos m) e loc_Exact = S754_finite s m e.
Proof.
  unfold bounded. intros [Hc He]%andb_true_iff.
  unfold binary_round_aux. rewrite (shr_fexp_canonical _ _ Hc).
  cbn [shr_m loc_of_shr_record round_nearest_even].
  rewrite (shr_fexp_canonical _ _ Hc). cbn [shr_m].
  rewrite He. reflexivity.
Qed.

Lemma digits2_pos_iter_xO p k :
  digits2_pos (Pos.iter xO p k) = (digits2_pos p + k)%positive.
Proof.
  induction k using Pos.peano_ind.
  - cbn. lia.
  - rewrite Pos.iter_succ. cbn [digits2_pos]. rewrite IHk. lia.
Qed.

Lemma digits2_pos_lower p : (2 ^ (Zpos (digits2_pos p) - 1) <= Zpos p)%Z.
Proof.
  induction p as [p IH|p IH|]; cbn [digits2_pos]; [| |cbn; lia].
  all: rewrite Pos2Z.inj_succ;
    replace (Z.succ (Z.pos (digits2_pos p)) - 1)%Z
      with (Z.succ (Z.pos (digits2_pos p) - 1))%Z by lia;
    rewrite Z.pow_succ_r by lia; lia.
Qed.

Lemma digits2_pos_le_53 p : (Zpos p < 2 ^ 53)%Z -> (Zpos (digits2_pos p) <= 53)%Z.
Proof.
  intros H. destruct (Z_le_gt_dec (Zpos (digits2_pos p)) 53) as [|Hgt]; [assumption|].
  pose proof (digits2_pos_lower p) as Hl.
  assert (2 ^ 53 <= 2 ^ (Z.pos (digits2_pos p) - 1))%Z by (apply Z.pow_le_mono_r; lia).
  lia.
Qed.

(** An integer below [2^53] converts to a finite float without rounding:
    its bits are only shifted up to the 53-bit mantissa. *)
Lemma binary_normalize_pos p :
  (Zpos p < 2 ^ 53)%Z ->
  exists m e, binary_normalize prec emax (Zpos p) 0 false = S754_finite false m e
              /\ bounded prec emax m e = true.
Proof.
  intros Hp. pose proof (digits2_pos_le_53 p Hp) as Hd.
  cbn [binary_normalize]. unfold binary_round, shl_align.
  set (d := digits2_pos p) in *.
  assert (Hf : fexp prec emax (Z.pos d + 0) = (Z.pos d - 53)%Z).
  { unfold fexp, SpecFloat.emin, prec, emax. lia. }
  rewrite Hf.
  destruct (Z.pos d - 53 - 0)%Z as [|q|q] eqn:Hq; try lia.
  - exists p, 0%Z.
    assert (Hb : bounded prec emax p 0 = true).
    { unfold bounded, canonical_mantissa. fold d. rewrite Hf.
      apply andb_true_iff; split; [apply Z.eqb_eq; lia | reflexivity]. }
    split; [apply binary_round_aux_bounded|]; exact Hb.
  - exists (Pos.iter xO p q), (Z.pos d - 53)%Z.
    assert (Hb : bounded prec emax (Pos.iter xO p q) (Z.pos d - 53) = true).
    { unfold bounded, canonical_mantissa. rewrite digits2_pos_iter_xO. fold d.
      apply andb_true_iff; split.
      - apply Z.eqb_eq. unfold fexp, SpecFloat.emin, prec, emax. lia.
      - apply Z.leb_le. unfold prec, emax. lia. }
    split; [apply binary_round_aux_bounded|]; exact Hb.
Qed.

Lemma Prim2SF_Z2F_pos N :
  (0 < N < 2 ^ 53)%Z -> exists m e, Prim2SF (Z2F N) = S754_finite false m e.
Proof.
  intros [H0 H1]. destruct N as [|p|p]; try lia.
  destruct (binary_normalize_pos p H1) as (m & e & Hn & Hb).
  exists m, e. unfold Z2F. rewrite Hn. apply Prim2SF_SF2Prim. exact Hb.
Qed.

Lemma SFdiv_self m e :
  SFdiv prec emax (S754_finite false m e) (S754_finite false m e)
  = S754_finite false 4503599627370496 (-52).
Proof.
  unfold SFdiv, SFdiv_core_binary.
  rewrite !Z.sub_diag.
  change (Z.min (fexp prec emax 0) 0) with (-53)%Z.
  change (0 - -53)%Z with 53%Z. cbv iota beta.
  rewrite Z.shiftl_mul_pow2 by lia.
  assert (Hq : (Z.pos m * 2 ^ 53 / Z.pos m = 2 ^ 53)%Z)
    by (rewrite Z.mul_comm; apply Z.div_mul; lia).
  assert (Hr : (Z.pos m * 2 ^ 53 mod Z.pos m = 0)%Z)
    by (rewrite Z.mul_comm; apply Z.mod_mul; lia).
  unfold Z.div, Z.modulo in Hq, Hr.
  destruct (Z.div_eucl (Z.pos m * 2 ^ 53) (Z.pos m)) as [q r].
  cbn [fst snd] in Hq, Hr. subst q r.
  unfold new_location. destruct (Z.even (Z.pos m)); reflexivity.
Qed.

(** [x / x == 1.0] for a finite positive [x]. *)
Lemma div_self x m e :
  Prim2SF x = S754_finite false m e -> (x / x)%float = 1%float.
Proof.
  intros Hx. apply Prim2SF_inj. rewrite div_spec, Hx.
  unfold SF64div. rewrite SFdiv_self. reflexivity.
Qed.

(** [0.0 / x == 0.0] for a finite positive [x]. *)
Lemma div_zero_l x m e :
  Prim2SF x = S754_finite false m e -> (0 / x)%float = 0%float.
Proof.
  intros Hx. apply Prim2SF_inj. rewrite div_spec, Hx. reflexivity.
Qed.

(** [0.0 * d == 0.0] for a finite positive [d]. *)
Lemma mul_zero_l d m e :
  Prim2SF d = S754_finite false m e -> (0 * d)%float = 0%float.
Proof.
  intros Hd. apply Prim2SF_inj. rewrite mul_spec, Hd. reflexivity.
Qed.

Lemma shr_fexp_shifted m e :
  canonical_mantissa prec emax m e = true ->
  shr_fexp prec emax (Zpos (4503599627370496 * m)) (-52 + e) loc_Exact
  = ({| shr_m := Zpos m; shr_r := false; shr_s := false |}, e).
Proof.
  unfold canonical_mantissa, shr_fexp. intros H%Z.eqb_eq.
  change (4503599627370496 * m)%positive with (Pos.iter xO m 52).
  cbn [Zdigits2]. rewrite digits2_pos_iter_xO.
  replace (Z.pos (digits2_pos m + 52) + (-52 + e))%Z
    with (Z.pos (digits2_pos m) + e)%Z by lia.
  rewrite H. replace (e - (-52 + e))%Z with 52%Z by lia.
  unfold shr. replace (-52 + e + 52)%Z with e by lia.
  apply (f_equal (fun r => (r, e))). vm_compute. reflexivity.
Qed.

Lemma SFmul_one_l s m e :
  bounded prec emax m e = true ->
  SFmul prec emax (S754_finite false 4503599627370496 (-52)) (S754_finite s m e)
  = S754_finite s m e.
Proof.
  intros Hb. pose proof Hb as [Hc He]%andb_true_iff.
  unfold SFmul, binary_round_aux. cbn [xorb].
  rewrite (shr_fexp_shifted _ _ Hc).
  cbn [shr_m loc_of_shr_record round_nearest_even].
  rewrite (shr_fexp_canonical _ _ Hc). cbn [shr_m].
  rewrite He. reflexivity.
Qed.

(** [1.0 * d] is [d], bit for bit, for every float. *)
Lemma mul_one_l d : (1 * d)%float = d.
Proof.
  apply Prim2SF_inj. rewrite mul_spec.
  pose proof (Prim2SF_valid d) as Hv.
  change (Prim2SF 1) with (S754_finite false 4503599627370496 (-52)).
  destruct (Prim2SF d) as [s|s| |s m e]; try reflexivity.
  apply SFmul_one_l. exact Hv.
Qed.

(** A finite float above zero is a positive finite mantissa and exponent. *)
Lemma finite_pos_inv d :
  is_finite d = true -> (0 <? d)%float = true ->
  exists m e, Prim2SF d = S754_finite false m e.
Proof.
  unfold is_finite. rewrite ltb_spec.
  change (Prim2SF 0) with (S754_zero false).
  destruct (Prim2SF d) as [s|s| |[|] m e]; cbn; try discriminate; eauto.
Qed.

(** * Rounding to nearest is monotone *)

Section Rounding.
Local Open Scope R_scope.

Lemma bpow_gt_0 e : 0 < bpow e.
Proof. apply powerRZ_lt. lra. Qed.

Lemma bpow_add a b : bpow (a + b) = bpow a * bpow b.
Proof. apply powerRZ_add. lra. Qed.

Lemma bpow_IZR k : (0 <= k)%Z -> bpow k = IZR (2 ^ k).
Proof.
  intros Hk. destruct k as [|p|p]; [reflexivity| |lia].
  unfold bpow. rewrite <- Zpower_pos_powerRZ. reflexivity.
Qed.

Lemma bpow_ge_1 k : (0 <= k)%Z -> 1 <= bpow k.
Proof.
  intros Hk. rewrite (bpow_IZR k Hk). apply IZR_le.
  pose proof (Z.pow_pos_nonneg 2 k). lia.
Qed.

Lemma bpow_le a b : (a <= b)%Z -> bpow a <= bpow b.
Proof.
  intros Hab. replace b with (a + (b - a))%Z by lia. rewrite bpow_add.
  pose proof (bpow_gt_0 a). pose proof (bpow_ge_1 (b - a) ltac:(lia)). nra.
Qed.

Lemma bpow_lt_inv a b : bpow a < bpow b -> (a < b)%Z.
Proof.
  intros H. destruct (Z_lt_le_dec a b) as [|Hle]; [assumption|].
  apply bpow_le in Hle. lra.
Qed.

Lemma bpow_opp_r e : bpow e * bpow (- e) = 1.
Proof. rewrite <- bpow_add, Z.add_opp_diag_r. reflexivity. Qed.

Lemma IZR_xO p : IZR (Zpos p~0) = 2 * IZR (Zpos p).
Proof. change (Zpos p~0) with (2 * Zpos p)%Z. rewrite mult_IZR. reflexivity. Qed.

Lemma IZR_xI p : IZR (Zpos p~1) = 2 * IZR (Zpos p) + 1.
Proof.
  change (Zpos p~1) with (2 * Zpos p + 1)%Z. rewrite plus_IZR, mult_IZR.
  reflexivity.
Qed.

(** One right shift halves the real the record stands for. *)
Lemma shr_1_inbetween mrs t :
  (0 <= shr_m mrs)%Z ->
  inbetween_int (shr_m mrs) (loc_of_shr_record mrs) t ->
  inbetween_int (shr_m (shr_1 mrs)) (loc_of_shr_record (shr_1 mrs)) (t / 2)
  /\ (0 <= shr_m (shr_1 mrs))%Z.
Proof.
  destruct mrs as [m r s]. cbn [shr_m]. intros Hm.
  destruct m as [|[p|p|]|p]; [| | | |lia];
    destruct r, s;
    cbn [shr_1 shr_m loc_of_shr_record inbetween_int orb];
    try rewrite (IZR_xO p); try rewrite (IZR_xI p); intros Ht; (split; [lra|lia]).
Qed.

Lemma bpow_m1 : bpow (-1) = / 2.
Proof.
  unfold bpow. change (-1)%Z with (- Z.succ 0)%Z.
  rewrite powerRZ_neg', powerRZ_1. reflexivity.
Qed.

Lemma iter_shr_1_inbetween p : forall mrs t,
  (0 <= shr_m mrs)%Z ->
  inbetween_int (shr_m mrs) (loc_of_shr_record mrs) t ->
  inbetween_int (shr_m (SpecFloat.iter_pos shr_1 p mrs))
    (loc_of_shr_record (SpecFloat.iter_pos shr_1 p mrs)) (t * bpow (- Zpos p))
  /\ (0 <= shr_m (SpecFloat.iter_pos shr_1 p mrs))%Z.
Proof.
  induction p as [p IH|p IH|]; intros mrs t Hm Ht; cbn [SpecFloat.iter_pos].
  - destruct (shr_1_inbetween mrs t Hm Ht) as [H1 Hm1].
    destruct (IH _ _ Hm1 H1) as [H2 Hm2].
    destruct (IH _ _ Hm2 H2) as [H3 Hm3]. split; [|exact Hm3].
    replace (t * bpow (- Zpos p~1))
      with (t / 2 * bpow (- Zpos p) * bpow (- Zpos p)); [exact H3|].
    replace (- Z.pos p~1)%Z with (-1 + (- Z.pos p + - Z.pos p))%Z by lia.
    rewrite !bpow_add, bpow_m1. field.
  - destruct (IH _ _ Hm Ht) as [H2 Hm2].
    destruct (IH _ _ Hm2 H2) as [H3 Hm3]. split; [|exact Hm3].
    replace (t * bpow (- Zpos p~0))
      with (t * bpow (- Zpos p) * bpow (- Zpos p)); [exact H3|].
    replace (- Z.pos p~0)%Z with (- Z.pos p + - Z.pos p)%Z by lia.
    rewrite !bpow_add. ring.
  - destruct (shr_1_inbetween mrs t Hm Ht) as [H1 Hm1]. split; [|exact Hm1].
    change (bpow (- Z.pos 1)) with (bpow (-1)). rewrite bpow_m1. exact H1.
Qed.

Lemma shr_record_of_loc_inv m l :
  shr_m (shr_record_of_loc m l) = m
  /\ loc_of_shr_record (shr_record_of_loc m l) = l.
Proof. destruct l as [|[]]; split; reflexivity. Qed.

(** The shift [shr_fexp] applies brings the mantissa to the exponent of the
    format and keeps track of the real it stands for. *)
Lemma shr_fexp_inbetween m e l t :
  (0 <= m)%Z -> inbetween_int m l t ->
  (e <= fexp prec emax (Zdigits2 m + e))%Z ->
  exists mrs,
    shr_fexp prec emax m e l = (mrs, fexp prec emax (Zdigits2 m + e))
    /\ inbetween_int (shr_m mrs) (loc_of_shr_record mrs)
         (t * bpow (e - fexp prec emax (Zdigits2 m + e)))
    /\ (0 <= shr_m mrs)%Z.
Proof.
  intros Hm Ht He. unfold shr_fexp, shr.
  set (e' := fexp prec emax (Zdigits2 m + e)) in *.
  destruct (shr_record_of_loc_inv m l) as [Hsm Hsl].
  destruct (e' - e)%Z as [|n|n] eqn:Hn; [| |lia].
  - exists (shr_record_of_loc m l). replace e' with e by lia.
    rewrite Hsm, Hsl, Z.sub_diag. change (bpow 0) with 1. rewrite Rmult_1_r.
    auto.
  - exists (SpecFloat.iter_pos shr_1 n (shr_record_of_loc m l)).
    replace (e + Z.pos n)%Z with e' by lia.
    replace (e - e')%Z with (- Z.pos n)%Z by lia.
    split; [reflexivity|]. apply iter_shr_1_inbetween; rewrite ?Hsm, ?Hsl; assumption.
Qed.

Lemma shr_fexp_noshift m e l :
  (fexp prec emax (Zdigits2 m + e) <= e)%Z ->
  shr_fexp prec emax m e l = (shr_record_of_loc m l, e).
Proof.
  intros He. unfold shr_fexp, shr.
  destruct (fexp prec emax (Zdigits2 m + e) - e)%Z eqn:Hn; [reflexivity|lia|reflexivity].
Qed.

(** The mantissa chosen is an integer nearest to the real. *)
Lemma round_nearest_even_spec m l t :
  inbetween_int m l t ->
  IZR (round_nearest_even m l) - / 2 <= t <= IZR (round_nearest_even m l) + / 2
  /\ (m <= round_nearest_even m l <= m + 1)%Z.
Proof.
  destruct l as [|[]]; cbn [inbetween_int round_nearest_even]; intros Ht.
  - split; [lra|lia].
  - destruct (Z.even m); rewrite ?plus_IZR; split; try lra; lia.
  - split; [lra|lia].
  - rewrite plus_IZR. split; [lra|lia].
Qed.

Lemma digits2_pos_upper p : (Zpos p < 2 ^ Zpos (digits2_pos p))%Z.
Proof.
  induction p as [p IH|p IH|]; cbn [digits2_pos]; [| |cbn; lia].
  all: rewrite Pos2Z.inj_succ, Z.pow_succ_r by lia; lia.
Qed.

Lemma inbetween_int_bounds m l t : inbetween_int m l t -> IZR m <= t < IZR m + 1.
Proof. destruct l as [|[]]; cbn [inbetween_int]; lra. Qed.

(** [binary_round_aux] on a positive mantissa that carries at least the
    precision of the format: the real [x] it stands for lies in the binade
    of [mag], and the result is built from an integer [q] nearest to [x]
    scaled to the exponent of that binade. *)
Lemma round_spec p e l t :
  inbetween_int (Zpos p) l t ->
  (e <= fexp prec emax (Zpos (digits2_pos p) + e))%Z ->
  exists mag q,
    bpow (mag - 1) <= t * bpow e < bpow mag
    /\ IZR q - / 2 <= t * bpow e * bpow (- fexp prec emax mag) <= IZR q + / 2
    /\ (0 <= q)%Z
    /\ binary_round_aux prec emax false (Zpos p) e l
       = round_result q (fexp prec emax mag).
Proof.
  intros Ht He.
  set (d := Zpos (digits2_pos p)) in *. set (mag := (d + e)%Z) in *.
  exists mag.
  pose proof (inbetween_int_bounds _ _ _ Ht) as Hb.
  pose proof (digits2_pos_lower p) as Hlo. pose proof (digits2_pos_upper p) as Hup.
  fold d in Hlo, Hup.
  assert (Hlo' : bpow (d - 1) <= IZR (Zpos p))
    by (rewrite bpow_IZR by lia; apply IZR_le; exact Hlo).
  assert (Hup' : IZR (Zpos p) + 1 <= bpow d).
  { rewrite bpow_IZR by lia. change 1 with (IZR 1). rewrite <- plus_IZR.
    apply IZR_le. lia. }
  pose proof (bpow_gt_0 e) as He0.
  assert (Hx : bpow (mag - 1) <= t * bpow e < bpow mag).
  { replace (mag - 1)%Z with (d - 1 + e)%Z by lia. unfold mag.
    rewrite !bpow_add. split; nra. }
  destruct (shr_fexp_inbetween (Zpos p) e l t ltac:(lia) Ht He)
    as (mrs & Hshr & Hin & Hm).
  cbn [Zdigits2] in Hshr, Hin. fold d mag in Hshr, Hin.
  set (e' := fexp prec emax mag) in *.
  assert (He' : (-1074 <= e' /\ mag - 53 <= e')%Z)
    by (unfold e', fexp, SpecFloat.emin, prec, emax; lia).
  destruct (round_nearest_even_spec _ _ _ Hin) as [Hq Hmq].
  set (q := round_nearest_even (shr_m mrs) (loc_of_shr_record mrs)) in *.
  exists q.
  assert (Ht' : t * bpow (e - e') = t * bpow e * bpow (- e')).
  { replace (e - e')%Z with (e + - e')%Z by lia. rewrite bpow_add. ring. }
  rewrite Ht' in Hq.
  split; [exact Hx|]. split; [exact Hq|]. split; [lia|].
  assert (Hq53 : (q <= 2 ^ 53)%Z).
  { assert (Hlt : t * bpow e * bpow (- e') < bpow 53).
    { apply Rlt_le_trans with (bpow mag * bpow (- e')).
      - pose proof (bpow_gt_0 (- e')). nra.
      - rewrite <- bpow_add. apply bpow_le. lia. }
    rewrite (bpow_IZR 53) in Hlt by lia.
    assert (IZR q < IZR (2 ^ 53 + 1)) by (rewrite plus_IZR; lra).
    apply lt_IZR in H. lia. }
  unfold binary_round_aux. rewrite Hshr. fold q. clearbody e' q.
  destruct q as [|pq|pq]; [| |lia].
  - rewrite shr_fexp_noshift
      by (cbn [Zdigits2]; unfold fexp, SpecFloat.emin, prec, emax; lia).
    reflexivity.
  - cbn [round_result]. destruct (Z.ltb_spec (Zpos pq) (2 ^ 53)) as [Hlt|Hge].
    + pose proof (digits2_pos_le_53 pq Hlt).
      rewrite shr_fexp_noshift
        by (cbn [Zdigits2]; unfold fexp, SpecFloat.emin, prec, emax; lia).
      reflexivity.
    + assert (Hpq : Zpos pq = (2 ^ 53)%Z) by lia.
      change (2 ^ 53)%Z with (Zpos 9007199254740992) in Hpq.
      injection Hpq as ->.
      unfold shr_fexp. cbn [Zdigits2].
      replace (fexp prec emax (Zpos (digits2_pos 9007199254740992) + e'))
        with (e' + 1)%Z
        by (change (Zpos (digits2_pos 9007199254740992)) with 54%Z;
            unfold fexp, SpecFloat.emin, prec, emax; lia).
      replace (e' + 1 - e')%Z with 1%Z by lia. reflexivity.
Qed.

End Rounding.

Section Monotone.
Local Open Scope R_scope.

Lemma SFleb_finite m1 e1 m2 e2 :
  (e1 < e2 \/ (e1 = e2 /\ Zpos m1 <= Zpos m2))%Z ->
  SFleb (S754_finite false m1 e1) (S754_finite false m2 e2) = true.
Proof.
  intros H. unfold SFleb, SFcompare.
  destruct (Z.compare_spec e1 e2) as [He|He|He]; [|reflexivity|lia].
  change (Pos.compare_cont Eq m1 m2) with (Pos.compare m1 m2).
  destruct (Pos.compare_spec m1 m2); [reflexivity|reflexivity|lia].
Qed.

Lemma round_result_nonneg q e : (0 <= q)%Z -> sf_nonneg (round_result q e) = true.
Proof.
  intros Hq. destruct q as [|p|p]; [reflexivity| |lia]. cbn [round_result].
  destruct (Z.pos p <? 2 ^ 53)%Z; [destruct (e <=? 971)%Z|destruct (e + 1 <=? 971)%Z];
    reflexivity.
Qed.

Lemma SFleb_zero_nonneg x : sf_nonneg x = true -> SFleb (S754_zero false) x = true.
Proof. destruct x as [[|]|[|]| |[|] m e]; cbn; congruence. Qed.

Lemma SFleb_nonneg_infinity x :
  sf_nonneg x = true -> SFleb x (S754_infinity false) = true.
Proof. destruct x as [[|]|[|]| |[|] m e]; cbn; congruence. Qed.

(** The floats built from two rounded mantissas compare as the mantissas
    do, at one exponent or across exponents. *)
Lemma round_result_leb q1 e1 q2 e2 :
  (0 <= q1)%Z -> (0 <= q2)%Z ->
  ((e1 = e2 /\ q1 <= q2) \/ (e1 < e2 /\ 2 ^ 52 <= q2))%Z ->
  SFleb (round_result q1 e1) (round_result q2 e2) = true.
Proof.
  intros H1 H2 H.
  destruct q1 as [|p1|p1]; [apply SFleb_zero_nonneg, round_result_nonneg, H2| |lia].
  destruct q2 as [|p2|p2]; [lia| |lia].
  cbn [round_result].
  change (2 ^ 52)%Z with 4503599627370496%Z in *.
  change (2 ^ 53)%Z with 9007199254740992%Z in *.
  destruct (Z.ltb_spec (Zpos p1) 9007199254740992);
    destruct (Z.ltb_spec (Zpos p2) 9007199254740992);
    destruct (Z.leb_spec e1 971); destruct (Z.leb_spec e2 971);
    destruct (Z.leb_spec (e1 + 1) 971); destruct (Z.leb_spec (e2 + 1) 971);
    try lia; try reflexivity; apply SFleb_finite; lia.
Qed.

(** Rounding to nearest is monotone: of two positive reals, the smaller
    rounds to the smaller float. *)
Lemma round_mono x1 x2 mag1 mag2 q1 q2 :
  x1 < x2 ->
  bpow (mag1 - 1) <= x1 < bpow mag1 ->
  bpow (mag2 - 1) <= x2 < bpow mag2 ->
  IZR q1 - / 2 <= x1 * bpow (- fexp prec emax mag1) <= IZR q1 + / 2 ->
  IZR q2 - / 2 <= x2 * bpow (- fexp prec emax mag2) <= IZR q2 + / 2 ->
  (0 <= q1)%Z -> (0 <= q2)%Z ->
  SFleb (round_result q1 (fexp prec emax mag1))
        (round_result q2 (fexp prec emax mag2)) = true.
Proof.
  intros Hlt Hx1 Hx2 Hq1 Hq2 H1 H2.
  assert (Hmag : (mag1 <= mag2)%Z).
  { assert (bpow (mag1 - 1) < bpow mag2) by lra.
    apply bpow_lt_inv in H. lia. }
  apply round_result_leb; [assumption|assumption|].
  destruct (Z.eq_dec (fexp prec emax mag1) (fexp prec emax mag2)) as [He|He].
  - left. split; [exact He|]. rewrite He in Hq1.
    pose proof (bpow_gt_0 (- fexp prec emax mag2)) as Hb.
    assert (IZR q1 < IZR (q2 + 1)) by (rewrite plus_IZR; nra).
    apply lt_IZR in H. lia.
  - right.
    assert (He2 : (fexp prec emax mag1 < fexp prec emax mag2
                   /\ fexp prec emax mag2 = mag2 - 53)%Z)
      by (revert He; unfold fexp, SpecFloat.emin, prec, emax; lia).
    destruct He2 as [Hlt' Heq]. split; [exact Hlt'|].
    rewrite Heq in Hq2.
    assert (Hb : bpow (mag2 - 1) * bpow (- (mag2 - 53)) = bpow 52)
      by (rewrite <- bpow_add; f_equal; lia).
    pose proof (bpow_gt_0 (- (mag2 - 53))) as Hpos.
    assert (Hge : bpow 52 <= x2 * bpow (- (mag2 - 53))) by (rewrite <- Hb; nra).
    rewrite (bpow_IZR 52) in Hge by lia.
    assert (IZR (2 ^ 52 - 1) < IZR q2) by (rewrite minus_IZR; lra).
    apply lt_IZR in H. lia.
Qed.

Lemma bounded_inv m e :
  bounded prec emax m e = true ->
  (e = Z.max (Zpos (digits2_pos m) + e - 53) (-1074) /\ e <= 971)%Z.
Proof.
  unfold bounded, canonical_mantissa, fexp, SpecFloat.emin, prec, emax.
  intros [H1 H2]%andb_true_iff. apply Z.eqb_eq in H1. apply Z.leb_le in H2. lia.
Qed.

Lemma digits2_pos_mul a b :
  (Zpos (digits2_pos a) + Zpos (digits2_pos b) - 1 <= Zpos (digits2_pos (a * b)))%Z.
Proof.
  pose proof (digits2_pos_lower a) as Ha. pose proof (digits2_pos_lower b) as Hb.
  pose proof (digits2_pos_upper (a * b)) as Hab.
  set (da := Zpos (digits2_pos a)) in *. set (db := Zpos (digits2_pos b)) in *.
  set (d := Zpos (digits2_pos (a * b))) in *.
  destruct (Z_le_gt_dec (da + db - 1) d) as [|Hgt]; [assumption|exfalso].
  assert (H1 : (2 ^ (da - 1) * 2 ^ (db - 1) <= Zpos a * Zpos b)%Z).
  { apply Z.mul_le_mono_nonneg; try assumption; apply Z.pow_nonneg; lia. }
  rewrite <- Z.pow_add_r in H1 by (unfold da, db; lia).
  assert (H2 : (2 ^ d <= 2 ^ (da - 1 + (db - 1)))%Z)
    by (apply Z.pow_le_mono_r; lia).
  rewrite Pos2Z.inj_mul in Hab. lia.
Qed.

(** Canonical positive floats compare as the reals they stand for. *)
Lemma SFleb_canonical ma ea mb eb :
  bounded prec emax ma ea = true -> bounded prec emax mb eb = true ->
  SFleb (S754_finite false ma ea) (S754_finite false mb eb) = true ->
  (ma = mb /\ ea = eb)
  \/ IZR (Zpos ma) * bpow ea < IZR (Zpos mb) * bpow eb.
Proof.
  intros Ha%bounded_inv Hb%bounded_inv. unfold SFleb, SFcompare.
  destruct (Z.compare_spec ea eb) as [He|He|He]; [| |discriminate].
  - change (Pos.compare_cont Eq ma mb) with (Pos.compare ma mb).
    destruct (Pos.compare_spec ma mb) as [Hm|Hm|Hm]; [auto| |discriminate].
    intros _. right. subst eb. pose proof (bpow_gt_0 ea).
    apply Rmult_lt_compat_r; [assumption|]. apply IZR_lt. lia.
  - intros _. right.
    pose proof (digits2_pos_upper ma) as Hua.
    pose proof (digits2_pos_lower mb) as Hlb.
    assert (Hda : (Zpos (digits2_pos ma) <= 53)%Z) by lia.
    assert (Hdb : Zpos (digits2_pos mb) = 53%Z) by lia.
    rewrite Hdb in Hlb.
    assert (H1 : IZR (Zpos ma) < bpow 53).
    { rewrite bpow_IZR by lia. apply IZR_lt.
      apply Z.lt_le_trans with (1 := Hua). apply Z.pow_le_mono_r; lia. }
    assert (H2 : bpow 52 <= IZR (Zpos mb))
      by (rewrite bpow_IZR by lia; apply IZR_le; exact Hlb).
    pose proof (bpow_gt_0 ea). pose proof (bpow_gt_0 eb).
    assert (H3 : bpow 53 * bpow ea <= bpow 52 * bpow eb)
      by (rewrite <- !bpow_add; apply bpow_le; lia).
    nra.
Qed.

(** The product of two canonical positive floats, as a rounded real. *)
Lemma SFmul_round ma ea md ed :
  bounded prec emax ma ea = true -> bounded prec emax md ed = true ->
  exists mag q,
    bpow (mag - 1) <= IZR (Zpos ma) * bpow ea * (IZR (Zpos md) * bpow ed) < bpow mag
    /\ IZR q - / 2
       <= IZR (Zpos ma) * bpow ea * (IZR (Zpos md) * bpow ed)
          * bpow (- fexp prec emax mag)
       <= IZR q + / 2
    /\ (0 <= q)%Z
    /\ SFmul prec emax (S754_finite false ma ea) (S754_finite false md ed)
       = round_result q (fexp prec emax mag).
Proof.
  intros Ha%bounded_inv Hd%bounded_inv.
  assert (He : (ea + ed <= fexp prec emax (Zpos (digits2_pos (ma * md)) + (ea + ed)))%Z).
  { pose proof (digits2_pos_mul ma md). unfold fexp, SpecFloat.emin, prec, emax. lia. }
  destruct (round_spec (ma * md) (ea + ed) loc_Exact (IZR (Zpos (ma * md)))
              eq_refl He) as (mag & q & Hx & Hq & Hq0 & Hr).
  exists mag, q.
  assert (Hv : IZR (Zpos (ma * md)) * bpow (ea + ed)
               = IZR (Zpos ma) * bpow ea * (IZR (Zpos md) * bpow ed))
    by (rewrite Pos2Z.inj_mul, mult_IZR, bpow_add; ring).
  rewrite Hv in Hx, Hq. auto.
Qed.

(** Multiplying by a positive finite float is monotone. *)
Lemma SFmul_leb a b md ed :
  valid_binary a = true -> valid_binary b = true ->
  sf_nonneg a = true -> sf_nonneg b = true ->
  bounded prec emax md ed = true ->
  SFleb a b = true ->
  SFleb (SFmul prec emax a (S754_finite false md ed))
        (SFmul prec emax b (S754_finite false md ed)) = true.
Proof.
  intros Hva Hvb Hna Hnb Hd Hab.
  destruct a as [[|]|[|]| |[|] ma ea]; try discriminate;
    destruct b as [[|]|[|]| |[|] mb eb]; try discriminate; try reflexivity.
  - destruct (SFmul_round mb eb md ed Hvb Hd) as (mag & q & _ & _ & Hq & ->).
    apply SFleb_zero_nonneg, round_result_nonneg, Hq.
  - destruct (SFmul_round ma ea md ed Hva Hd) as (mag & q & _ & _ & Hq & ->).
    apply SFleb_nonneg_infinity, round_result_nonneg, Hq.
  - destruct (SFleb_canonical _ _ _ _ Hva Hvb Hab) as [[-> ->]|Hlt].
    + destruct (SFmul_round mb eb md ed Hvb Hd) as (mag & q & _ & _ & Hq & ->).
      apply round_result_leb; [assumption|assumption|lia].
    + destruct (SFmul_round ma ea md ed Hva Hd) as (mag1 & q1 & Hx1 & Hq1 & H1 & ->).
      destruct (SFmul_round mb eb md ed Hvb Hd) as (mag2 & q2 & Hx2 & Hq2 & H2 & ->).
      apply round_mono with (3 := Hx2) (2 := Hx1); try assumption.
      apply Rmult_lt_compat_r; [|exact Hlt].
      apply Rmult_lt_0_compat; [apply IZR_lt; lia | apply bpow_gt_0].
Qed.

End Monotone.

Section Quotient.
Local Open Scope R_scope.

Lemma new_location_spec d r :
  new_location d r
  = if (r =? 0)%Z then loc_Exact else loc_Inexact (Z.compare (2 * r) d).
Proof.
  unfold new_location, new_location_even, new_location_odd.
  destruct (Z.even d) eqn:Hev; destruct (Z.eqb_spec r 0); try reflexivity.
  f_equal.
  destruct (Z.compare_spec (2 * r + 1) d), (Z.compare_spec (2 * r) d);
    try reflexivity; try lia.
  subst d. rewrite Z.even_mul in Hev. discriminate.
Qed.

(** Quotient and remainder of a Euclidean division locate the real
    quotient. *)
Lemma div_inbetween n d q r :
  (0 < d)%Z -> n = (d * q + r)%Z -> (0 <= r < d)%Z ->
  inbetween_int q (new_location d r) (IZR n / IZR d).
Proof.
  intros Hd -> Hr. rewrite new_location_spec.
  assert (Hd' : 0 < IZR d) by (apply IZR_lt; exact Hd).
  assert (Ht : IZR (d * q + r) / IZR d = IZR q + IZR r / IZR d)
    by (rewrite plus_IZR, mult_IZR; field; lra).
  rewrite Ht. set (rho := IZR r / IZR d).
  assert (Hrho : rho * IZR d = IZR r) by (unfold rho; field; lra).
  destruct (Z.eqb_spec r 0) as [->|Hr0].
  - cbn [inbetween_int]. unfold rho. change (IZR 0) with 0. lra.
  - assert (0 < IZR r) by (apply IZR_lt; lia).
    assert (IZR r < IZR d) by (apply IZR_lt; lia).
    destruct (Z.compare_spec (2 * r) d) as [He|He|He]; cbn [inbetween_int].
    + assert (2 * IZR r = IZR d) by (rewrite <- He, mult_IZR; reflexivity). nra.
    + assert (2 * IZR r < IZR d)
        by (change 2 with (IZR 2); rewrite <- mult_IZR; apply IZR_lt; exact He).
      split; nra.
    + assert (IZR d < 2 * IZR r)
        by (change 2 with (IZR 2); rewrite <- mult_IZR; apply IZR_lt; exact He).
      split; nra.
Qed.

Lemma bpow_sub a b : bpow (a - b) = bpow a / bpow b.
Proof.
  pose proof (bpow_gt_0 b). pose proof (bpow_opp_r b).
  replace (a - b)%Z with (a + - b)%Z by lia. rewrite bpow_add.
  assert (bpow (- b) = / bpow b) by (apply Rmult_eq_reg_l with (bpow b); [rewrite Rinv_r|]; lra).
  rewrite H1. reflexivity.
Qed.

(** The quotient of two positive floats whose binades are not too far
    apart, as a rounded real. *)
Lemma SFdiv_round m1 e1 m3 e3 :
  (-1021 <= Zpos (digits2_pos m1) + e1 - (Zpos (digits2_pos m3) + e3))%Z ->
  exists mag q,
    bpow (mag - 1) <= IZR (Zpos m1) * bpow e1 / (IZR (Zpos m3) * bpow e3) < bpow mag
    /\ IZR q - / 2
       <= IZR (Zpos m1) * bpow e1 / (IZR (Zpos m3) * bpow e3)
          * bpow (- fexp prec emax mag)
       <= IZR q + / 2
    /\ (0 <= q)%Z
    /\ SFdiv prec emax (S754_finite false m1 e1) (S754_finite false m3 e3)
       = round_result q (fexp prec emax mag).
Proof.
  intros Hk. unfold SFdiv, SFdiv_core_binary. cbn [Zdigits2 xorb].
  pose proof (digits2_pos_lower m1) as Hl1. pose proof (digits2_pos_upper m3) as Hu3.
  set (d1 := Zpos (digits2_pos m1)) in *. set (d3 := Zpos (digits2_pos m3)) in *.
  set (k := (d1 + e1 - (d3 + e3))%Z) in *.
  set (e' := Z.min (fexp prec emax k) (e1 - e3)).
  assert (He' : (e' <= k - 53 /\ e' <= e1 - e3 /\ e' <= fexp prec emax k)%Z)
    by (unfold e', fexp, SpecFloat.emin, prec, emax; lia).
  set (s := (e1 - e3 - e')%Z).
  assert (Hs : (0 <= s /\ 53 - d1 + d3 <= s)%Z) by (unfold s, k in *; lia).
  assert (Hm' : match s with
                | 0%Z => Zpos m1
                | Zpos _ => Z.shiftl (Zpos m1) s
                | Zneg _ => 0%Z
                end = (Zpos m1 * 2 ^ s)%Z).
  { destruct s as [|ps|ps] eqn:Es; [lia| |lia].
    rewrite Z.shiftl_mul_pow2 by lia. reflexivity. }
  rewrite Hm'. clear Hm'.
  pose proof (Z_div_mod (Zpos m1 * 2 ^ s) (Zpos m3) ltac:(lia)) as Hdm.
  destruct (Z.div_eucl (Zpos m1 * 2 ^ s) (Zpos m3)) as [q r].
  destruct Hdm as [Hn Hr].
  set (A := (d1 - 1 + s - d3)%Z).
  assert (HA : (52 <= A)%Z) by (unfold A; lia).
  assert (Hq : (2 ^ A <= q)%Z).
  { assert (Hp : (2 ^ A * 2 ^ d3 <= Zpos m1 * 2 ^ s)%Z).
    { rewrite <- Z.pow_add_r by (unfold d3; lia).
      replace (A + d3)%Z with (d1 - 1 + s)%Z by (unfold A; lia).
      rewrite Z.pow_add_r by (unfold d1; lia).
      apply Z.mul_le_mono_nonneg_r; [apply Z.pow_nonneg; lia | exact Hl1]. }
    assert (0 < 2 ^ A)%Z by (apply Z.pow_pos_nonneg; lia).
    assert (0 < 2 ^ d3)%Z by (apply Z.pow_pos_nonneg; unfold d3; lia).
    nia. }
  assert (Hq0 : (0 < q)%Z).
  { assert (0 < 2 ^ A)%Z by (apply Z.pow_pos_nonneg; lia). lia. }
  destruct q as [|pq|pq]; [lia| |lia].
  assert (Hdq : (A + 1 <= Zpos (digits2_pos pq))%Z).
  { pose proof (digits2_pos_upper pq) as Hu.
    destruct (Z_le_gt_dec (A + 1) (Zpos (digits2_pos pq))) as [|Hgt]; [assumption|exfalso].
    assert (2 ^ Zpos (digits2_pos pq) <= 2 ^ A)%Z by (apply Z.pow_le_mono_r; lia).
    lia. }
  assert (Hpre : (e' <= fexp prec emax (Zpos (digits2_pos pq) + e'))%Z).
  { revert He' Hdq. unfold A, s, k, fexp, SpecFloat.emin, prec, emax.
    lia. }
  pose proof (div_inbetween _ (Zpos m3) _ _ eq_refl Hn Hr) as Hin.
  destruct (round_spec pq e' _ _ Hin Hpre) as (mag & q & Hx & Hnear & Hq1 & Hres).
  exists mag, q.
  assert (Hv : IZR (Zpos m1 * 2 ^ s) / IZR (Zpos m3) * bpow e'
               = IZR (Zpos m1) * bpow e1 / (IZR (Zpos m3) * bpow e3)).
  { rewrite mult_IZR, <- bpow_IZR by lia.
    assert (Hb : bpow s * bpow e' = bpow e1 / bpow e3).
    { rewrite <- bpow_add, <- bpow_sub. f_equal. unfold s. lia. }
    pose proof (bpow_gt_0 e3).
    assert (0 < IZR (Zpos m3)) by (apply IZR_lt; lia).
    transitivity (IZR (Zpos m1) / IZR (Zpos m3) * (bpow s * bpow e'));
      [field; lra|]. rewrite Hb. field. lra. }
  rewrite Hv in Hx, Hnear. auto.
Qed.

(** Dividing by a positive finite float is monotone. *)
Lemma SFdiv_leb m1 e1 m2 e2 m3 e3 :
  (-1021 <= Zpos (digits2_pos m1) + e1 - (Zpos (digits2_pos m3) + e3))%Z ->
  (-1021 <= Zpos (digits2_pos m2) + e2 - (Zpos (digits2_pos m3) + e3))%Z ->
  IZR (Zpos m1) * bpow e1 < IZR (Zpos m2) * bpow e2 ->
  SFleb (SFdiv prec emax (S754_finite false m1 e1) (S754_finite false m3 e3))
        (SFdiv prec emax (S754_finite false m2 e2) (S754_finite false m3 e3)) = true.
Proof.
  intros Hk1 Hk2 Hlt.
  destruct (SFdiv_round m1 e1 m3 e3 Hk1) as (mag1 & q1 & Hx1 & Hq1 & H1 & ->).
  destruct (SFdiv_round m2 e2 m3 e3 Hk2) as (mag2 & q2 & Hx2 & Hq2 & H2 & ->).
  apply round_mono with (3 := Hx2) (2 := Hx1); try assumption.
  apply Rmult_lt_compat_r; [|exact Hlt].
  apply Rinv_0_lt_compat, Rmult_lt_0_compat; [apply IZR_lt; lia | apply bpow_gt_0].
Qed.

Lemma Pos_iter_xO_value p q : Zpos (Pos.iter xO p q) = (Zpos p * 2 ^ Zpos q)%Z.
Proof.
  induction q using Pos.peano_ind.
  - cbn. lia.
  - rewrite Pos.iter_succ, Pos2Z.inj_xO, IHq, Pos2Z.inj_succ, Z.pow_succ_r by lia.
    lia.
Qed.

(** The float of a positive integer below [2^53] is that integer: a 53-bit
    mantissa at an exponent between -52 and 0. *)
Lemma binary_normalize_value p :
  (Zpos p < 2 ^ 53)%Z ->
  exists m e,
    binary_normalize prec emax (Zpos p) 0 false = S754_finite false m e
    /\ bounded prec emax m e = true
    /\ Zpos (digits2_pos m) = 53%Z
    /\ (-52 <= e <= 0)%Z
    /\ IZR (Zpos m) * bpow e = IZR (Zpos p).
Proof.
  intros Hp. pose proof (digits2_pos_le_53 p Hp) as Hd.
  cbn [binary_normalize]. unfold binary_round, shl_align.
  set (d := digits2_pos p) in *.
  assert (Hf : fexp prec emax (Z.pos d + 0) = (Z.pos d - 53)%Z).
  { unfold fexp, SpecFloat.emin, prec, emax. lia. }
  rewrite Hf.
  destruct (Z.pos d - 53 - 0)%Z as [|q|q] eqn:Hq; try lia.
  - exists p, 0%Z.
    assert (Hb : bounded prec emax p 0 = true).
    { unfold bounded, canonical_mantissa. fold d. rewrite Hf.
      apply andb_true_iff; split; [apply Z.eqb_eq; lia | reflexivity]. }
    split; [apply binary_round_aux_bounded; exact Hb|].
    split; [exact Hb|]. fold d. split; [lia|]. split; [lia|].
    change (bpow 0) with 1. lra.
  - exists (Pos.iter xO p q), (Z.pos d - 53)%Z.
    assert (Hb : bounded prec emax (Pos.iter xO p q) (Z.pos d - 53) = true).
    { unfold bounded, canonical_mantissa. rewrite digits2_pos_iter_xO. fold d.
      apply andb_true_iff; split.
      - apply Z.eqb_eq. unfold fexp, SpecFloat.emin, prec, emax. lia.
      - apply Z.leb_le. unfold prec, emax. lia. }
    split; [apply binary_round_aux_bounded; exact Hb|].
    split; [exact Hb|]. rewrite digits2_pos_iter_xO. fold d.
    split; [lia|]. split; [lia|].
    rewrite Pos_iter_xO_value, mult_IZR, <- bpow_IZR by lia.
    rewrite Rmult_assoc, <- bpow_add.
    replace (Z.pos q + (Z.pos d - 53))%Z with 0%Z by lia.
    change (bpow 0) with 1. lra.
Qed.

Lemma Prim2SF_Z2F_value N :
  (0 < N < 2 ^ 53)%Z ->
  exists m e,
    Prim2SF (Z2F N) = S754_finite false m e
    /\ Zpos (digits2_pos m) = 53%Z
    /\ (-52 <= e <= 0)%Z
    /\ IZR (Zpos m) * bpow e = IZR N.
Proof.
  intros [H0 H1]. destruct N as [|p|p]; try lia.
  destruct (binary_normalize_value p H1) as (m & e & Hn & Hb & Hd & He & Hv).
  exists m, e. unfold Z2F. rewrite Hn.
  split; [apply Prim2SF_SF2Prim; exact Hb | auto].
Qed.

Lemma SFleb_refl_nonneg x : sf_nonneg x = true -> SFleb x x = true.
Proof.
  destruct x as [[|]|[|]| |[|] m e]; cbn; try congruence.
  intros _. apply SFleb_finite. lia.
Qed.

(** The quotients [i / N] in binary64 do not decrease with [i]. *)
Lemma div_Z2F_leb i j N :
  (0 <= i <= j)%Z -> (j < 2 ^ 53)%Z -> (0 < N < 2 ^ 53)%Z ->
  SFleb (Prim2SF (Z2F i / Z2F N)) (Prim2SF (Z2F j / Z2F N)) = true
  /\ sf_nonneg (Prim2SF (Z2F i / Z2F N)) = true
  /\ sf_nonneg (Prim2SF (Z2F j / Z2F N)) = true.
Proof.
  intros Hi Hj HN.
  assert (Hnn : forall n, (0 <= n < 2 ^ 53)%Z ->
                  sf_nonneg (Prim2SF (Z2F n / Z2F N)) = true).
  { intros n Hn. rewrite div_spec. unfold SF64div.
    destruct (Prim2SF_Z2F_value N HN) as (mN & eN & -> & HdN & HeN & HvN).
    destruct (Z.eq_dec n 0%Z) as [->|Hn0]; [reflexivity|].
    destruct (Prim2SF_Z2F_value n ltac:(lia)) as (mn & en & -> & Hdn & Hen & Hvn).
    destruct (SFdiv_round mn en mN eN ltac:(lia)) as (mag & q & _ & _ & Hq & ->).
    apply round_result_nonneg, Hq. }
  split; [|split; apply Hnn; lia].
  destruct (Z.eq_dec i j) as [->|Hij]; [apply SFleb_refl_nonneg, Hnn; lia|].
  destruct (Z.eq_dec i 0%Z) as [->|Hi0].
  - pose proof (Hnn j ltac:(lia)) as Hnj. rewrite div_spec in Hnj.
    rewrite !div_spec. unfold SF64div in *.
    destruct (Prim2SF_Z2F_value N HN) as (mN & eN & HeqN & _).
    rewrite HeqN in *. change (Prim2SF (Z2F 0%Z)) with (S754_zero false).
    apply SFleb_zero_nonneg, Hnj.
  - rewrite !div_spec. unfold SF64div.
    destruct (Prim2SF_Z2F_value N HN) as (mN & eN & -> & HdN & HeN & HvN).
    destruct (Prim2SF_Z2F_value i ltac:(lia)) as (mi & ei & -> & Hdi & Hei & Hvi).
    destruct (Prim2SF_Z2F_value j ltac:(lia)) as (mj & ej & -> & Hdj & Hej & Hvj).
    apply SFdiv_leb; [lia|lia|]. rewrite Hvi, Hvj. apply IZR_lt. lia.
Qed.

End Quotient.

(** The values [(i/N)*duration] do not decrease with [i], for every finite
    positive duration. *)
Lemma start_times_ordered i j N duration :
  (0 <= i <= j)%Z -> (j < 2 ^ 53)%Z -> (0 < N < 2 ^ 53)%Z ->
  is_finite duration = true -> (0 <? duration)%float = true ->
  (Z2F i / Z2F N * duration <=? Z2F j / Z2F N * duration)%float = true.
Proof.
  intros Hi Hj HN Hfin Hpos.
  destruct (finite_pos_inv duration Hfin Hpos) as (md & ed & Hd).
  pose proof (Prim2SF_valid duration) as Hvd. rewrite Hd in Hvd.
  destruct (div_Z2F_leb i j N Hi Hj HN) as (Hle & Hni & Hnj).
  rewrite leb_spec, !mul_spec, Hd. unfold SF64mul.
  apply SFmul_leb; try assumption; apply Prim2SF_valid.
Qed.

(** * Timeline Allocator *)

Lemma truediv_ok a b : b <> 0%Z -> truediv a b = Ok (Z2F a / Z2F b)%float.
Proof. intros Hb. unfold truediv. apply Z.eqb_neq in Hb. rewrite Hb. reflexivity. Qed.

(** With a non-zero [N] the loop appends one slot per remaining shape. *)
Lemma slots_loop_spec N duration rest :
  N <> 0%Z ->
  forall i acc,
    slots_loop N duration i rest acc
    = Ok (acc ++ imap (fun k sh => slot_at N duration (i + Z.of_nat k) sh) rest)%list.
Proof.
  intros HN. induction rest as [|sh rest IH]; intros i acc; cbn [slots_loop].
  - rewrite app_nil_r. reflexivity.
  - rewrite !truediv_ok by assumption. cbn [mbind result_bind rbind].
    rewrite IH, <- app_assoc. cbn [app imap]. do 2 f_equal. f_equal.
    + unfold slot_at. rewrite Z.add_0_r. reflexivity.
    + apply imap_ext. intros k x _. cbn. f_equal. lia.
Qed.

Lemma build_slots_spec shapes duration :
  build_slots shapes duration
  = Ok (imap (fun k sh => slot_at (Z.of_nat (length shapes)) duration (Z.of_nat k) sh)
          shapes).
Proof.
  unfold build_slots. destruct shapes as [|sh rest]; [reflexivity|].
  rewrite slots_loop_spec by (cbn [length]; lia). reflexivity.
Qed.

(** C5. With no shape (N = 0) the allocator returns the empty sequence for
    every duration; the loop body, and with it the division by N (which
    would raise on zero), is never reached. *)
Theorem build_slots_empty :
  (forall duration, build_slots [] duration = Ok [])
  /\ (forall i, truediv i 0 = Raise ZeroDivisionError).
Proof. split; reflexivity. Qed.

(** C1 (amended). For a shape list of length N with 0 < N < 2^53 and a
    finite duration above zero the allocator returns exactly N slots; slot i
    carries shapes[i] and its bounds are the binary64 values of
    (i/N)*duration and ((i+1)/N)*duration; the first slot starts at 0.0, the
    last ends at duration exactly, each slot ends where the next one starts,
    start times never decrease along the list, and no slot ends before it
    starts. *)
Theorem build_slots_partition (shapes : list str) (duration : float) :
  let N := length shapes in
  (0 < N)%nat -> (Z.of_nat N < 2 ^ 53)%Z ->
  is_finite duration = true -> (0 <? duration)%float = true ->
  exists slots,
    build_slots shapes duration = Ok slots
    /\ length slots = N
    /\ (forall i sh, shapes !! i = Some sh ->
          slots !! i = Some {| shape := sh;
                               start := (Z2F (Z.of_nat i) / Z2F (Z.of_nat N) * duration)%float;
                               stop := (Z2F (Z.of_nat i + 1) / Z2F (Z.of_nat N) * duration)%float |})
    /\ start <$> slots !! 0%nat = Some 0%float
    /\ stop <$> slots !! (N - 1)%nat = Some duration
    /\ (forall i a b, slots !! i = Some a -> slots !! S i = Some b ->
          stop a = start b)
    /\ (forall i j a b, (i <= j)%nat ->
          slots !! i = Some a -> slots !! j = Some b ->
          (start a <=? start b)%float = true)
    /\ (forall i a, slots !! i = Some a -> (start a <=? stop a)%float = true).
Proof.
  intros N HN Hbig Hfin Hpos. subst N.
  set (N := length shapes) in *.
  destruct (Prim2SF_Z2F_pos (Z.of_nat N) ltac:(lia)) as (mN & eN & HZN).
  destruct (finite_pos_inv duration Hfin Hpos) as (md & ed & Hd).
  eexists. split; [apply build_slots_spec|]. fold N.
  split; [apply length_imap|].
  split; [|split; [|split; [|split; [|split]]]].
  - intros i sh Hi. rewrite list_lookup_imap, Hi. reflexivity.
  - rewrite list_lookup_imap.
    destruct (lookup_lt_is_Some_2 shapes 0) as [sh Hsh]; [fold N; lia|].
    rewrite Hsh. cbn [fmap option_fmap option_map]. unfold slot_at. cbn [start].
    change (Z2F (Z.of_nat 0)) with 0%float.
    rewrite (div_zero_l _ _ _ HZN), (mul_zero_l _ _ _ Hd). reflexivity.
  - rewrite list_lookup_imap.
    destruct (lookup_lt_is_Some_2 shapes (N - 1)) as [sh Hsh]; [fold N; lia|].
    rewrite Hsh. cbn [fmap option_fmap option_map]. unfold slot_at. cbn [stop].
    replace (Z.of_nat (N - 1) + 1)%Z with (Z.of_nat N) by lia.
    rewrite (div_self _ _ _ HZN), mul_one_l. reflexivity.
  - intros i a b. rewrite !list_lookup_imap.
    destruct (shapes !! i) as [x|]; [|discriminate].
    destruct (shapes !! S i) as [y|]; [|discriminate].
    cbn [fmap option_fmap option_map]. intros [= <-] [= <-].
    unfold slot_at. cbn [start stop].
    replace (Z.of_nat (S i)) with (Z.of_nat i + 1)%Z by lia. reflexivity.
  - intros i j a b Hij. rewrite !list_lookup_imap.
    destruct (shapes !! i) as [x|] eqn:Hx; [|discriminate].
    destruct (shapes !! j) as [y|] eqn:Hy; [|discriminate].
    apply lookup_lt_Some in Hy. fold N in Hy.
    cbn [fmap option_fmap option_map]. intros [= <-] [= <-].
    unfold slot_at. cbn [start].
    apply start_times_ordered; try assumption; lia.
  - intros i a. rewrite list_lookup_imap.
    destruct (shapes !! i) as [x|] eqn:Hx; [|discriminate].
    apply lookup_lt_Some in Hx. fold N in Hx.
    cbn [fmap option_fmap option_map]. intros [= <-].
    unfold slot_at. cbn [start stop].
    apply start_times_ordered; try assumption; lia.
Qed.

Lemma build_slots_partition_witness :
  exists slots,
    build_slots (map u ["AA"; "OH"; "rr"; "dd"]) 1 = Ok slots
    /\ length slots = 4%nat
    /\ (forall i sh, (map u ["AA"; "OH"; "rr"; "dd"]) !! i = Some sh ->
          slots !! i = Some {| shape := sh;
                               start := (Z2F (Z.of_nat i) / Z2F 4 * 1)%float;
                               stop := (Z2F (Z.of_nat i + 1) / Z2F 4 * 1)%float |})
    /\ start <$> slots !! 0%nat = Some 0%float
    /\ stop <$> slots !! 3%nat = Some 1%float
    /\ (forall i a b, slots !! i = Some a -> slots !! S i = Some b ->
          stop a = start b)
    /\ (forall i j a b, (i <= j)%nat ->
          slots !! i = Some a -> slots !! j = Some b ->
          (start a <=? start b)%float = true)
    /\ (forall i a, slots !! i = Some a -> (start a <=? stop a)%float = true).
Proof.
  apply (build_slots_partition (map u ["AA"; "OH"; "rr"; "dd"]) 1).
  - cbn. lia.
  - cbn. lia.
  - vm_compute. reflexivity.
  - vm_compute. reflexivity.
Defined.

(** C1, as stated, fails: over the smallest positive duration the two
    slots of a two-shape list both start at 0.0, so start times are not
    strictly increasing. *)
Lemma build_slots_starts_collapse :
  (0 <? 0x1p-1074)%float = true
  /\ (exists slots,
        build_slots (map u ["AA"; "OH"]) 0x1p-1074 = Ok slots
        /\ ~ starts_increasing slots).
Proof.
  split; [vm_compute; reflexivity|].
  eexists. split; [vm_compute; reflexivity|].
  intros H. specialize (H 0%nat _ _ eq_refl eq_refl).
  vm_compute in H. discriminate.
Qed.

(** * Python strings *)

Lemma eqs_spec (a b : str) : reflect (a = b) (eqs a b).
Proof. unfold eqs. apply bool_decide_reflect. Qed.

Lemma eqs_refl (a : str) : eqs a a = true.
Proof. unfold eqs. apply bool_decide_eq_true_2. reflexivity. Qed.

Lemma eqs_neq (a b : str) : a <> b -> eqs a b = false.
Proof. unfold eqs. apply bool_decide_eq_false_2. Qed.

Lemma assoc_In c table out : assoc c table = Some out -> In (c, out) table.
Proof.
  induction table as [|[k o] rest IH]; cbn [assoc]; [discriminate|].
  destruct (N.eqb_spec k c) as [->|_].
  - intros [= ->]. left. reflexivity.
  - intros H. right. apply IH, H.
Qed.

(** No code point that [upper()] produces is changed by [upper()]: checked
    entry by entry on the table. *)
Lemma TOUPPER_fixed :
  forallb (fun e => forallb (fun o => bool_decide (upper_char o = [o])) (snd e)) TOUPPER
  = true.
Proof. vm_compute. reflexivity. Qed.

Lemma upper_fixed s : Forall (fun o => upper_char o = [o]) s -> upper s = s.
Proof.
  induction s as [|c s IH]; [reflexivity|].
  intros [Hc Hs]%Forall_cons. cbn [upper]. rewrite Hc, (IH Hs). reflexivity.
Qed.

Lemma upper_char_fixed c : Forall (fun o => upper_char o = [o]) (upper_char c).
Proof.
  unfold upper_char at 2. destruct (assoc c TOUPPER) as [out|] eqn:Hc.
  - apply assoc_In in Hc. pose proof TOUPPER_fixed as Ht.
    rewrite forallb_forall in Ht. specialize (Ht _ Hc). cbn [snd] in Ht.
    rewrite forallb_forall in Ht. apply Forall_forall.
    intros o Ho%list_elem_of_In. apply Ht in Ho.
    exact (bool_decide_eq_true_1 _ Ho).
  - constructor; [|constructor]. unfold upper_char. rewrite Hc. reflexivity.
Qed.

Lemma upper_each_fixed s : Forall (fun o => upper_char o = [o]) (upper s).
Proof.
  induction s as [|c s IH]; cbn [upper]; [constructor|].
  apply Forall_app. split; [apply upper_char_fixed | exact IH].
Qed.

Lemma upper_idem s : upper (upper s) = upper s.
Proof. apply upper_fixed, upper_each_fixed. Qed.

(** * Viseme Mapper *)

Lemma mem_true x S : mem x S = true -> x ∈ S.
Proof. unfold mem. intros H. exact (bool_decide_eq_true_1 _ H). Qed.

Lemma pick_closed candidates : pick candidates = [] \/ pick candidates ∈ SHAPES.
Proof.
  induction candidates as [|c rest IH]; cbn [pick]; [left; reflexivity|].
  destruct (mem c SHAPES) eqn:Hc; [right; apply mem_true; exact Hc | exact IH].
Qed.

(** C2. [arpabet_to_shape] is a function (total and deterministic) into the
    fourteen-symbol alphabet SHAPES extended with the empty string: on every
    input it returns the empty string ("no shape") or a member of SHAPES. *)
Theorem arpabet_to_shape_in_alphabet :
  size SHAPES = 14%nat
  /\ forall arpa : str,
       arpabet_to_shape arpa = [] \/ arpabet_to_shape arpa ∈ SHAPES.
Proof.
  split; [vm_compute; reflexivity|].
  intros arpa. unfold arpabet_to_shape.
  repeat match goal with
         | |- context [if ?b then pick ?l else _] =>
             destruct b; [apply pick_closed|]
         end.
  destruct (mem (upper arpa) SHAPES) eqn:Hm.
  - right. apply mem_true. exact Hm.
  - left. reflexivity.
Qed.

(** * Further properties of the Viseme Mapper *)

Lemma mem_list_true x l : mem x (list_to_set l) = true -> x ∈ l.
Proof. intros H%mem_true. apply elem_of_list_to_set in H. exact H. Qed.

(** [phones_to_shapes] is the list of the phones' shapes with the empty
    ones left out. *)
Lemma phones_to_shapes_filter phones :
  phones_to_shapes phones
  = List.filter (fun s => negb (eqs s [])) (map arpabet_to_shape phones).
Proof.
  induction phones as [|p rest IH]; cbn [phones_to_shapes map List.filter];
    [reflexivity|].
  destruct (eqs (arpabet_to_shape p) []); cbn [negb]; rewrite IH;
    reflexivity.
Qed.

Lemma arpabet_to_shape_closed arpa :
  arpabet_to_shape arpa = [] \/ arpabet_to_shape arpa ∈ SHAPES.
Proof.
  unfold arpabet_to_shape.
  repeat match goal with
         | |- context [if ?b then pick ?l else _] =>
             destruct b; [apply pick_closed|]
         end.
  destruct (mem (upper arpa) SHAPES) eqn:Hm;
    [right; apply mem_true; exact Hm | left; reflexivity].
Qed.

(** X1. Every element of [phones_to_shapes phones] is a member of SHAPES
    (never the empty string), the elements come in the order of the phones
    they stand for, and the result is never longer than the input. *)
Theorem phones_to_shapes_sound (phones : list str) :
  Forall (fun s => s ∈ SHAPES /\ s <> []) (phones_to_shapes phones)
  /\ phones_to_shapes phones
     = List.filter (fun s => negb (eqs s [])) (map arpabet_to_shape phones)
  /\ (length (phones_to_shapes phones) <= length phones)%nat.
Proof.
  split; [|split; [apply phones_to_shapes_filter|]].
  - induction phones as [|p rest IH]; cbn [phones_to_shapes]; [constructor|].
    destruct (eqs_spec (arpabet_to_shape p) []) as [He|Hne]; [exact IH|].
    constructor; [|exact IH]. split; [|exact Hne].
    destruct (arpabet_to_shape_closed p) as [H|H]; [contradiction | exact H].
  - induction phones as [|p rest IH]; cbn [phones_to_shapes length]; [lia|].
    destruct (eqs (arpabet_to_shape p) []); cbn [length]; lia.
Qed.

Lemma mem_outside a l :
  a ∉ MAPPED -> Forall (fun x => x ∈ MAPPED) l -> mem a (list_to_set l) = false.
Proof.
  intros Ha Hl. destruct (mem a (list_to_set l)) eqn:Hm; [|reflexivity].
  apply mem_list_true in Hm. rewrite Forall_forall in Hl.
  exfalso. apply Ha, Hl, Hm.
Qed.

Ltac sublist_mapped := apply (bool_decide_unpack _); vm_compute; exact I.

(** X2. [arpabet_to_shape] gives a shape exactly to the symbols whose
    upper-case form is one of the 36 phones of its class rules or one of
    EE, OH, OU; every other input, the lower-case shape names included, has
    no shape. *)
Theorem arpabet_to_shape_mapped (arpa : str) :
  arpabet_to_shape arpa <> [] <-> upper arpa ∈ MAPPED.
Proof.
  unfold arpabet_to_shape. cbv zeta.
  pose proof (upper_idem arpa) as Hup. revert Hup.
  generalize (upper arpa). intros a Hup.
  destruct (decide (a ∈ MAPPED)) as [Hin|Hout].
  - split; [intros _; exact Hin|intros _].
    unfold MAPPED in Hin. cbn [map] in Hin.
    repeat (apply elem_of_cons in Hin as [->|Hin]); [..|inversion Hin].
    all: vm_compute; discriminate.
  - split; [|intros Hin; contradiction]. intros Hne. exfalso. apply Hne.
    rewrite !mem_outside by (exact Hout || sublist_mapped).
    destruct (eqs_spec a (u "EH")) as [->|_];
      [exfalso; apply Hout; sublist_mapped|].
    destruct (mem a SHAPES) eqn:Hs; [|reflexivity].
    exfalso. apply mem_list_true in Hs. cbn [map] in Hs.
    repeat (apply elem_of_cons in Hs as [->|Hs]); [..|inversion Hs].
    all: first [ apply Hout; sublist_mapped | vm_compute in Hup; discriminate Hup ].
Qed.

(** * Phonemizer *)












(** * Further properties of the Phonemizer *)

(** Splitting a text around a white-space character splits each side. *)
Lemma split_go_join sp (Hsp : isspace sp = true) t s :
  forall cur,
    split_go cur (s ++ sp :: t) = split_go cur s ++ split_go [] t.
Proof.
  induction s as [|c s IH]; intros cur; cbn [app split_go].
  - rewrite Hsp. reflexivity.
  - destruct (isspace c); [rewrite IH, app_assoc; reflexivity | apply IH].
Qed.

Lemma arpabet_loop_acc cmu raw_words :
  forall phones,
    arpabet_loop cmu raw_words phones
    = (ps ← arpabet_loop cmu raw_words []; Ok (phones ++ ps)).
Proof.
  induction raw_words as [|raw rest IH]; intros phones; cbn [arpabet_loop].
  - cbn. rewrite app_nil_r. reflexivity.
  - destruct (eqs (normalize raw) []); [apply IH|].
    destruct (word_phones cmu (normalize raw)) as [ps|e];
      cbn [mbind result_bind rbind]; [|reflexivity].
    rewrite (IH (phones ++ ps)), (IH ([] ++ ps)).
    destruct (arpabet_loop cmu rest []) as [qs|e];
      cbn [mbind result_bind rbind app]; [|reflexivity].
    rewrite app_assoc. reflexivity.
Qed.

Lemma arpabet_loop_app cmu ws1 ws2 :
  forall phones,
    arpabet_loop cmu (ws1 ++ ws2) phones
    = (ps ← arpabet_loop cmu ws1 phones; arpabet_loop cmu ws2 ps).
Proof.
  induction ws1 as [|raw rest IH]; intros phones; cbn [arpabet_loop app].
  - reflexivity.
  - destruct (eqs (normalize raw) []); [apply IH|].
    destruct (word_phones cmu (normalize raw)) as [ps|e];
      cbn [mbind result_bind rbind]; [apply IH | reflexivity].
Qed.

(** X3. The Phonemizer works word by word: the phones of two texts joined
    by a white-space character (any character [str.isspace] holds of) are
    the phones of the first followed by the phones of the second, and the
    joined text fails exactly when one of them does (the first failure is
    reported). *)
Theorem text_to_arpabet_join (cmu : lexicon) (sp : N) (s t : str) :
  isspace sp = true ->
  text_to_arpabet cmu (s ++ sp :: t)
  = (ps ← text_to_arpabet cmu s;
     qs ← text_to_arpabet cmu t;
     Ok (ps ++ qs)).
Proof.
  intros Hsp. unfold text_to_arpabet, py_split.
  rewrite (split_go_join sp Hsp), arpabet_loop_app.
  destruct (arpabet_loop cmu (split_go [] s) []) as [ps|e];
    cbn [mbind result_bind rbind]; [|reflexivity].
  apply arpabet_loop_acc.
Qed.

Lemma text_to_arpabet_join_witness :
  text_to_arpabet hello_lexicon (u "Hello" ++ 160%N :: u "world")
  = (ps ← text_to_arpabet hello_lexicon (u "Hello");
     qs ← text_to_arpabet hello_lexicon (u "world");
     Ok (ps ++ qs)).
Proof.
  apply (text_to_arpabet_join hello_lexicon 160%N (u "Hello") (u "world")).
  reflexivity.
Defined.

Lemma filter_none (keep : N -> bool) s :
  Forall (fun c => keep c = false) s -> List.filter keep s = [].
Proof.
  induction s as [|c s IH]; cbn [List.filter]; [reflexivity|].
  intros [Hc Hs]%Forall_cons. rewrite Hc. apply IH, Hs.
Qed.

Lemma split_go_chars (P : N -> Prop) s :
  forall cur,
    Forall P cur -> Forall P s ->
    Forall (fun w => Forall P w) (split_go cur s).
Proof.
  assert (Hflush : forall cur, Forall P cur -> Forall (fun w => Forall P w) (flush cur)).
  { intros [|c cur] H; [constructor|]. cbn [flush]. constructor; [|constructor].
    apply Forall_rev. exact H. }
  induction s as [|c s IH]; intros cur Hcur Hs; cbn [split_go].
  - apply Hflush, Hcur.
  - apply Forall_cons in Hs as [Hc Hs]. destruct (isspace c).
    + apply Forall_app. split; [apply Hflush, Hcur | apply IH; [constructor | exact Hs]].
    + apply IH; [constructor; assumption | exact Hs].
Qed.

Lemma arpabet_loop_skips cmu raw_words phones :
  Forall (fun w => normalize w = []) raw_words ->
  arpabet_loop cmu raw_words phones = Ok phones.
Proof.
  induction raw_words as [|raw rest IH]; cbn [arpabet_loop]; [reflexivity|].
  intros [Hraw Hrest]%Forall_cons. rewrite Hraw, eqs_refl. apply IH, Hrest.
Qed.

(** X5. A text without any letter or apostrophe (empty, blank, digits or
    punctuation only) gives the empty phoneme sequence without consulting
    the lexicon: over every lexicon the result is [Ok []]. *)
Theorem text_to_arpabet_no_letters (cmu : lexicon) (text : str) :
  Forall (fun c => keep_char c = false) text ->
  text_to_arpabet cmu text = Ok [].
Proof.
  intros Htext. unfold text_to_arpabet, py_split.
  apply arpabet_loop_skips.
  eapply Forall_impl;
    [apply (split_go_chars (fun c => keep_char c = false)); [constructor | exact Htext]|].
  intros w Hw. unfold normalize. rewrite (filter_none _ _ Hw). reflexivity.
Qed.

Lemma text_to_arpabet_no_letters_witness :
  text_to_arpabet hollow_lexicon (u " 42 -- ... !?") = Ok [].
Proof.
  apply (text_to_arpabet_no_letters hollow_lexicon (u " 42 -- ... !?")).
  repeat constructor.
Defined.

Lemma arpabet_loop_failure cmu raw_words :
  forall phones e,
    arpabet_loop cmu raw_words phones = Raise e ->
    e = IndexError
    /\ exists raw, raw ∈ raw_words /\ normalize raw <> []
                   /\ cmu !! normalize raw = Some [].
Proof.
  induction raw_words as [|raw rest IH]; intros phones e; cbn [arpabet_loop];
    [discriminate|].
  assert (Hrest : forall acc, arpabet_loop cmu rest acc = Raise e ->
            e = IndexError
            /\ exists raw0, raw0 ∈ raw :: rest /\ normalize raw0 <> []
                            /\ cmu !! normalize raw0 = Some []).
  { intros acc Hacc. destruct (IH _ _ Hacc) as (He & raw0 & Hin & Hne & Hmiss).
    split; [exact He|]. exists raw0. split; [right; exact Hin | auto]. }
  destruct (eqs_spec (normalize raw) []) as [_|Hne]; [apply Hrest|].
  unfold word_phones.
  destruct (cmu !! normalize raw) as [[|pron others]|] eqn:Hw;
    cbn [mbind result_bind rbind]; try apply Hrest.
  intros [= <-]. split; [reflexivity|].
  exists raw. split; [left | auto].
Qed.

(** X6. [text_to_arpabet] fails in one way only: with IndexError, when a
    word of the text (non-empty once normalized) has a lexicon entry that
    lists no variant. Over a lexicon whose entries all list a variant it
    returns on every text. *)
Theorem text_to_arpabet_failure (cmu : lexicon) (text : str) :
  (forall e,
      text_to_arpabet cmu text = Raise e ->
      e = IndexError
      /\ exists raw, raw ∈ py_split text /\ normalize raw <> []
                     /\ cmu !! normalize raw = Some [])
  /\ (lexicon_total cmu -> exists phones, text_to_arpabet cmu text = Ok phones).
Proof.
  split.
  - intros e. apply arpabet_loop_failure.
  - intros Htotal. destruct (text_to_arpabet cmu text) as [phones|e] eqn:Hrun;
      [eauto|].
    destruct (arpabet_loop_failure _ _ _ _ Hrun) as (_ & raw & _ & _ & Hw).
    exfalso. exact (Htotal _ _ Hw eq_refl).
Qed.

Lemma text_to_arpabet_failure_witness :
  (text_to_arpabet hollow_lexicon (u "a") = Raise IndexError
   /\ exists raw, raw ∈ py_split (u "a") /\ normalize raw <> []
                  /\ hollow_lexicon !! normalize raw = Some [])
  /\ exists phones, text_to_arpabet hello_lexicon (u "Hello there") = Ok phones.
Proof.
  destruct (text_to_arpabet_failure hollow_lexicon (u "a")) as [Hfail _].
  destruct (text_to_arpabet_failure hello_lexicon (u "Hello there")) as [_ Hok].
  split.
  - split; [vm_compute; reflexivity|].
    apply (Hfail IndexError). vm_compute. reflexivity.
  - apply Hok. intros w vs. unfold hello_lexicon.
    rewrite !lookup_insert, lookup_empty.
    repeat case_decide; intros [= <-]; discriminate.
Defined.

Lemma word_phones_first_variant (cmu cmu' : lexicon) word :
  head <$> cmu !! word = head <$> cmu' !! word ->
  word_phones cmu word = word_phones cmu' word.
Proof.
  unfold word_phones.
  destruct (cmu !! word) as [[|p vs]|], (cmu' !! word) as [[|p' vs']|];
    cbn; intros [=]; subst; reflexivity.
Qed.

Lemma arpabet_loop_first_variant (cmu cmu' : lexicon) raw_words :
  (forall word, head <$> cmu !! word = head <$> cmu' !! word) ->
  forall phones,
    arpabet_loop cmu raw_words phones = arpabet_loop cmu' raw_words phones.
Proof.
  intros Hagree. induction raw_words as [|raw rest IH]; intros phones;
    cbn [arpabet_loop]; [reflexivity|].
  destruct (eqs (normalize raw) []); [apply IH|].
  rewrite (word_phones_first_variant cmu cmu' _ (Hagree _)).
  destruct (word_phones cmu' (normalize raw)); cbn [mbind result_bind rbind];
    [apply IH | reflexivity].
Qed.

(** X7. Only the first pronunciation variant of an entry matters: two
    lexicons that list the same words with the same first variant give the
    same result on every text, whatever further variants they list. *)
Theorem text_to_arpabet_first_variant (cmu cmu' : lexicon) (text : str) :
  (forall word, head <$> cmu !! word = head <$> cmu' !! word) ->
  text_to_arpabet cmu text = text_to_arpabet cmu' text.
Proof.
  intros Hagree. apply arpabet_loop_first_variant. exact Hagree.
Qed.

Lemma text_to_arpabet_first_variant_witness :
  text_to_arpabet hello_lexicon (u "Hello world")
  = text_to_arpabet
      (<[u "HELLO" := [map u ["HH"; "AH"; "L"; "OW"]; map u ["HH"; "EH"; "L"; "OW"]]]>
         hello_lexicon)
      (u "Hello world").
Proof.
  apply (text_to_arpabet_first_variant hello_lexicon).
  intros word. unfold hello_lexicon. rewrite !lookup_insert.
  repeat case_decide; reflexivity.
Defined.

(** X8. Stress removal undoes stress marking and touches nothing else: a
    phone followed by one digit is stripped back to the phone, and a phone
    that does not end in a digit is kept as it is. *)
Theorem strip_stress_marked (p : str) (d : N) :
  (isdigit d = true -> strip_stress (p ++ [d]) = p)
  /\ (isdigit d = false -> strip_stress (p ++ [d]) = p ++ [d]).
Proof.
  unfold strip_stress. rewrite last_snoc.
  split; intros ->; [apply removelast_last | reflexivity].
Qed.

Lemma normalize_upper_fixed raw : upper (normalize raw) = normalize raw.
Proof. unfold normalize. apply upper_idem. Qed.

Lemma arpabet_loop_no_hit (cmu : lexicon) raw_words :
  (forall word, upper word = word -> cmu !! word = None) ->
  forall phones,
    arpabet_loop cmu raw_words phones = arpabet_loop ∅ raw_words phones.
Proof.
  intros Hkeys. induction raw_words as [|raw rest IH]; intros phones;
    cbn [arpabet_loop]; [reflexivity|].
  destruct (eqs (normalize raw) []); [apply IH|].
  unfold word_phones.
  rewrite (Hkeys _ (normalize_upper_fixed raw)), lookup_empty.
  cbn [mbind result_bind rbind]. apply IH.
Qed.

(** X21. The Phonemizer looks words up in upper case only: a lexicon none
    of whose keys is its own upper-case form (every key has a lower-case
    letter) is never hit, and every text is spelled out letter by letter as
    over the empty lexicon. *)
Theorem text_to_arpabet_lower_case_keys (cmu : lexicon) (text : str) :
  (forall word, upper word = word -> cmu !! word = None) ->
  text_to_arpabet cmu text = text_to_arpabet ∅ text.
Proof. intros Hkeys. apply arpabet_loop_no_hit. exact Hkeys. Qed.

Lemma text_to_arpabet_lower_case_keys_witness :
  text_to_arpabet (<[u "hello" := [map u ["HH"; "AH0"; "L"; "OW1"]]]> ∅) (u "hello")
  = text_to_arpabet ∅ (u "hello").
Proof.
  apply (text_to_arpabet_lower_case_keys
           (<[u "hello" := [map u ["HH"; "AH0"; "L"; "OW1"]]]> ∅) (u "hello")).
  intros word Hup. apply lookup_insert_None. split; [apply lookup_empty|].
  intros <-. vm_compute in Hup. discriminate.
Defined.

(** * Letter case *)

Lemma case_stable_inv c :
  case_stable c = true ->
  upper_char c = [up1 c]
  /\ isspace (up1 c) = isspace c
  /\ keep_char (up1 c) = keep_char c.
Proof.
  unfold case_stable, up1. destruct (upper_char c) as [|c' [|]]; try discriminate.
  intros [H1 H2]%andb_true_iff. apply eqb_prop in H1, H2. auto.
Qed.

Lemma upper_stable s :
  Forall (fun c => case_stable c = true) s -> upper s = map up1 s.
Proof.
  induction s as [|c s IH]; [reflexivity|].
  intros [Hc Hs]%Forall_cons. cbn [upper map].
  destruct (case_stable_inv c Hc) as (-> & _). rewrite (IH Hs). reflexivity.
Qed.

Lemma flush_up1 cur : flush (map up1 cur) = map (map up1) (flush cur).
Proof.
  destruct cur as [|c cur]; [reflexivity|].
  cbn [flush map]. rewrite map_rev. reflexivity.
Qed.

Lemma split_go_up1 s :
  forall cur,
    Forall (fun c => case_stable c = true) s ->
    split_go (map up1 cur) (map up1 s) = map (map up1) (split_go cur s).
Proof.
  induction s as [|c s IH]; intros cur Hs; cbn [map split_go].
  - apply flush_up1.
  - apply Forall_cons in Hs as [Hc Hs].
    destruct (case_stable_inv c Hc) as (_ & -> & _).
    destruct (isspace c).
    + rewrite map_app, <- flush_up1. change [] with (map up1 []) at 1.
      rewrite (IH _ Hs). reflexivity.
    + change (up1 c :: map up1 cur) with (map up1 (c :: cur)). apply IH, Hs.
Qed.

Lemma filter_keep_up1 s :
  Forall (fun c => case_stable c = true) s ->
  List.filter keep_char (map up1 s) = map up1 (List.filter keep_char s).
Proof.
  induction s as [|c s IH]; [reflexivity|].
  intros [Hc Hs]%Forall_cons. cbn [map List.filter].
  destruct (case_stable_inv c Hc) as (_ & _ & ->).
  destruct (keep_char c); cbn [map]; rewrite (IH Hs); reflexivity.
Qed.

Lemma Forall_filter_keep (P : N -> Prop) s :
  Forall P s -> Forall P (List.filter keep_char s).
Proof.
  induction 1 as [|c s Hc Hs IH]; cbn [List.filter]; [constructor|].
  destruct (keep_char c); [constructor|]; assumption.
Qed.

Lemma normalize_up1 w :
  Forall (fun c => case_stable c = true) w ->
  normalize (map up1 w) = normalize w.
Proof.
  intros Hw. unfold normalize.
  rewrite (filter_keep_up1 w Hw),
    <- (upper_stable _ (Forall_filter_keep _ w Hw)).
  apply upper_idem.
Qed.

Lemma arpabet_loop_up1 cmu raw_words :
  Forall (fun w => Forall (fun c => case_stable c = true) w) raw_words ->
  forall phones,
    arpabet_loop cmu (map (map up1) raw_words) phones
    = arpabet_loop cmu raw_words phones.
Proof.
  induction 1 as [|raw rest Hraw Hrest IH]; intros phones;
    cbn [map arpabet_loop]; [reflexivity|].
  rewrite (normalize_up1 raw Hraw).
  destruct (eqs (normalize raw) []); [apply IH|].
  destruct (word_phones cmu (normalize raw)); cbn [mbind result_bind rbind];
    [apply IH | reflexivity].
Qed.

Lemma ascii_case_stable c : (c < 128)%N -> case_stable c = true.
Proof.
  intros Hc.
  assert (Hall : forallb case_stable (map N.of_nat (seq 0 128)) = true)
    by (vm_compute; reflexivity).
  rewrite forallb_forall in Hall. apply Hall.
  apply in_map_iff. exists (N.to_nat c). split; [lia|].
  apply in_seq. lia.
Qed.

(** X4. On ASCII text the Phonemizer ignores letter case: a text and its
    upper-case form give the same result, phones or failure, over every
    lexicon. The same holds of every text whose characters keep their
    class under [upper()]; it does not hold of all of Unicode. *)
Theorem text_to_arpabet_case_insensitive (cmu : lexicon) (text : str) :
  Forall (fun c => (c < 128)%N \/ case_stable c = true) text ->
  text_to_arpabet cmu (upper text) = text_to_arpabet cmu text.
Proof.
  intros Htext.
  assert (Hs : Forall (fun c => case_stable c = true) text).
  { eapply Forall_impl; [exact Htext|]. intros c [Hc|Hc];
      [apply ascii_case_stable, Hc | exact Hc]. }
  unfold text_to_arpabet, py_split. rewrite (upper_stable text Hs).
  change (@nil N) with (map up1 []) at 1.
  rewrite (split_go_up1 text [] Hs). apply arpabet_loop_up1.
  apply split_go_chars; [constructor | exact Hs].
Qed.

Lemma text_to_arpabet_case_insensitive_witness :
  text_to_arpabet hello_lexicon (upper (u "Hello, world" ++ [160; 233]%N))
  = text_to_arpabet hello_lexicon (u "Hello, world" ++ [160; 233]%N)
  /\ text_to_arpabet hello_lexicon (u "Hello, world" ++ [160; 233]%N)
     = Ok (map u ["HH"; "AH"; "L"; "OW"; "W"; "ER"; "L"; "D"] ++ [[201%N]])
  /\ case_stable 837 = false
  /\ text_to_arpabet hello_lexicon (upper [837%N])
     <> text_to_arpabet hello_lexicon [837%N].
Proof.
  split; [|split; [|split]].
  - apply (text_to_arpabet_case_insensitive hello_lexicon
             (u "Hello, world" ++ [160; 233]%N)).
    apply Forall_forall. intros c Hc%list_elem_of_In.
    vm_compute in Hc.
    repeat (destruct Hc as [<-|Hc]; [try (left; reflexivity); right; reflexivity|]).
    destruct Hc.
  - vm_compute. reflexivity.
  - vm_compute. reflexivity.
  - vm_compute. discriminate.
Defined.

(** * The "Hello world" scenario *)

(** C4 (amended). With a lexicon that lists HELLO as [HH, AH, L, OW] and
    WORLD as [W, ER, L, D], the text "Hello world" gives the phoneme
    sequence [HH, AH, L, OW, W, ER, L, D]; the class rules give AH the shape
    AA, OW the shape OH, ER the shape rr and D the shape dd, while HH, L and W
    have no shape and are dropped, so the shape sequence is [AA, OH, rr, dd];
    over a duration of 1.0 s the allocator returns exactly 4 slots, each
    spanning 0.25 s. *)
Theorem hello_world_scenario (cmu : lexicon) (others1 others2 : list (list str)) :
  cmu !! u "HELLO" = Some ((map u ["HH"; "AH"; "L"; "OW"]) :: others1) ->
  cmu !! u "WORLD" = Some ((map u ["W"; "ER"; "L"; "D"]) :: others2) ->
  text_to_arpabet cmu (u "Hello world")
  = Ok (map u ["HH"; "AH"; "L"; "OW"; "W"; "ER"; "L"; "D"])
  /\ map arpabet_to_shape (map u ["HH"; "AH"; "L"; "OW"; "W"; "ER"; "L"; "D"])
     = (map u [""; "AA"; ""; "OH"; ""; "rr"; ""; "dd"])
  /\ phones_to_shapes (map u ["HH"; "AH"; "L"; "OW"; "W"; "ER"; "L"; "D"])
     = (map u ["AA"; "OH"; "rr"; "dd"])
  /\ build_slots (map u ["AA"; "OH"; "rr"; "dd"]) 1
     = Ok [ {| shape := u "AA"; start := 0; stop := 0.25 |};
            {| shape := u "OH"; start := 0.25; stop := 0.5 |};
            {| shape := u "rr"; start := 0.5; stop := 0.75 |};
            {| shape := u "dd"; start := 0.75; stop := 1 |} ]
  /\ (0.25 - 0 = 0.25 /\ 0.5 - 0.25 = 0.25 /\ 0.75 - 0.5 = 0.25 /\ 1 - 0.75 = 0.25)%float.
Proof.
  intros Hhello Hworld. split; [|repeat split; vm_compute; reflexivity].
  unfold text_to_arpabet.
  change (py_split (u "Hello world")) with (map u ["Hello"; "world"]).
  cbn [arpabet_loop map].
  change (normalize (u "Hello")) with (u "HELLO").
  change (normalize (u "world")) with (u "WORLD").
  change (eqs (u "HELLO") []) with false.
  change (eqs (u "WORLD") []) with false.
  cbv iota. unfold word_phones. rewrite Hhello, Hworld. reflexivity.
Qed.

Lemma hello_world_scenario_witness :
  text_to_arpabet hello_lexicon (u "Hello world")
  = Ok (map u ["HH"; "AH"; "L"; "OW"; "W"; "ER"; "L"; "D"])
  /\ map arpabet_to_shape (map u ["HH"; "AH"; "L"; "OW"; "W"; "ER"; "L"; "D"])
     = (map u [""; "AA"; ""; "OH"; ""; "rr"; ""; "dd"])
  /\ phones_to_shapes (map u ["HH"; "AH"; "L"; "OW"; "W"; "ER"; "L"; "D"])
     = (map u ["AA"; "OH"; "rr"; "dd"])
  /\ build_slots (map u ["AA"; "OH"; "rr"; "dd"]) 1
     = Ok [ {| shape := u "AA"; start := 0; stop := 0.25 |};
            {| shape := u "OH"; start := 0.25; stop := 0.5 |};
            {| shape := u "rr"; start := 0.5; stop := 0.75 |};
            {| shape := u "dd"; start := 0.75; stop := 1 |} ]
  /\ (0.25 - 0 = 0.25 /\ 0.5 - 0.25 = 0.25 /\ 0.75 - 0.5 = 0.25 /\ 1 - 0.75 = 0.25)%float.
Proof.
  apply (hello_world_scenario hello_lexicon [] []); vm_compute; reflexivity.
Defined.

(** C4, as stated, fails: the scenario yields four slots, not eight, and
    its first slot spans 0.25 s, not 0.125 s. *)
Lemma hello_world_not_eight :
  exists phones slots s,
    text_to_arpabet hello_lexicon (u "Hello world") = Ok phones
    /\ build_slots (phones_to_shapes phones) 1 = Ok slots
    /\ length slots <> 8%nat
    /\ slots !! 0%nat = Some s
    /\ (stop s - start s =? 0.125)%float = false.
Proof.
  do 3 eexists. split; [vm_compute; reflexivity|].
  split; [vm_compute; reflexivity|].
  split; [cbn; lia|]. split; [reflexivity|]. vm_compute. reflexivity.
Qed.

(** * Prosody *)

Lemma emotion_settings_other emotion e :
  emotion ∉ map u ["happy"; "excited"; "sad"; "gloomy"; "angry"] ->
  emotion_settings emotion e = Ok e.
Proof.
  intros Hn. unfold emotion_settings.
  repeat match goal with
         | |- context [eqs emotion ?s] =>
             destruct (eqs_spec emotion s) as [->|_];
             [exfalso; apply Hn; apply (bool_decide_unpack _); vm_compute; exact I|]
         end.
  reflexivity.
Qed.

Lemma py_min_capped x : (1 <? py_min x 1)%float = false.
Proof.
  unfold py_min. destruct (1 <? x)%float eqn:Hx; [reflexivity | exact Hx].
Qed.

(** C8 (amended). The engine that renders the text holds the base
    properties adjusted by emotion: happy sets the rate to the integer part
    of base_rate * 1.15 and the volume to base_volume * 1.1 capped at 1.0;
    excited the integer part of base_rate * 1.25 and the same capped volume;
    sad and gloomy the integer part of base_rate * 0.85 and base_volume * 0.9;
    angry the integer part of base_rate * 1.1, volume unchanged; every other
    value, neutral and energetic among them, leaves both unchanged. The
    products are binary64 products and [int] truncates toward zero. *)
Theorem emotion_settings_table (e : engine) :
  emotion_settings (u "happy") e
  = (r ← py_int (Z2F (rate e) * 1.15);
     Ok {| rate := r; volume := py_min (volume e * 1.1) 1 |})
  /\ emotion_settings (u "excited") e
     = (r ← py_int (Z2F (rate e) * 1.25);
        Ok {| rate := r; volume := py_min (volume e * 1.1) 1 |})
  /\ emotion_settings (u "sad") e
     = (r ← py_int (Z2F (rate e) * 0.85);
        Ok {| rate := r; volume := (volume e * 0.9)%float |})
  /\ emotion_settings (u "gloomy") e = emotion_settings (u "sad") e
  /\ emotion_settings (u "angry") e
     = (r ← py_int (Z2F (rate e) * 1.1);
        Ok {| rate := r; volume := volume e |})
  /\ emotion_settings (u "neutral") e = Ok e
  /\ emotion_settings (u "energetic") e = Ok e
  /\ (forall emotion,
        emotion ∉ map u ["happy"; "excited"; "sad"; "gloomy"; "angry"] ->
        emotion_settings emotion e = Ok e)
  /\ (forall x, (1 <? py_min x 1)%float = false)
  /\ (forall driver render text wav_path emotion fs,
        synthesize_tts driver render text wav_path emotion fs
        = match emotion_settings emotion driver with
          | Ok e' => (Ok tt, <[wav_path := Wav (render text e')]> fs)
          | Raise err => (Raise err, fs)
          end).
Proof.
  do 7 (split; [reflexivity|]).
  split; [intros emotion Hn; apply emotion_settings_other; exact Hn|].
  split; [apply py_min_capped|].
  - intros driver render text wav_path emotion fs.
    unfold synthesize_tts, mbind, io_bind, lift.
    destruct (emotion_settings emotion driver); reflexivity.
Qed.

(** C8, as stated, fails: from the base rate 200 the happy rate is 229,
    which is not 200 * 1.15, neither exactly (230) nor as the binary64
    product (229.99999999999997). *)
Lemma happy_rate_truncated :
  exists e',
    emotion_settings (u "happy") demo_driver = Ok e'
    /\ rate e' = 229%Z
    /\ (rate e' * 100 <> rate demo_driver * 115)%Z
    /\ (Z2F (rate e') =? Z2F (rate demo_driver) * 1.15)%float = false.
Proof.
  eexists. split; [vm_compute; reflexivity|].
  split; [reflexivity|]. split; [cbn; lia|]. vm_compute. reflexivity.
Qed.

(** * Further properties of the Timeline Allocator *)

Lemma map_shape_imap (f : nat -> str -> slot) shapes :
  (forall k sh, shape (f k sh) = sh) -> map shape (imap f shapes) = shapes.
Proof.
  revert f. induction shapes as [|sh rest IH]; intros f Hf; cbn [imap map];
    [reflexivity|].
  rewrite Hf, IH; [reflexivity|]. intros k x. apply Hf.
Qed.

(** X9. The slot-building loop never raises, whatever the shapes and the
    duration (zero, infinite and NaN included): it returns one slot per
    shape, carrying the shapes in their order. *)
Theorem build_slots_total (shapes : list str) (duration : float) :
  exists slots,
    build_slots shapes duration = Ok slots
    /\ length slots = length shapes
    /\ map shape slots = shapes.
Proof.
  eexists. split; [apply build_slots_spec|].
  split; [apply length_imap|]. apply map_shape_imap. reflexivity.
Qed.

(** X22. The track ends with the audio: in the list the loop builds for a
    non-empty shape list of fewer than 2^53 shapes, the last slot stops at
    the duration it was given, bit for bit and for every binary64 duration;
    in [main] that duration is [len(audio) / sr]. *)
Theorem last_slot_stops_at_duration (shapes : list str) (duration : float) :
  shapes <> [] -> (Z.of_nat (length shapes) < 2 ^ 53)%Z ->
  exists slots s,
    build_slots shapes duration = Ok slots
    /\ last slots = Some s
    /\ stop s = duration.
Proof.
  intros Hne Hbig. rewrite build_slots_spec.
  assert (Hlen : (0 < length shapes)%nat)
    by (destruct shapes; [contradiction | cbn [length]; lia]).
  assert (HN : (0 < Z.of_nat (length shapes) < 2 ^ 53)%Z) by lia.
  destruct (Prim2SF_Z2F_pos _ HN) as (m & e & HZN).
  destruct (lookup_lt_is_Some_2 shapes (length shapes - 1)) as [sh Hsh]; [lia|].
  eexists. exists (slot_at (Z.of_nat (length shapes)) duration
                     (Z.of_nat (length shapes - 1)) sh).
  split; [reflexivity|]. split.
  - rewrite last_lookup, length_imap.
    replace (Nat.pred (length shapes)) with (length shapes - 1)%nat by lia.
    rewrite list_lookup_imap, Hsh. reflexivity.
  - unfold slot_at. cbn [stop].
    replace (Z.of_nat (length shapes - 1) + 1)%Z with (Z.of_nat (length shapes)) by lia.
    rewrite (div_self _ _ _ HZN). apply mul_one_l.
Qed.

Lemma last_slot_stops_at_duration_witness :
  exists slots s,
    build_slots (map u ["AA"; "OH"; "rr"]) infinity = Ok slots
    /\ last slots = Some s
    /\ stop s = infinity.
Proof.
  apply (last_slot_stops_at_duration (map u ["AA"; "OH"; "rr"]) infinity).
  - discriminate.
  - cbn. lia.
Defined.

(** * The pipeline scripts *)

Section PipelineFacts.

Variable cmu : lexicon.
Variable driver : engine.
Variable render : str -> engine -> wav.
Variable path_str : str -> str.

(** [main] on a script that holds non-blank text, step by step. *)
Lemma main_steps a0 a1 a2 a3 a4 fs raw :
  fs !! path_str a1 = Some (Text raw) ->
  strip raw <> [] ->
  main cmu driver render path_str [a0; a1; a2; a3; a4] fs
  = match emotion_settings a4 driver with
    | Raise e => (Raise e, fs)
    | Ok eng =>
        let w := render (strip raw) eng in
        let fs2 := with_audio (path_str a2) w fs in
        match truediv (frames w) (samplerate w) with
        | Raise e => (Raise e, fs2)
        | Ok duration =>
            match text_to_arpabet cmu (strip raw) with
            | Raise e => (Raise e, fs2)
            | Ok phones =>
                match build_slots (phones_to_shapes phones) duration with
                | Raise e => (Raise e, fs2)
                | Ok slots =>
                    (Ok tt,
                     <[path_str a3 :=
                         Json {| audio := replace_char 92 47 (path_str a2);
                                 phonemes := slots;
                                 emotion := a4 |}]> fs2)
                end
            end
        end
    end.
Proof.
  intros Hfile Htext. apply eqs_neq in Htext.
  unfold main, mbind, io_bind, read_text. rewrite Hfile, Htext.
  unfold synthesize_tts, mbind, io_bind, lift.
  destruct (emotion_settings a4 driver) as [eng|e]; [|reflexivity].
  unfold write_file at 1, sf_read. rewrite lookup_insert_eq.
  unfold write_file at 1. fold (with_audio (path_str a2) (render (strip raw) eng) fs).
  cbv zeta.
  destruct (truediv _ _) as [duration|e]; [|reflexivity].
  destruct (text_to_arpabet cmu (strip raw)) as [phones|e]; [|reflexivity].
  destruct (build_slots _ duration) as [slots|e]; reflexivity.
Qed.

(** The exceptions the lifted computations can raise never are
    [SystemExit]. *)
Lemma py_int_raises x e : py_int x = Raise e -> e = OverflowError \/ e = ValueError.
Proof.
  unfold py_int. destruct (Prim2SF x); intros [= <-]; auto.
Qed.

Lemma emotion_settings_raises emotion eng e :
  emotion_settings emotion eng = Raise e -> e = OverflowError \/ e = ValueError.
Proof.
  unfold emotion_settings.
  repeat match goal with
         | |- context [if ?b then _ else _] => destruct b
         end.
  all: try discriminate.
  all: destruct (py_int _) as [r|e'] eqn:Hr; cbn [mbind result_bind rbind];
    [discriminate | intros [= <-]; exact (py_int_raises _ _ Hr)].
Qed.

Lemma truediv_raises a b e : truediv a b = Raise e -> e = ZeroDivisionError.
Proof. unfold truediv. destruct (b =? 0)%Z; intros [= <-]; reflexivity. Qed.

Lemma arpabet_loop_raises raw_words :
  forall phones e, arpabet_loop cmu raw_words phones = Raise e -> e = IndexError.
Proof.
  induction raw_words as [|raw rest IH]; intros phones e; cbn [arpabet_loop];
    [discriminate|].
  destruct (eqs (normalize raw) []); [apply IH|].
  unfold word_phones.
  destruct (cmu !! normalize raw) as [[|pron others]|];
    cbn [mbind result_bind rbind]; try apply IH.
  intros [= <-]. reflexivity.
Qed.

(** A run of [main] that exits with status 0 had five arguments and left
    the alignment record behind. *)
Lemma main_success_inv argv fs fs' :
  run (main cmu driver render path_str) argv fs = (0%Z, fs') ->
  exists a0 a1 a2 a3 a4 slots,
    argv = [a0; a1; a2; a3; a4]
    /\ fs' !! path_str a3
       = Some (Json {| audio := replace_char 92 47 (path_str a2);
                       phonemes := slots;
                       emotion := a4 |}).
Proof.
  unfold run.
  destruct argv as [|a0 [|a1 [|a2 [|a3 [|a4 [|a5 rest]]]]]];
    try (cbn; discriminate).
  destruct (fs !! path_str a1) as [[raw| |]|] eqn:Hfile;
    try (unfold main, mbind, io_bind, read_text; rewrite Hfile; cbn; discriminate).
  destruct (eqs_spec (strip raw) []) as [Hblank|Htext].
  { unfold main, mbind, io_bind, read_text. rewrite Hfile, Hblank.
    cbn. discriminate. }
  rewrite (main_steps _ _ _ _ _ _ _ Hfile Htext).
  destruct (emotion_settings a4 driver) as [eng|e] eqn:He.
  2:{ destruct (emotion_settings_raises _ _ _ He) as [-> | ->]; cbn; discriminate. }
  cbv zeta.
  destruct (truediv _ _) as [duration|e] eqn:Hd.
  2:{ rewrite (truediv_raises _ _ _ Hd). cbn. discriminate. }
  destruct (text_to_arpabet cmu (strip raw)) as [phones|e] eqn:Hp.
  2:{ rewrite (arpabet_loop_raises _ _ _ Hp). cbn. discriminate. }
  rewrite build_slots_spec. cbn [exit_status]. intros [= <-].
  do 6 eexists. split; [reflexivity|]. apply lookup_insert_eq.
Qed.

End PipelineFacts.

Lemma wistful_not_allowed : u "wistful" ∉ ALLOWED_EMOTIONS.
Proof. apply (bool_decide_unpack _). vm_compute. exact I. Qed.

Lemma allowed_settings_keywords emotion :
  emotion ∉ ALLOWED_EMOTIONS ->
  emotion ∉ map u ["happy"; "excited"; "sad"; "gloomy"; "angry"].
Proof.
  unfold ALLOWED_EMOTIONS. cbn [map]. intros Hout Hin. apply Hout.
  rewrite !elem_of_cons in Hin. rewrite !elem_of_cons.
  destruct Hin as [->|[->|[->|[->|[->|Hnil]]]]]; auto 10.
Qed.

(** C7. When the utterance text file is missing, or blank after trimming,
    a run of [main] ends with exit status 1 and leaves the file system as it
    found it: neither the audio file nor the alignment file is created. *)
Theorem main_blank_input_fatal (cmu : lexicon) (driver : engine)
    (render : str -> engine -> wav) (path_str : str -> str)
    (a0 a1 a2 a3 a4 : str) (fs : files) :
  fs !! path_str a1 = None
  \/ (exists raw, fs !! path_str a1 = Some (Text raw) /\ strip raw = []) ->
  run (main cmu driver render path_str) [a0; a1; a2; a3; a4] fs = (1%Z, fs).
Proof.
  unfold run, main, mbind, io_bind, read_text.
  intros [Hmiss | (raw & Hfile & Hblank)].
  - rewrite Hmiss. reflexivity.
  - rewrite Hfile, Hblank. reflexivity.
Qed.

Lemma main_blank_input_fatal_witness :
  run (main hello_lexicon demo_driver one_second id) demo_argv blank_files
  = (1%Z, blank_files)
  /\ run (main hello_lexicon demo_driver one_second id) demo_argv nbsp_files
     = (1%Z, nbsp_files)
  /\ run (main hello_lexicon demo_driver one_second id) demo_argv ∅ = (1%Z, ∅).
Proof.
  split; [|split].
  - apply (main_blank_input_fatal hello_lexicon demo_driver one_second id).
    right. exists (u "  "). split; vm_compute; reflexivity.
  - apply (main_blank_input_fatal hello_lexicon demo_driver one_second id).
    right. exists [160; 12288]%N. split; vm_compute; reflexivity.
  - apply (main_blank_input_fatal hello_lexicon demo_driver one_second id).
    left. vm_compute. reflexivity.
Defined.

(** C9. Whenever [main] completes, the "audio" field of the alignment
    record it wrote is the output path, whatever the host renders it as,
    with every backslash replaced by a forward slash and every other
    character kept in its place; the field holds no backslash. *)
Theorem audio_field_forward_slashes (cmu : lexicon) (driver : engine)
    (render : str -> engine -> wav) (path_str : str -> str)
    (a0 a1 a2 a3 a4 : str) (fs fs' : files) :
  run (main cmu driver render path_str) [a0; a1; a2; a3; a4] fs = (0%Z, fs') ->
  exists al,
    fs' !! path_str a3 = Some (Json al)
    /\ length (audio al) = length (path_str a2)
    /\ (forall i c,
          path_str a2 !! i = Some c ->
          audio al !! i = Some (if (c =? 92)%N then 47%N else c))
    /\ 92%N ∉ audio al.
Proof.
  intros Hrun.
  destruct (main_success_inv _ _ _ _ _ _ _ Hrun)
    as (b0 & b1 & b2 & b3 & b4 & slots & [= -> -> -> -> ->] & Hjson).
  eexists. split; [exact Hjson|]. cbn [audio]. unfold replace_char.
  split; [apply length_map|]. split.
  - intros i c Hc. rewrite list_lookup_fmap, Hc. reflexivity.
  - intros [c [Hc _]]%list_elem_of_fmap.
    destruct (c =? 92)%N eqn:E; [discriminate | apply N.eqb_neq in E; congruence].
Qed.

Lemma audio_field_forward_slashes_witness :
  exists al,
    (run (main hello_lexicon demo_driver one_second id) demo_argv demo_files).2
      !! u "speech.json" = Some (Json al)
    /\ length (audio al) = length (u "out\speech.wav")
    /\ (forall i c,
          u "out\speech.wav" !! i = Some c ->
          audio al !! i = Some (if (c =? 92)%N then 47%N else c))
    /\ 92%N ∉ audio al.
Proof.
  apply (audio_field_forward_slashes hello_lexicon demo_driver one_second id
           (u "tts_pipeline.py") (u "script.txt") (u "out\speech.wav")
           (u "speech.json") (u "wistful") demo_files).
  vm_compute. reflexivity.
Defined.

(** C10. [main] does not validate its emotion argument: whenever it
    completes, the "emotion" field of the alignment record is the argument,
    character for character; and an argument outside the enumeration
    ALLOWED_EMOTIONS makes the run end with the status it has for
    "neutral" (the enumeration is checked in [get_reply_and_emotion] only). *)
Theorem emotion_field_verbatim (cmu : lexicon) (driver : engine)
    (render : str -> engine -> wav) (path_str : str -> str)
    (a0 a1 a2 a3 emotion_arg : str) (fs : files) :
  (forall fs',
      run (main cmu driver render path_str) [a0; a1; a2; a3; emotion_arg] fs
      = (0%Z, fs') ->
      exists al, fs' !! path_str a3 = Some (Json al) /\ emotion al = emotion_arg)
  /\ (emotion_arg ∉ ALLOWED_EMOTIONS ->
      (run (main cmu driver render path_str) [a0; a1; a2; a3; emotion_arg] fs).1
      = (run (main cmu driver render path_str) [a0; a1; a2; a3; u "neutral"] fs).1).
Proof.
  split.
  - intros fs' Hrun.
    destruct (main_success_inv _ _ _ _ _ _ _ Hrun)
      as (b0 & b1 & b2 & b3 & b4 & slots & [= -> -> -> -> ->] & Hjson).
    eexists. split; [exact Hjson|]. reflexivity.
  - intros Hout%allowed_settings_keywords. unfold run.
    destruct (fs !! path_str a1) as [[raw| |]|] eqn:Hfile;
      try (unfold main, mbind, io_bind, read_text; rewrite Hfile; reflexivity).
    destruct (eqs_spec (strip raw) []) as [Hblank|Htext].
    { unfold main, mbind, io_bind, read_text. rewrite Hfile, Hblank. reflexivity. }
    rewrite !(main_steps _ _ _ _ _ _ _ _ _ _ _ Hfile Htext).
    rewrite (emotion_settings_other _ _ Hout).
    change (emotion_settings (u "neutral") driver) with (Ok driver).
    cbv beta iota zeta.
    destruct (truediv _ _) as [duration|e]; [|reflexivity].
    destruct (text_to_arpabet cmu (strip raw)) as [phones|e]; [|reflexivity].
    rewrite build_slots_spec. reflexivity.
Qed.

Lemma emotion_field_verbatim_witness :
  (u "wistful" ∉ ALLOWED_EMOTIONS)
  /\ (exists fs' al,
        run (main hello_lexicon demo_driver one_second id) demo_argv demo_files
        = (0%Z, fs')
        /\ fs' !! (u "speech.json") = Some (Json al)
        /\ emotion al = (u "wistful"))
  /\ (run (main hello_lexicon demo_driver one_second id) demo_argv demo_files).1
     = (run (main hello_lexicon demo_driver one_second id) neutral_argv demo_files).1.
Proof.
  destruct (emotion_field_verbatim hello_lexicon demo_driver one_second id
              (u "tts_pipeline.py") (u "script.txt") (u "out\speech.wav") (u "speech.json")
              (u "wistful") demo_files) as [Hfield Hstatus].
  split; [exact wistful_not_allowed|]. split.
  - eexists.
    destruct (Hfield _ ltac:(vm_compute; reflexivity)) as (al & Hjson & Hemo).
    exists al. split; [vm_compute; reflexivity|]. split; assumption.
  - apply Hstatus. exact wistful_not_allowed.
Defined.

(** * The language-model wrapper *)

(** C6. The emotion [get_reply_and_emotion] returns is the collaborator's
    when that is one of ALLOWED_EMOTIONS and "neutral" otherwise; it is what
    [llm_tts_pipeline.py] passes on to [tts_pipeline.py], so nothing
    downstream sees a value outside the enumeration. *)
Theorem emotion_validated (llm : str -> str * str) (prompt : str) :
  (get_reply_and_emotion llm prompt).1 = strip (llm prompt).1
  /\ (get_reply_and_emotion llm prompt).2 ∈ ALLOWED_EMOTIONS
  /\ ((llm prompt).2 ∈ ALLOWED_EMOTIONS ->
      (get_reply_and_emotion llm prompt).2 = (llm prompt).2)
  /\ ((llm prompt).2 ∉ ALLOWED_EMOTIONS ->
      (get_reply_and_emotion llm prompt).2 = u "neutral")
  /\ (forall cmu driver render path_str tts_script a0 a1 a2 a3 fs raw,
        fs !! path_str a1 = Some (Text raw) ->
        strip raw = prompt ->
        prompt <> [] ->
        llm_main cmu driver render path_str llm tts_script [a0; a1; a2; a3] fs
        = subprocess_run cmu driver render path_str
            (tts_argv tts_script (path_str a1) (path_str a2) (path_str a3)
               (get_reply_and_emotion llm prompt).2)
            (<[path_str a1 := Text (get_reply_and_emotion llm prompt).1]> fs)).
Proof.
  unfold get_reply_and_emotion.
  destruct (llm prompt) as [data_text data_emotion] eqn:Hllm. cbn [fst snd].
  split; [reflexivity|].
  split; [|split; [|split]].
  - case_bool_decide; [assumption|]. unfold ALLOWED_EMOTIONS. set_solver.
  - intros Hin. rewrite bool_decide_eq_true_2 by exact Hin. reflexivity.
  - intros Hout. rewrite bool_decide_eq_false_2 by exact Hout. reflexivity.
  - intros cmu driver render path_str tts_script a0 a1 a2 a3 fs raw Hfile Hraw Hne.
    apply eqs_neq in Hne.
    unfold llm_main. rewrite Hfile.
    unfold mbind, io_bind, read_text. rewrite Hfile, Hraw, Hne.
    unfold get_reply_and_emotion. rewrite Hllm. reflexivity.
Qed.

Lemma emotion_validated_witness :
  (get_reply_and_emotion demo_llm (u "Say hello")).2 = u "neutral".
Proof.
  destruct (emotion_validated demo_llm (u "Say hello")) as (_ & _ & _ & Hsubst & _).
  apply Hsubst. exact wistful_not_allowed.
Defined.

(** * Further properties of the two scripts *)

Section ScriptFacts.

Variable cmu : lexicon.
Variable driver : engine.
Variable render : str -> engine -> wav.
Variable path_str : str -> str.
Variable llm : str -> str * str.

(** The three ways a run of [main] on five arguments can end: before
    synthesis, after synthesis without alignment record, or complete. *)
Lemma main_cases a0 a1 a2 a3 a4 fs :
  run (main cmu driver render path_str) [a0; a1; a2; a3; a4] fs = (1%Z, fs)
  \/ (exists w, run (main cmu driver render path_str) [a0; a1; a2; a3; a4] fs
                = (1%Z, with_audio (path_str a2) w fs))
  \/ (exists w slots,
        run (main cmu driver render path_str) [a0; a1; a2; a3; a4] fs
        = (0%Z, <[path_str a3 :=
                    Json {| audio := replace_char 92 47 (path_str a2);
                            phonemes := slots;
                            emotion := a4 |}]>
                  (with_audio (path_str a2) w fs))).
Proof.
  unfold run.
  destruct (fs !! path_str a1) as [[raw| |]|] eqn:Hfile;
    try (left; unfold main, mbind, io_bind, read_text; rewrite Hfile; reflexivity).
  destruct (eqs_spec (strip raw) []) as [Hblank|Htext].
  { left. unfold main, mbind, io_bind, read_text. rewrite Hfile, Hblank.
    reflexivity. }
  rewrite (main_steps _ _ _ _ _ _ _ _ _ _ _ Hfile Htext).
  destruct (emotion_settings a4 driver) as [eng|e] eqn:He.
  2:{ left. destruct (emotion_settings_raises _ _ _ He) as [-> | ->]; reflexivity. }
  cbv zeta. right.
  destruct (truediv _ _) as [duration|e] eqn:Hd.
  2:{ left. eexists. rewrite (truediv_raises _ _ _ Hd). reflexivity. }
  destruct (text_to_arpabet cmu (strip raw)) as [phones|e] eqn:Hp.
  2:{ left. eexists. rewrite (arpabet_loop_raises _ _ _ _ Hp). reflexivity. }
  rewrite build_slots_spec. right. do 2 eexists. reflexivity.
Qed.

Lemma main_usage argv fs :
  length argv <> 5%nat ->
  run (main cmu driver render path_str) argv fs = (1%Z, fs).
Proof.
  intros Hlen.
  destruct argv as [|a0 [|a1 [|a2 [|a3 [|a4 [|a5 rest]]]]]]; try reflexivity.
  cbn in Hlen. lia.
Qed.

Lemma main_status argv fs :
  (run (main cmu driver render path_str) argv fs).1 = 0%Z
  \/ (run (main cmu driver render path_str) argv fs).1 = 1%Z.
Proof.
  destruct (decide (length argv = 5%nat)) as [Hlen|Hlen].
  - destruct argv as [|a0 [|a1 [|a2 [|a3 [|a4 [|a5 rest]]]]]]; try discriminate.
    destruct (main_cases a0 a1 a2 a3 a4 fs) as [-> | [[w ->] | (w & slots & ->)]];
      auto.
  - rewrite (main_usage _ _ Hlen). auto.
Qed.

(** On a non-blank prompt [llm_main] rewrites the script and is [main]
    run by [subprocess.run]: a non-zero status of [main] is 1, which is also
    what the uncaught CalledProcessError makes the wrapper exit with. *)
Lemma llm_main_steps tts_script a0 a1 a2 a3 fs raw :
  fs !! path_str a1 = Some (Text raw) ->
  strip raw <> [] ->
  run (llm_main cmu driver render path_str llm tts_script) [a0; a1; a2; a3] fs
  = run (main cmu driver render path_str)
      (tts_argv tts_script (path_str a1) (path_str a2) (path_str a3)
         (get_reply_and_emotion llm (strip raw)).2)
      (<[path_str a1 := Text (get_reply_and_emotion llm (strip raw)).1]> fs).
Proof.
  intros Hfile Htext. apply eqs_neq in Htext.
  unfold run at 1. unfold llm_main. rewrite Hfile.
  unfold mbind, io_bind, read_text. rewrite Hfile, Htext.
  destruct (get_reply_and_emotion llm (strip raw)) as [reply emo].
  cbn [fst snd]. unfold write_file at 1. unfold subprocess_run.
  pose proof (main_status
                (tts_argv tts_script (path_str a1) (path_str a2) (path_str a3) emo)
                (<[path_str a1:=Text reply]> fs)) as Hst.
  destruct (run (main cmu driver render path_str) _ _) as [st fs'].
  cbn [fst] in Hst. destruct Hst as [-> | ->]; reflexivity.
Qed.

(** [llm_main] on four arguments: it stops before the language model is
    asked, or it goes on as above. *)
Lemma llm_main_cases tts_script a0 a1 a2 a3 fs :
  run (llm_main cmu driver render path_str llm tts_script) [a0; a1; a2; a3] fs
  = (1%Z, fs)
  \/ (exists raw,
        fs !! path_str a1 = Some (Text raw)
        /\ strip raw <> []
        /\ run (llm_main cmu driver render path_str llm tts_script) [a0; a1; a2; a3] fs
           = run (main cmu driver render path_str)
               (tts_argv tts_script (path_str a1) (path_str a2) (path_str a3)
                  (get_reply_and_emotion llm (strip raw)).2)
               (<[path_str a1 := Text (get_reply_and_emotion llm (strip raw)).1]> fs)).
Proof.
  destruct (fs !! path_str a1) as [[raw| |]|] eqn:Hfile;
    try (left; unfold run, llm_main; rewrite Hfile;
         unfold mbind, io_bind, read_text; try rewrite Hfile; reflexivity).
  destruct (eqs_spec (strip raw) []) as [Hblank|Htext].
  - left. unfold run, llm_main. rewrite Hfile.
    unfold mbind, io_bind, read_text. rewrite Hfile, Hblank. reflexivity.
  - right. exists raw. split; [reflexivity|]. split; [exact Htext|].
    apply llm_main_steps; assumption.
Qed.

Lemma llm_main_usage tts_script argv fs :
  length argv <> 4%nat ->
  run (llm_main cmu driver render path_str llm tts_script) argv fs = (1%Z, fs).
Proof.
  intros Hlen.
  destruct argv as [|a0 [|a1 [|a2 [|a3 [|a4 rest]]]]]; try reflexivity.
  cbn in Hlen. lia.
Qed.

End ScriptFacts.

(** X10. Both scripts exit with status 0 or 1 and nothing else, on every
    argument vector and file system: 1 after [sys.exit(1)] or an uncaught
    exception, 0 after a complete run. *)
Theorem exit_status_zero_or_one (cmu : lexicon) (driver : engine)
    (render : str -> engine -> wav) (path_str : str -> str)
    (llm : str -> str * str) (tts_script : str)
    (argv : list str) (fs : files) :
  ((run (main cmu driver render path_str) argv fs).1 = 0%Z
   \/ (run (main cmu driver render path_str) argv fs).1 = 1%Z)
  /\ ((run (llm_main cmu driver render path_str llm tts_script) argv fs).1 = 0%Z
      \/ (run (llm_main cmu driver render path_str llm tts_script) argv fs).1 = 1%Z).
Proof.
  split; [apply main_status|].
  destruct (decide (length argv = 4%nat)) as [Hlen|Hlen].
  - destruct argv as [|a0 [|a1 [|a2 [|a3 [|a4 rest]]]]]; try discriminate.
    destruct (llm_main_cases cmu driver render path_str llm tts_script a0 a1 a2 a3 fs)
      as [-> | (raw & _ & _ & ->)]; [auto | apply main_status].
  - rewrite (llm_main_usage _ _ _ _ _ _ _ _ Hlen). auto.
Qed.

(** X11. With a wrong number of arguments either script exits with status
    1 and leaves every file as it was ([tts_pipeline.py] wants five entries
    in [sys.argv], [llm_tts_pipeline.py] four). *)
Theorem usage_error_exits (cmu : lexicon) (driver : engine)
    (render : str -> engine -> wav) (path_str : str -> str)
    (llm : str -> str * str) (tts_script : str)
    (argv : list str) (fs : files) :
  (length argv <> 5%nat ->
   run (main cmu driver render path_str) argv fs = (1%Z, fs))
  /\ (length argv <> 4%nat ->
      run (llm_main cmu driver render path_str llm tts_script) argv fs = (1%Z, fs)).
Proof. split; [apply main_usage | apply llm_main_usage]. Qed.

Lemma usage_error_exits_witness :
  run (main hello_lexicon demo_driver one_second id) llm_argv demo_files
  = (1%Z, demo_files)
  /\ run (llm_main hello_lexicon demo_driver one_second id happy_llm (u "tts_pipeline.py"))
       demo_argv demo_files
     = (1%Z, demo_files).
Proof.
  destruct (usage_error_exits hello_lexicon demo_driver one_second id happy_llm
              (u "tts_pipeline.py") llm_argv demo_files) as [Hmain _].
  destruct (usage_error_exits hello_lexicon demo_driver one_second id happy_llm
              (u "tts_pipeline.py") demo_argv demo_files) as [_ Hllm].
  split; [apply Hmain | apply Hllm]; cbn; lia.
Defined.

(** X12. [main] touches two paths only: after any run, complete or not,
    every file other than the audio output and the alignment output is what
    it was before. In particular the script is only read. *)
Theorem main_frame (cmu : lexicon) (driver : engine)
    (render : str -> engine -> wav) (path_str : str -> str)
    (a0 a1 a2 a3 a4 : str) (fs : files) (p : str) :
  p <> path_str a2 -> p <> path_str a3 ->
  (run (main cmu driver render path_str) [a0; a1; a2; a3; a4] fs).2 !! p = fs !! p.
Proof.
  intros Hwav Hjson.
  destruct (main_cases cmu driver render path_str a0 a1 a2 a3 a4 fs)
    as [-> | [[w ->] | (w & slots & ->)]]; cbn [snd]; unfold with_audio.
  - reflexivity.
  - rewrite !lookup_insert_ne by congruence. reflexivity.
  - rewrite !lookup_insert_ne by congruence. reflexivity.
Qed.

Lemma main_frame_witness :
  (run (main hello_lexicon demo_driver one_second id) demo_argv demo_files).2
    !! (u "script.txt") = demo_files !! (u "script.txt").
Proof.
  apply (main_frame hello_lexicon demo_driver one_second id
           (u "tts_pipeline.py") (u "script.txt") (u "out\speech.wav") (u "speech.json") (u "wistful")
           demo_files (u "script.txt")); discriminate.
Defined.

(** X13. A run of [main] that does not exit with status 0 writes no
    alignment record: the alignment path (when it is not also the audio
    path) holds what it held before. The audio file, written earlier, may
    already be there. *)
Theorem main_failure_no_alignment (cmu : lexicon) (driver : engine)
    (render : str -> engine -> wav) (path_str : str -> str)
    (a0 a1 a2 a3 a4 : str) (fs : files) :
  path_str a3 <> path_str a2 ->
  (run (main cmu driver render path_str) [a0; a1; a2; a3; a4] fs).1 <> 0%Z ->
  (run (main cmu driver render path_str) [a0; a1; a2; a3; a4] fs).2 !! path_str a3
  = fs !! path_str a3.
Proof.
  intros Hne.
  destruct (main_cases cmu driver render path_str a0 a1 a2 a3 a4 fs)
    as [-> | [[w ->] | (w & slots & ->)]]; cbn [fst snd]; unfold with_audio.
  - reflexivity.
  - intros _. rewrite !lookup_insert_ne by congruence. reflexivity.
  - intros H. exfalso. apply H. reflexivity.
Qed.

Lemma main_failure_no_alignment_witness :
  (run (main hollow_lexicon demo_driver one_second id)
     (map u ["tts_pipeline.py"; "script.txt"; "a.wav"; "a.json"; "happy"])
     (<[(u "script.txt") := Text (u "a")]> ∅)).2 !! (u "a.json")
  = (<[(u "script.txt") := Text (u "a")]> ∅ : files) !! (u "a.json").
Proof.
  apply (main_failure_no_alignment hollow_lexicon demo_driver one_second id
           (u "tts_pipeline.py") (u "script.txt") (u "a.wav") (u "a.json") (u "happy")).
  - discriminate.
  - vm_compute. discriminate.
Defined.



Lemma validated_allowed data_emotion :
  (if bool_decide (data_emotion ∈ ALLOWED_EMOTIONS) then data_emotion else (u "neutral"))
  ∈ ALLOWED_EMOTIONS.
Proof.
  case_bool_decide; [assumption|]. apply (bool_decide_unpack _). vm_compute. exact I.
Qed.

(** X15. Whenever [llm_tts_pipeline.py] exits with status 0 it has left an
    alignment record whose emotion is one of ALLOWED_EMOTIONS, whatever the
    language model answered. *)
Theorem llm_main_record_emotion (cmu : lexicon) (driver : engine)
    (render : str -> engine -> wav) (path_str : str -> str)
    (llm : str -> str * str) (tts_script : str)
    (a0 a1 a2 a3 : str) (fs fs' : files) :
  run (llm_main cmu driver render path_str llm tts_script) [a0; a1; a2; a3] fs
  = (0%Z, fs') ->
  exists al,
    fs' !! path_str (path_str a3) = Some (Json al)
    /\ emotion al ∈ ALLOWED_EMOTIONS.
Proof.
  intros Hrun.
  destruct (llm_main_cases cmu driver render path_str llm tts_script a0 a1 a2 a3 fs)
    as [Hstop | (raw & _ & _ & Hsub)].
  - rewrite Hstop in Hrun. discriminate.
  - rewrite Hsub in Hrun.
    destruct (main_success_inv _ _ _ _ _ _ _ Hrun)
      as (b0 & b1 & b2 & b3 & b4 & slots & [= <- <- <- <- <-] & Hjson).
    eexists. split; [exact Hjson|]. cbn [emotion].
    unfold get_reply_and_emotion. destruct (llm (strip raw)) as [t e].
    cbn [snd]. apply validated_allowed.
Qed.

Lemma llm_main_record_emotion_witness :
  exists al,
    (run (llm_main hello_lexicon demo_driver one_second id demo_llm (u "tts_pipeline.py"))
       llm_argv demo_files).2 !! (u "speech.json") = Some (Json al)
    /\ emotion al ∈ ALLOWED_EMOTIONS.
Proof.
  apply (llm_main_record_emotion hello_lexicon demo_driver one_second id demo_llm
           (u "tts_pipeline.py") (u "llm_tts_pipeline.py") (u "script.txt") (u "out\speech.wav")
           (u "speech.json") demo_files).
  vm_compute. reflexivity.
Defined.

(** X16. When the prompt file is missing, is not text, or is blank after
    trimming, [llm_tts_pipeline.py] exits with status 1 before the language
    model is asked and leaves every file as it was. *)
Theorem llm_main_blank_prompt (cmu : lexicon) (driver : engine)
    (render : str -> engine -> wav) (path_str : str -> str)
    (llm : str -> str * str) (tts_script : str)
    (a0 a1 a2 a3 : str) (fs : files) :
  (forall raw, fs !! path_str a1 = Some (Text raw) -> strip raw = []) ->
  run (llm_main cmu driver render path_str llm tts_script) [a0; a1; a2; a3] fs
  = (1%Z, fs).
Proof.
  intros Hblank.
  destruct (llm_main_cases cmu driver render path_str llm tts_script a0 a1 a2 a3 fs)
    as [Hstop | (raw & Hfile & Htext & _)]; [exact Hstop|].
  exfalso. apply Htext, (Hblank raw Hfile).
Qed.

Lemma llm_main_blank_prompt_witness :
  run (llm_main hello_lexicon demo_driver one_second id demo_llm (u "tts_pipeline.py"))
    llm_argv blank_files = (1%Z, blank_files)
  /\ run (llm_main hello_lexicon demo_driver one_second id demo_llm (u "tts_pipeline.py"))
       llm_argv nbsp_files = (1%Z, nbsp_files)
  /\ run (llm_main hello_lexicon demo_driver one_second id demo_llm (u "tts_pipeline.py"))
       llm_argv ∅ = (1%Z, ∅).
Proof.
  split; [|split].
  - apply (llm_main_blank_prompt hello_lexicon demo_driver one_second id demo_llm
             (u "tts_pipeline.py") (u "llm_tts_pipeline.py") (u "script.txt") (u "out\speech.wav")
             (u "speech.json") blank_files).
    intros raw [= <-]. reflexivity.
  - apply (llm_main_blank_prompt hello_lexicon demo_driver one_second id demo_llm
             (u "tts_pipeline.py") (u "llm_tts_pipeline.py") (u "script.txt") (u "out\speech.wav")
             (u "speech.json") nbsp_files).
    intros raw [= <-]. reflexivity.
  - apply (llm_main_blank_prompt hello_lexicon demo_driver one_second id demo_llm
             (u "tts_pipeline.py") (u "llm_tts_pipeline.py") (u "script.txt") (u "out\speech.wav")
             (u "speech.json") ∅).
    intros raw. rewrite lookup_empty. discriminate.
Defined.



(** X18. When the reply of the language model is blank after trimming,
    [llm_tts_pipeline.py] has already overwritten the script with the empty
    text when [tts_pipeline.py] rejects it: the run exits with status 1,
    the script is empty, and no audio or alignment file is written. (The
    path rendering is assumed idempotent, so that both scripts mean the same
    file.) *)
Theorem llm_main_blank_reply (cmu : lexicon) (driver : engine)
    (render : str -> engine -> wav) (path_str : str -> str)
    (llm : str -> str * str) (tts_script : str)
    (a0 a1 a2 a3 : str) (fs : files) (raw : str) :
  path_str (path_str a1) = path_str a1 ->
  fs !! path_str a1 = Some (Text raw) ->
  strip raw <> [] ->
  strip (llm (strip raw)).1 = [] ->
  run (llm_main cmu driver render path_str llm tts_script) [a0; a1; a2; a3] fs
  = (1%Z, <[path_str a1 := Text []]> fs).
Proof.
  intros Hidem Hfile Htext Hreply.
  rewrite (llm_main_steps cmu driver render path_str llm tts_script
             a0 a1 a2 a3 fs raw Hfile Htext).
  unfold get_reply_and_emotion, tts_argv. destruct (llm (strip raw)) as [t e].
  cbn [fst snd] in *. rewrite Hreply.
  unfold run, main, mbind, io_bind, read_text.
  rewrite Hidem, lookup_insert_eq. reflexivity.
Qed.

Lemma llm_main_blank_reply_witness :
  run (llm_main hello_lexicon demo_driver one_second id blank_llm (u "tts_pipeline.py"))
    llm_argv demo_files
  = (1%Z, <[(u "script.txt") := Text []]> demo_files).
Proof.
  apply (llm_main_blank_reply hello_lexicon demo_driver one_second id blank_llm
           (u "tts_pipeline.py") (u "llm_tts_pipeline.py") (u "script.txt") (u "out\speech.wav")
           (u "speech.json") demo_files (u "Hello world")).
  - reflexivity.
  - reflexivity.
  - discriminate.
  - reflexivity.
Defined.

(** * The lexicon cache and the API key *)

Lemma get_cmu_calls_cached corpora d n :
  get_cmu_calls corpora {| cached := Some d; loads := n |}
  = (replicate (length corpora) d, {| cached := Some d; loads := n |}).
Proof.
  induction corpora as [|corpus rest IH]; cbn [get_cmu_calls length replicate];
    [reflexivity|].
  unfold get_cmu. cbn [cached]. rewrite IH. reflexivity.
Qed.

(** X19. [get_cmu] builds the lexicon once: starting from the empty cache,
    every call returns the lexicon built at the first call, whatever the
    loader would build later, and the loader has run exactly once. *)
Theorem get_cmu_loads_once (corpus : lexicon) (later : list lexicon) :
  get_cmu_calls (corpus :: later) {| cached := None; loads := 0 |}
  = (replicate (S (length later)) corpus, {| cached := Some corpus; loads := 1 |}).
Proof.
  cbn [get_cmu_calls]. unfold get_cmu. cbn [cached loads].
  rewrite get_cmu_calls_cached. reflexivity.
Qed.

(** X20. [make_client] takes a non-empty OPENAI_API_KEY as it is and does
    not look at the key file; otherwise it takes the trimmed text of the key
    file; it raises RuntimeError exactly when the variable is unset or empty
    and the key file is missing or blank, so the key it builds a client
    from is never empty. Trimming is [str.strip], which removes every
    character Python counts as white space. *)
Theorem make_client_key (env : option str) (key_path : str) (fs : files) :
  (forall k, env = Some k -> k <> [] -> make_client env key_path fs = OpenAI k)
  /\ (forall s, falsy env = true -> fs !! key_path = Some (Text s) -> strip s <> [] ->
        make_client env key_path fs = OpenAI (strip s))
  /\ (make_client env key_path fs = RuntimeError
      <-> falsy env = true
          /\ (fs !! key_path = None
              \/ exists s, fs !! key_path = Some (Text s) /\ strip s = []))
  /\ (forall k, make_client env key_path fs = OpenAI k -> k <> []).
Proof.
  unfold make_client. split; [|split; [|split]].
  - intros k -> Hk. apply eqs_neq in Hk. cbn [falsy]. rewrite Hk.
    cbv iota. rewrite Hk. reflexivity.
  - intros s -> -> Hs. apply eqs_neq in Hs. rewrite Hs. reflexivity.
  - destruct env as [k|]; cbn [falsy];
      [destruct (eqs_spec k []) as [->|Hk]|].
    + destruct (fs !! key_path) as [[s| |]|] eqn:Hfile.
      * destruct (eqs_spec (strip s) []) as [Hs|Hs].
        -- split; [intros _; split; [reflexivity|]; right; eauto | reflexivity].
        -- split; [discriminate|].
           intros (_ & [[=] | (s' & [= <-] & Hs')]). contradiction.
      * split; [discriminate|]. intros (_ & [[=] | (s' & [=] & _)]).
      * split; [discriminate|]. intros (_ & [[=] | (s' & [=] & _)]).
      * split; [intros _; auto | reflexivity].
    + destruct (eqs_spec k []) as [|_]; [contradiction|].
      split; [discriminate | intros [[=] _]].
    + destruct (fs !! key_path) as [[s| |]|] eqn:Hfile.
      * destruct (eqs_spec (strip s) []) as [Hs|Hs].
        -- split; [intros _; split; [reflexivity|]; right; eauto | reflexivity].
        -- split; [discriminate|].
           intros (_ & [[=] | (s' & [= <-] & Hs')]). contradiction.
      * split; [discriminate|]. intros (_ & [[=] | (s' & [=] & _)]).
      * split; [discriminate|]. intros (_ & [[=] | (s' & [=] & _)]).
      * split; [intros _; auto | reflexivity].
  - intros k.
    destruct (if falsy env then _ else _) as [[k'|]|e]; try discriminate.
    destruct (eqs_spec k' []) as [|Hk']; [discriminate|].
    intros [= <-]. exact Hk'.
Qed.

Lemma make_client_key_witness :
  make_client (Some (u "sk-env")) (u "openai_key.txt") key_files = OpenAI (u "sk-env")
  /\ make_client (Some []) (u "openai_key.txt") key_files = OpenAI (u "sk-test")
  /\ make_client None (u "openai_key.txt") ∅ = RuntimeError
  /\ make_client None (u "openai_key.txt")
       (<[u "openai_key.txt" := Text [160; 8195; 10]%N]> ∅) = RuntimeError.
Proof.
  destruct (make_client_key (Some (u "sk-env")) (u "openai_key.txt") key_files)
    as (Henv & _).
  destruct (make_client_key (Some []) (u "openai_key.txt") key_files)
    as (_ & Hfile & _).
  destruct (make_client_key None (u "openai_key.txt") ∅) as (_ & _ & Hnone & _).
  destruct (make_client_key None (u "openai_key.txt")
              (<[u "openai_key.txt" := Text [160; 8195; 10]%N]> ∅))
    as (_ & _ & Hnbsp & _).
  split; [apply Henv; [reflexivity | discriminate]|].
  split; [apply (Hfile (32 :: u "sk-test" ++ [10])%N);
          [reflexivity | reflexivity | discriminate]|].
  split; [apply Hnone; split; [reflexivity|]; left; reflexivity|].
  apply Hnbsp. split; [reflexivity|]. right.
  exists [160; 8195; 10]%N. split; reflexivity.
Defined.
